(** * Credit-card statement analysis: model and properties

    A shallow embedding of the three scripts of the repository

    - [extract_pdf_data.py]: text extraction, transaction parsing,
      categorization, aggregation and the driver [main];
    - [clean_analysis.py]: the cleaning pass and the re-categorization;
    - [saas_analysis.py]: the filter of the SaaS rows, the service names and
      the subscription-type detector.

    Modelling conventions.

    - A Python [str] is a [string]: the bytes of its UTF-8 encoding.  The
      operators [in], [==] and [<] agree on code points and on UTF-8 bytes;
      [len] and slicing count code points and are modelled by counting lead
      bytes.  The white space of [strip], the class [\d] of a pattern and
      the digits of [float] are classes of code points, those of Unicode
      14.0: the string is cut into its code points for them.
    - A Python [float] amount is the rational it denotes, a [Qc]; infinities
      and NaN are outside the model.  The sums and averages of pandas are
      written without their rounding, and the properties below rest on
      comparisons of amounts and on counts only, never on an equality
      between sums.
    - A [dict] whose iteration order matters is an association list.
    - [print] appends to a console log; calls into PyPDF2, pdfplumber, the
      file system and matplotlib are answered by a [World] record.
    - [re.findall] and [str.upper] are parameters of the development. *)

From Stdlib Require Import Ascii QArith Qcanon Qcabs Lqa.
From stdpp Require Import gmap strings list numbers sorting pretty.

(** ** Python string operations *)

Module PyStr.

(** [k in d] for two strings. *)
Fixpoint str_in (k d : string) : bool :=
  if String.prefix k d then true
  else match d with
       | EmptyString => false
       | String _ d' => str_in k d'
       end.

Definition byte_of (c : ascii) : N := N_of_ascii c.

(** Bytes [10xxxxxx] continue a code point started earlier. *)
Definition is_continuation (c : ascii) : bool :=
  ((128 <=? byte_of c) && (byte_of c <=? 191))%N.

(** *** Code points

    A [str] is a sequence of code points, and the classes [\d] of [re],
    the white space of [str.strip] and the digits of [float] are classes
    of code points.  [chars s] are the code points of [s], each as the
    bytes that encode it: a first byte and the continuation bytes after
    it. *)
Fixpoint chars (s : string) : list string :=
  match s with
  | EmptyString => []
  | String c s' =>
      match chars s' with
      | (String c' _ as ch) :: rest =>
          if is_continuation c' then String c ch :: rest
          else String c EmptyString :: ch :: rest
      | rest => String c EmptyString :: rest
      end
  end.

Definition join (cs : list string) : string := foldr String.append EmptyString cs.

Fixpoint continuation_bits (acc : N) (s : string) : N :=
  match s with
  | EmptyString => acc
  | String c s' => continuation_bits (acc * 64 + byte_of c mod 64)%N s'
  end.

(** The number of the code point that the bytes [ch] encode. *)
Definition code_point (ch : string) : N :=
  match ch with
  | EmptyString => 0%N
  | String c rest =>
      let b := byte_of c in
      if (b <? 128)%N then b
      else if (b <? 224)%N then continuation_bits (b mod 32)%N rest
      else if (b <? 240)%N then continuation_bits (b mod 16)%N rest
      else continuation_bits (b mod 8)%N rest
  end.

(** The decimal digits of Unicode 14.0 (category Nd), by the code point of
    the digit zero of each script: the nine code points after it are its
    digits one to nine. *)
Definition decimal_zeros : list N :=
  [
   48; 1632; 1776; 1984; 2406; 2534; 2662; 2790;
   2918; 3046; 3174; 3302; 3430; 3558; 3664; 3792;
   3872; 4160; 4240; 6112; 6160; 6470; 6608; 6784;
   6800; 6992; 7088; 7232; 7248; 42528; 43216; 43264;
   43472; 43504; 43600; 44016; 65296; 66720; 68912; 69734;
   69872; 69942; 70096; 70384; 70736; 70864; 71248; 71360;
   71472; 71904; 72016; 72784; 73040; 73120; 92768; 92864;
   93008; 120782; 120792; 120802; 120812; 120822; 123200; 123632;
   125264; 130032 ]%N.

(** [unicodedata.decimal]: the value of a decimal digit. *)
Definition decimal (cp : N) : option N :=
  (λ zero, cp - zero)%N <$>
  List.find (λ zero, (zero <=? cp) && (cp <? zero + 10))%N decimal_zeros.

(** The class [\d] of a pattern that is a [str]. *)
Definition is_digit (ch : string) : bool :=
  bool_decide (is_Some (decimal (code_point ch))).

(** The code points for which [str.isspace] holds. *)
Definition white_space : list N :=
  [
   9; 10; 11; 12; 13; 28; 29; 30; 31; 32;
   133; 160; 5760; 8192; 8193; 8194; 8195; 8196; 8197; 8198;
   8199; 8200; 8201; 8202; 8232; 8233; 8239; 8287; 12288 ]%N.

Definition is_space (ch : string) : bool :=
  bool_decide (code_point ch ∈ white_space).

Fixpoint filter_chars (p : ascii → bool) (s : string) : string :=
  match s with
  | EmptyString => EmptyString
  | String c s' =>
      if p c then String c (filter_chars p s') else filter_chars p s'
  end.

(** [len(s)]: the number of code points. *)
Fixpoint len (s : string) : nat :=
  match s with
  | EmptyString => 0
  | String c s' => if is_continuation c then len s' else S (len s')
  end.

(** [s[:n]]: the first [n] code points. *)
Fixpoint slice_to (n : nat) (s : string) : string :=
  match s with
  | EmptyString => EmptyString
  | String c s' =>
      if is_continuation c then String c (slice_to n s')
      else match n with
           | 0 => EmptyString
           | S n' => String c (slice_to n' s')
           end
  end.

Fixpoint lstrip_chars (cs : list string) : list string :=
  match cs with
  | [] => []
  | ch :: cs' => if is_space ch then lstrip_chars cs' else cs
  end.

Fixpoint rstrip_chars (cs : list string) : list string :=
  match cs with
  | [] => []
  | ch :: cs' =>
      match rstrip_chars cs' with
      | [] => if is_space ch then [] else [ch]
      | r => ch :: r
      end
  end.

(** [s.strip()] *)
Definition strip (s : string) : string :=
  join (lstrip_chars (rstrip_chars (chars s))).

(** [re.sub(r'[^\d,.]', '', s)] *)
Definition is_amount_char (ch : string) : bool :=
  is_digit ch || bool_decide (ch = ",") || bool_decide (ch = ".").

Definition sub_non_amount (s : string) : string :=
  join (filter (λ ch, is_amount_char ch = true) (chars s)).

(** [s.replace(',', '')] *)
Definition remove_commas (s : string) : string :=
  filter_chars (λ c, negb (Ascii.eqb c ",")) s.

(** *** [float(s)]

    [float] accepts an optional sign, decimal digits of any script and at
    most one decimal point with a digit on at least one side of it.  (It
    also accepts exponents, underscores between digits, surrounding white
    space and the words inf and nan; none of these survives
    [sub_non_amount], and the model answers [None] on them.)  [None]
    stands for [ValueError]. *)

Fixpoint digits_to_N (acc : N) (cs : list string) : option N :=
  match cs with
  | [] => Some acc
  | ch :: cs' =>
      match decimal (code_point ch) with
      | Some d => digits_to_N (acc * 10 + d)%N cs'
      | None => None
      end
  end.

(** Splits at the first decimal point, if any. *)
Fixpoint split_point (cs : list string) : list string * option (list string) :=
  match cs with
  | [] => ([], None)
  | ch :: cs' =>
      if bool_decide (ch = ".") then ([], Some cs')
      else let '(i, f) := split_point cs' in (ch :: i, f)
  end.

Definition unsigned_of_string (s : string) : option Qc :=
  let '(int_part, frac) := split_point (chars s) in
  let frac_part := default [] frac in
  if bool_decide (int_part = [] ∧ frac_part = []) then None
  else
    i ← digits_to_N 0 int_part;
    f ← digits_to_N 0 frac_part;
    let scale := (10 ^ Z.of_nat (length frac_part))%Z in
    Some (Q2Qc ((Z.of_N i * scale + Z.of_N f)%Z # Z.to_pos scale)).

Definition float_of_string (s : string) : option Qc :=
  match s with
  | String "-" s' => Qcopp <$> unsigned_of_string s'
  | String "+" s' => unsigned_of_string s'
  | _ => unsigned_of_string s
  end.

End PyStr.

(** ** Stable sorting, as used for pandas' [groupby], [sort_values] and
    [nlargest].  pandas leaves the order of ties of [sort_values] open;
    the model keeps them in their original order. *)

Module Pandas.

Fixpoint insert_by {A} (le : A → A → bool) (x : A) (l : list A) : list A :=
  match l with
  | [] => [x]
  | y :: l' => if le x y then x :: l else y :: insert_by le x l'
  end.

Definition sort_by {A} (le : A → A → bool) (l : list A) : list A :=
  foldr (insert_by le) [] l.

(** [Series.sum()] *)
Definition sum (l : list Qc) : Qc := foldr Qcplus (Q2Qc 0) l.

(** [drop_duplicates(subset=..., keep='first')]: a row is dropped when an
    earlier row has the same values in the subset columns. *)
Fixpoint drop_duplicates {A K} `{EqDecision K} (subset : A → K)
    (earlier : list K) (df : list A) : list A :=
  match df with
  | [] => []
  | r :: df' =>
      if decide (subset r ∈ earlier)
      then drop_duplicates subset earlier df'
      else r :: drop_duplicates subset (subset r :: earlier) df'
  end.

(** [Series.mean()]; [None] is the NaN of an empty series. *)
Definition mean (l : list Qc) : option Qc :=
  match l with
  | [] => None
  | _ :: _ => Some (sum l / Q2Qc (Z.of_nat (length l) # 1))%Qc
  end.

Definition le_value (x y : Qc) : bool := bool_decide (x ≤ y)%Qc.

(** [Series.median()]: the middle value of the sorted series, the mean of
    the two middle values when their number is even; [None] is the NaN of
    an empty series. *)
Definition median (l : list Qc) : option Qc :=
  let sorted := sort_by le_value l in
  let n := length sorted in
  if bool_decide (n = 0) then None
  else if Nat.odd n then sorted !! (n / 2)
  else
    a ← sorted !! (n / 2 - 1);
    b ← sorted !! (n / 2);
    Some ((a + b) / Q2Qc 2)%Qc.

End Pandas.

(** ** The keyword scan

    [categorize_transactions] and [improve_categorization] run the same two
    nested loops, each over its own mapping. *)

Module Keywords.
Import PyStr.

(** The loop over one keyword list: [true] when it left through [break]. *)
Fixpoint for_keywords (description : string) (keywords : list string) : bool :=
  match keywords with
  | [] => false
  | keyword :: rest =>
      if str_in keyword description then true
      else for_keywords description rest
  end.

(** The loop over the mapping: the category assigned, if any. *)
Fixpoint for_categories (description : string)
    (cats : list (string * list string)) : option string :=
  match cats with
  | [] => None
  | (cat, keywords) :: rest =>
      if bool_decide (cat = "Other") then for_categories description rest
      else if for_keywords description keywords then Some cat
      else for_categories description rest
  end.

Definition assign_category (cats : list (string * list string))
    (description : string) : string :=
  match for_categories description cats with
  | Some cat => cat
  | None => "Other"
  end.

End Keywords.

(** ** extract_pdf_data.py *)

Module ExtractPdfData.
Import PyStr Keywords.

Definition nl : string := String "010"%char EmptyString.

(** A transaction dict; the key ['category'] is absent until
    [categorize_transactions] assigns it. *)
Record Transaction := {
  date : string;
  description : string;
  amount : Qc;
  category : option string
}.

(** A row of the data frame built by [analyze_spending]. *)
Record Row := {
  row_date : string;
  row_description : string;
  row_amount : Qc;
  row_category : option string;
  row_amount_abs : Qc
}.

Record Analysis := {
  total_spending : Qc;
  average_transaction : Qc;
  number_of_transactions : nat;
  category_breakdown : list (string * Qc);
  top_transactions : list (string * Qc * option string);
  transactions_by_category : list (string * nat)
}.

(** Console lines.  A formatted line is a constructor carrying the values
    it interpolates; [Line] is a literal. *)
Inductive Console :=
| Line (s : string)
| PdfHasPages (n : nat)
| DecryptionResult (code : Z)
| DecryptionError (e : string)
| ExtractedChars (n page : nat)
| PageError (page : nat) (e : string)
| PyPDF2Error (e : string)
| AlternativeFailed (e : string)
| PdfNotFound (path : string)
| UnexpectedError (e : string)
| PlumberOpened (pages : nat)
| PlumberPage (page n : nat)
| PlumberAlsoFailed (e : string)
| PlumberError (e : string)
| TextHead (s : string)
| TryingPattern (n : nat) (pattern : string)
| FoundMatches (k n : nat)
| AddedTransaction (d desc : string) (a : Qc)
| ErrorParsingMatch (m : list string)
| TotalUnique (n : nat)
| AnalyzingTransactions (n : nat)
| PdfPath (path : string)
| ExtractedTotal (n : nat)
| FoundTransactions (n : nat)
| VisualizationError (e : string)
| Report (a : Analysis).

(** What a run does, in order. *)
Inductive Event :=
| Print (c : Console)
| OpenPdf (path : string)
| PlumberOpen (path password : string)
| PipInstall
| SaveFig (file : string)
| WriteText (file content : string)
| WriteReport (file : string) (a : Analysis)
| ToCsv (file : string) (df : list Row).

(** *** The environment *)

Inductive Outcome (A : Type) :=
| Returns (a : A)
| Raises (e : string).
Arguments Returns {A} a.
Arguments Raises {A} e.

(** A [PyPDF2.PdfReader]. *)
Record Reader := {
  is_encrypted : bool;
  decrypt : string → Outcome Z;
  pages : list (Outcome string)
}.

Inductive OpenResult :=
| Opened
| FileNotFound
| OpenFails (e : string).

(** What the run finds outside itself.  A reader raises when it is built,
    when it decrypts or when a page is extracted; other failures of the
    libraries, and failures of the writes, are not modelled. *)
Record World := {
  environ : gmap string string;
  open_rb : string → OpenResult;
  (** [PyPDF2.PdfReader(file, strict=...)] on the file at a path; for the
      strict reader, together with the count of its pages that follows
      under the same handler, which raises for a PDF that is encrypted and
      not yet decrypted *)
  PdfReader : string → bool → Outcome Reader;
  import_pdfplumber : bool;
  pip_install_pdfplumber : Outcome ();
  import_pdfplumber_again : bool;
  (** [pdfplumber.open(path, password=...)] and the [extract_text()] of
      its pages *)
  pdfplumber_open : string → string → Outcome (list (Outcome (option string)));
  savefig : Outcome ()
}.

Definition getenv (w : World) (name : string) : option string :=
  environ w !! name.

(** Python truthiness of [str | None]. *)
Definition truthy (text : option string) : bool :=
  match text with
  | Some (String _ _) => true
  | _ => false
  end.

(** *** [extract_pdf_text] *)

Definition page_header (page : nat) : string :=
  "--- Page " +:+ pretty page +:+ " ---" +:+ nl.

(** The page loop of the first attempt: a failing page is reported and
    skipped. *)
Fixpoint extract_pages (page_num : nat) (ps : list (Outcome string))
    (text : string) : string * list Event :=
  match ps with
  | [] => (text, [])
  | Returns page_text :: ps' =>
      let text := text +:+ page_header (page_num + 1) in
      let text := text +:+ page_text +:+ nl +:+ nl in
      let '(text, out) := extract_pages (S page_num) ps' text in
      (text, Print (ExtractedChars (len page_text) (page_num + 1)) :: out)
  | Raises page_error :: ps' =>
      let '(text, out) := extract_pages (S page_num) ps' text in
      (text, Print (PageError (page_num + 1) page_error) :: out)
  end.

(** The page loop of the second attempt: the first failing page aborts. *)
Fixpoint extract_pages_alt (ps : list (Outcome string)) (text : string)
    : Outcome string :=
  match ps with
  | [] => Returns text
  | Returns page_text :: ps' => extract_pages_alt ps' (text +:+ page_text +:+ nl)
  | Raises e :: _ => Raises e
  end.

Definition alternative_approach (w : World) (pdf_path password : string)
    : option string * list Event :=
  let out := [Print (Line "Trying alternative PDF reading approach...")] in
  let failed e := (None, out ++ [Print (AlternativeFailed e)]) in
  match PdfReader w pdf_path false with
  | Raises e => failed e
  | Returns pdf_reader =>
      let decrypted :=
        if is_encrypted pdf_reader
        then match decrypt pdf_reader password with
             | Raises e => Some e
             | Returns _ => None
             end
        else None in
      match decrypted with
      | Some e => failed e
      | None =>
          match extract_pages_alt (pages pdf_reader) "" with
          | Raises e => failed e
          | Returns text => (Some text, out)
          end
      end
  end.

Definition extract_pdf_text (w : World) (pdf_path password : string)
    : option string * list Event :=
  let opened := [OpenPdf pdf_path] in
  match open_rb w pdf_path with
  | FileNotFound => (None, opened ++ [Print (PdfNotFound pdf_path)])
  | OpenFails e => (None, opened ++ [Print (UnexpectedError e)])
  | Opened =>
      match PdfReader w pdf_path true with
      | Returns pdf_reader =>
          let out := opened ++ [Print (PdfHasPages (length (pages pdf_reader)))] in
          let all_pages out :=
            let '(text, out') := extract_pages 0 (pages pdf_reader) "" in
            (Some text, out ++ out') in
          if is_encrypted pdf_reader then
            let out :=
              out ++ [Print (Line "PDF is encrypted, attempting to decrypt...")] in
            match decrypt pdf_reader password with
            | Returns result =>
                let out := out ++ [Print (DecryptionResult result)] in
                if bool_decide (result = 0%Z)
                then (None, out ++ [Print (Line "Failed to decrypt PDF with provided password")])
                else all_pages out
            | Raises decrypt_error =>
                (None, out ++ [Print (DecryptionError decrypt_error)])
            end
          else all_pages out
      | Raises reader_error =>
          let '(text, out) := alternative_approach w pdf_path password in
          (text, opened ++ Print (PyPDF2Error reader_error) :: out)
      end
  end.

(** *** [debug_pdf_content] *)

(** The page loop after a successful import: the text, or the exception
    that ended the loop, and what was printed until then. *)
Fixpoint plumber_pages (page_num : nat) (ps : list (Outcome (option string)))
    (text : string) : Outcome string * list Event :=
  match ps with
  | [] => (Returns text, [])
  | Raises e :: _ => (Raises e, [])
  | Returns page_text :: ps' =>
      if truthy page_text then
        let page_text := default "" page_text in
        let text := text +:+ page_header (page_num + 1) in
        let text := text +:+ page_text +:+ nl +:+ nl in
        let '(r, out) := plumber_pages (S page_num) ps' text in
        (r, Print (PlumberPage (page_num + 1) (len page_text)) :: out)
      else plumber_pages (S page_num) ps' text
  end.

(** The page loop after the installation. *)
Fixpoint plumber_pages_again (ps : list (Outcome (option string)))
    (text : string) : Outcome string :=
  match ps with
  | [] => Returns text
  | Raises e :: _ => Raises e
  | Returns page_text :: ps' =>
      if truthy page_text
      then plumber_pages_again ps' (text +:+ default "" page_text +:+ nl)
      else plumber_pages_again ps' text
  end.

(** [Raises] is an exception that leaves [debug_pdf_content]: only a
    failing installation does. *)
Definition debug_pdf_content (w : World) (pdf_path password : string)
    : Outcome (option string) * list Event :=
  if import_pdfplumber w then
    let out := [Print (Line "Trying with pdfplumber..."); PlumberOpen pdf_path password] in
    match pdfplumber_open w pdf_path password with
    | Raises e => (Returns None, out ++ [Print (PlumberError e)])
    | Returns ps =>
        let out := out ++ [Print (PlumberOpened (length ps))] in
        match plumber_pages 0 ps "" with
        | (Raises e, out') => (Returns None, out ++ out' ++ [Print (PlumberError e)])
        | (Returns text, out') => (Returns (Some text), out ++ out')
        end
    end
  else
    let out := [Print (Line "pdfplumber not available, installing..."); PipInstall] in
    match pip_install_pdfplumber w with
    | Raises e => (Raises e, out)
    | Returns _ =>
        if import_pdfplumber_again w then
          let out := out ++ [PlumberOpen pdf_path password] in
          match pdfplumber_open w pdf_path password with
          | Raises e => (Returns None, out ++ [Print (PlumberAlsoFailed e)])
          | Returns ps =>
              match plumber_pages_again ps "" with
              | Raises e => (Returns None, out ++ [Print (PlumberAlsoFailed e)])
              | Returns text => (Returns (Some text), out)
              end
          end
        else (Returns None, out ++ [Print (PlumberAlsoFailed "No module named 'pdfplumber'")])
    end.

(** *** [parse_transactions] *)

Definition rule (n : nat) : string := String.concat "" (replicate n "=").

Definition key (t : Transaction) : string * string * Qc :=
  (date t, description t, amount t).

(** The duplicate-removal loop, with its [seen] set and its output list. *)
Fixpoint remove_duplicates (transactions : list Transaction)
    (seen : gset (string * string * Qc))
    (unique_transactions : list Transaction) : list Transaction :=
  match transactions with
  | [] => unique_transactions
  | t :: rest =>
      if decide (key t ∈ seen)
      then remove_duplicates rest seen unique_transactions
      else remove_duplicates rest ({[key t]} ∪ seen) (unique_transactions ++ [t])
  end.

(** The body of the loop over the matches of one pattern.  A match is
    the tuple of its groups. *)
Definition parse_match (m : list string) : option Transaction * list Console :=
  if bool_decide (3 ≤ length m) then
    let date_str := nth 0 m "" in
    let description := strip (nth (length m - 2) m "") in
    let amount_str := strip (nth (length m - 1) m "") in
    let amount_str := sub_non_amount amount_str in
    if bool_decide (amount_str ≠ "") then
      match float_of_string (remove_commas amount_str) with
      | Some amount =>
          (Some {| date := date_str; description := description;
                   amount := amount; category := None |},
           [AddedTransaction date_str (slice_to 30 description) amount])
      | None => (None, [ErrorParsingMatch m])
      end
    else (None, [])
  else (None, []).

Fixpoint for_matches (matches : list (list string))
    (transactions : list Transaction) : list Transaction * list Console :=
  match matches with
  | [] => (transactions, [])
  | m :: rest =>
      let '(t, out) := parse_match m in
      let transactions :=
        match t with
        | Some t => transactions ++ [t]
        | None => transactions
        end in
      let '(transactions, out') := for_matches rest transactions in
      (transactions, out ++ out')
  end.

Section Parsing.

(** [re.findall(pattern, text, re.MULTILINE | re.DOTALL)] *)
Variable findall : string → string → list (list string).

Definition patterns : list string :=
  [ "(\d{2}/\d{2})\s+([\u4e00-\u9fff\w\s\-\*\.]+?)\s+([\d,]+\.?\d*)"
  ; "(\d{4}/\d{2}/\d{2})\s+([\u4e00-\u9fff\w\s\-\*\.]+?)\s+([\d,]+\.?\d*)"
  ; "(\d{2}/\d{2})\s+(\d+)\s+([\u4e00-\u9fff\w\s\-\*\.]+?)\s+([\d,]+\.?\d*)"
  ; "(\d{2}/\d{2})\s+([\u4e00-\u9fff\w\s\-\*\.]+?)\s+\-?([\d,]+\.?\d*)"
  ; "(\d{1,2}/\d{1,2})\s+(.+?)\s+([\d,]+\.?\d*)"
  ; "(\d{2}/\d{2})\s{2,}([\u4e00-\u9fff\w\s\-\*\.]+?)\s{2,}([\d,]+\.?\d*)"
  ].

Fixpoint for_patterns (pattern_num : nat) (ps : list string) (text : string)
    (transactions : list Transaction) : list Transaction * list Console :=
  match ps with
  | [] => (transactions, [])
  | pattern :: ps' =>
      let matches := findall pattern text in
      let '(transactions, out) := for_matches matches transactions in
      let '(transactions, out') :=
        for_patterns (S pattern_num) ps' text transactions in
      (transactions,
       TryingPattern pattern_num pattern
         :: FoundMatches (length matches) pattern_num :: out ++ out')
  end.

Definition parse_transactions (text : string)
    : list Transaction * list Console :=
  let head :=
    [Line "First 2000 characters of extracted text:"; Line (rule 50);
     TextHead (slice_to 2000 text); Line (rule 50)] in
  let '(transactions, out) := for_patterns 1 patterns text [] in
  let unique_transactions := remove_duplicates transactions ∅ [] in
  (unique_transactions,
   head ++ out ++ [TotalUnique (length unique_transactions)]).

End Parsing.

(** *** [categorize_transactions] *)

Definition categories : list (string * list string) :=
  [ ("Food & Dining",
      ["È§êÂª≥"; "È£ü"; "È£≤"; "È∫•Áï∂Âãû"; "ÊòüÂ∑¥ÂÖã"; "‰æøÂà©ÂïÜÂ∫ó";
       "Ë∂ÖÂ∏Ç"; "7-11"; "ÂÖ®ÂÆ∂"; "ÁæéÈ£ü"; "È§ê"; "È£Ø"; "ÂíñÂï°"])
  ; ("Transportation",
      ["Êç∑ÈÅã"; "ÂÖ¨Ëªä"; "Ë®àÁ®ãËªä"; "Âä†Ê≤π"; "ÂÅúËªä"; "UBER"; "Ê≤πÁ´ô";
       "‰∫§ÈÄö"; "È´òÈêµ"; "Âè∞Èêµ"; "ÂÆ¢ÈÅã"])
  ; ("Shopping",
      ["ÁôæË≤®"; "Ë≥ºÁâ©"; "ÊúçÈ£æ"; "ÈõªÂô®"; "Á∂≤Ë≥º"; "ÂïÜÂüé"; "AMAZON";
       "Ë≤∑"; "Ë≥º"; "ÂïÜÂ∫ó"; "Â∏ÇÂ†¥"])
  ; ("Entertainment",
      ["ÈõªÂΩ±"; "ÈÅäÊà≤"; "Â®õÊ®Ç"; "KTV"; "ÂÅ•Ë∫´"; "ÈÅãÂãï"; "Êõ∏Â∫ó";
       "Èü≥Ê®Ç"])
  ; ("Bills & Utilities",
      ["ÈõªË≤ª"; "Ê∞¥Ë≤ª"; "Áì¶ÊñØ"; "Èõª‰ø°"; "‰øùÈö™"; "ÈäÄË°å"; "Ë≤ªÁî®";
       "Â∏≥ÂñÆ"; "Áπ≥Ë≤ª"])
  ; ("Healthcare",
      ["ÈÜ´Èô¢"; "Ë®∫ÊâÄ"; "Ëó•Â±Ä"; "ÂÅ•Â∫∑"; "ÈÜ´ÁôÇ"; "ÁâôÁßë"; "ÁúºÁßë"])
  ; ("Education",
      ["Â≠∏Ê†°"; "Ë£úÁøí"; "Êõ∏Â∫ó"; "ÊñáÂÖ∑"; "ÊïôËÇ≤"; "Â≠∏Ë≤ª"])
  ; ("Travel",
      ["È£ØÂ∫ó"; "Ê©üÁ•®"; "ÊóÖÈÅä"; "‰ΩèÂÆø"; "ÊóÖË°å"; "HOTEL"])
  ; ("Cash/ATM",
      ["ÊèêÊ¨æ"; "ATM"; "ÁèæÈáë"; "ËΩâÂ∏≥"; "ÂåØÊ¨æ"])
  ; ("Other",
      [])
  ].

Definition categorize (t : Transaction) : Transaction :=
  {| date := date t; description := description t; amount := amount t;
     category := Some (assign_category categories (description t)) |}.

Definition categorize_transactions (transactions : list Transaction)
    : list Transaction :=
  map categorize transactions.

(** *** [analyze_spending] *)

Definition to_row (t : Transaction) : Row :=
  {| row_date := date t; row_description := description t;
     row_amount := amount t; row_category := category t;
     row_amount_abs := Qcabs (amount t) |}.

(** [groupby('category')]: the keys in ascending order, rows without a
    category left out. *)
Definition group_keys (df : list Row) : list string :=
  Pandas.sort_by String.leb (remove_dups (omap row_category df)).

Definition group (df : list Row) (k : string) : list Row :=
  filter (λ r, row_category r = Some k) df.

Definition ge_amount (p q : string * Qc) : bool := bool_decide (q.2 ≤ p.2)%Qc.

Definition ge_amount_abs (r1 r2 : Row) : bool :=
  bool_decide (row_amount_abs r2 ≤ row_amount_abs r1)%Qc.

(** [Raises] is the [KeyError] of a frame without a category column. *)
Definition analyze_spending (transactions : list Transaction)
    : Outcome (option (Analysis * list Row)) * list Console :=
  let df := map to_row transactions in
  match df with
  | [] => (Returns None, [Line "No transactions found to analyze"])
  | _ :: _ =>
      let out := [AnalyzingTransactions (length df)] in
      let total_spending := Pandas.sum (map row_amount_abs df) in
      let avg_transaction :=
        (total_spending / Q2Qc (Z.of_nat (length df) # 1))%Qc in
      let num_transactions := length df in
      if forallb (λ r, bool_decide (row_category r = None)) df
      then (Raises "category", out)
      else
        let category_spending :=
          Pandas.sort_by ge_amount
            (map (λ k, (k, Pandas.sum (map row_amount_abs (group df k))))
                 (group_keys df)) in
        let analysis :=
          {| total_spending := total_spending;
             average_transaction := avg_transaction;
             number_of_transactions := num_transactions;
             category_breakdown := category_spending;
             top_transactions :=
               map (λ r, (row_description r, row_amount r, row_category r))
                   (take 5 (Pandas.sort_by ge_amount_abs df));
             transactions_by_category :=
               map (λ k, (k, length (group df k))) (group_keys df) |} in
        (Returns (Some (analysis, df)), out)
  end.

(** *** [create_visualizations] *)

Definition create_visualizations (w : World) : list Event :=
  match savefig w with
  | Returns _ =>
      [SaveFig "credit_card_analysis.png";
       Print (Line "Visualization saved as 'credit_card_analysis.png'")]
  | Raises e => [Print (VisualizationError e)]
  end.

(** *** [main] *)

Section Main.

Variable findall : string → string → list (list string).

Definition banner : list Event :=
  map (λ s, Print (Line s))
    [rule 60; "The Pocket Company by Accucrazy";
     "Credit Card Statement PDF Analyzer"; rule 60].

Definition password_help : list Event :=
  map (λ s, Print (Line s))
    ["‚ö†Ô∏è  ERROR: PDF_PASSWORD environment variable not set.";
     "For security, set the environment variable:";
     "   Windows: set PDF_PASSWORD=your_actual_password";
     "   Linux/Mac: export PDF_PASSWORD=your_actual_password";
     nl +:+ "Example usage:";
     "   set PDF_PASSWORD=12345678";
     "   python extract_pdf_data.py"].

Definition path_warning : list Event :=
  map (λ s, Print (Line s))
    ["‚ö†Ô∏è  WARNING: Using default PDF path. Set PDF_PATH environment variable.";
     "   Windows: set PDF_PATH=your_statement.pdf";
     "   Linux/Mac: export PDF_PATH=your_statement.pdf"].

Definition extraction_failed : list Event :=
  map (λ s, Print (Line s))
    ["Failed to extract text from PDF using all available methods";
     "Please check:";
     "1. PDF file exists and is readable";
     "2. Password is correct";
     "3. PDF is not corrupted"].

Definition complete : list Event :=
  map (λ s, Print (Line s))
    [nl +:+ rule 50; "ANALYSIS COMPLETE!"; rule 50; "Files saved:";
     "- credit_card_analysis.png (visualization charts)";
     "- credit_card_analysis_report.txt (detailed report)";
     "- transactions.csv (transaction data)"; rule 50].

(** The run from the parsed text on. *)
Definition analyze_text (w : World) (text : string)
    : Outcome () * list Event :=
  let out :=
    [Print (ExtractedTotal (len text));
     Print (Line (nl +:+ "Parsing transactions..."))] in
  let '(transactions, parsed) := parse_transactions findall text in
  let out := out ++ map Print parsed in
  match transactions with
  | [] =>
      (Returns (),
       out ++
       [Print (Line "No transactions found. The PDF format might not match expected patterns.");
        WriteText "extracted_text.txt" text;
        Print (Line "Extracted text saved to 'extracted_text.txt' for manual review")])
  | _ :: _ =>
      let out :=
        out ++ [Print (FoundTransactions (length transactions));
                Print (Line "Categorizing transactions...")] in
      let transactions := categorize_transactions transactions in
      let out := out ++ [Print (Line "Analyzing spending patterns...")] in
      let '(analyzed, out') := analyze_spending transactions in
      let out := out ++ map Print out' in
      match analyzed with
      | Raises e => (Raises e, out)
      | Returns None =>
          (Returns (),
           out ++ [Print (Line "Analysis failed - no valid transactions found")])
      | Returns (Some (analysis, df)) =>
          (Returns (),
           out ++ [Print (Line "Generating visualizations...")]
               ++ create_visualizations w
               ++ [Print (Line "Generating report...");
                   Print (Report analysis);
                   WriteReport "credit_card_analysis_report.txt" analysis;
                   ToCsv "transactions.csv" df]
               ++ complete)
      end
  end.

(** The first library, then the second one when the first gave no
    text. *)
Definition extract_text (w : World) (pdf_path password : string)
    : Outcome (option string) * list Event :=
  let '(text, extracted) := extract_pdf_text w pdf_path password in
  if truthy text then (Returns text, extracted)
  else
    let '(text, debugged) := debug_pdf_content w pdf_path password in
    (text,
     extracted ++ Print (Line "PyPDF2 failed, trying alternative method...")
               :: debugged).

(** The run once the path and the password are known. *)
Definition run (w : World) (pdf_path password : string)
    : Outcome () * list Event :=
  let '(text, out) := extract_text w pdf_path password in
  let out :=
    Print (Line (nl +:+ "Attempting to extract text from PDF...")) :: out in
  match text with
  | Raises e => (Raises e, out)
  | Returns (Some (String _ _ as text)) =>
      let '(r, out') := analyze_text w text in (r, out ++ out')
  | Returns _ => (Returns (), out ++ extraction_failed)
  end.

Definition starting (pdf_path : string) : list Event :=
  [Print (PdfPath pdf_path);
   Print (Line "üîê Password: [PROTECTED]");
   Print (Line "Starting PDF Credit Card Analysis...")].

Definition main (w : World) : Outcome () * list Event :=
  let pdf_path := default "your_bank_statement.pdf" (getenv w "PDF_PATH") in
  let password := getenv w "PDF_PASSWORD" in
  match password with
  | None | Some EmptyString => (Returns (), banner ++ password_help)
  | Some password =>
      let '(pdf_path, out) :=
        if bool_decide (pdf_path = "your_bank_statement.pdf")
        then ("bank_statement.pdf", banner ++ path_warning)
        else (pdf_path, banner) in
      let '(r, out') := run w pdf_path password in
      (r, out ++ starting pdf_path ++ out')
  end.

End Main.

End ExtractPdfData.

(** ** clean_analysis.py *)

Module CleanAnalysis.
Import PyStr Keywords.
Import ExtractPdfData (Row, row_date, row_description, row_amount,
                       row_category, row_amount_abs).

Inductive Console :=
| OriginalTransactions (n : nat)
| CleanedTransactions (n : nat).

(** [str.contains('0/0|14/05')]: a search for either literal. *)
Definition invalid_date (d : string) : bool :=
  str_in "0/0" d || str_in "14/05" d.

(** [str.contains('cid:')] *)
Definition garbled (d : string) : bool := str_in "cid:" d.

Definition subset (r : Row) : string * string * Qc :=
  (row_date r, row_description r, row_amount r).

(** [clean_transactions], from the frame read from the CSV file on. *)
Definition clean_transactions (df : list Row) : list Row * list Console :=
  let original := length df in
  let df := filter (λ r, invalid_date (row_date r) = false) df in
  let df := filter (λ r, (row_amount_abs r < Q2Qc 100000)%Qc) df in
  let df := filter (λ r, garbled (row_description r) = false) df in
  let df := Pandas.drop_duplicates subset [] df in
  (df, [OriginalTransactions original; CleanedTransactions (length df)]).

Definition categories : list (string * list string) :=
  [ ("Food & Dining",
      ["餐廳"; "食"; "飲"; "麥當勞"; "星巴克"; "便利商店"; "超市"; "7-11"; "全家"; "美食"; "餐";
       "飯"; "咖啡"; "cama"; "杭州小籠包"; "養心殿"; "京星港式飲茶"; "北村家"; "吐司利亞"; "優食";
       "Subway"; "燒肉"; "創義麵"; "湘川"; "珍蜜咖啡"; "Fake Sober"; "J WOW"; "全聯福利中心";
       "麥當勞"])
  ; ("Transportation",
      ["捷運"; "公車"; "計程車"; "加油"; "停車"; "UBER"; "油站"; "交通"; "高鐵"; "台鐵"; "客運";
       "台灣大車隊"; "優步"; "Taxi"])
  ; ("Technology/Software",
      ["CURSOR"; "ADOBE"; "OPENAI"; "GOOGLE"; "FIGMA"; "HEYGEN"; "SEASALT";
       "REPORTDASH"; "MANYCHAT"; "RSS.APP"; "PADDLE"; "LEONARDO"; "Colab";
       "SPOTIFY"; "ANTHROPIC"; "Gandi"; "APIFY"; "SHOPIFY"; "PCHOME"])
  ; ("Shopping",
      ["百貨"; "購物"; "服飾"; "電器"; "網購"; "商城"; "AMAZON"; "買"; "購"; "商店"; "市場";
       "IKEA"; "宜家家居"; "永昇五金"; "今華電子"; "源達科技"])
  ; ("Entertainment",
      ["電影"; "遊戲"; "娛樂"; "KTV"; "健身"; "運動"; "書店"; "音樂"; "錢櫃"])
  ; ("Bills & Utilities",
      ["電費"; "水費"; "瓦斯"; "電信"; "保險"; "銀行"; "費用"; "帳單"; "繳費"; "手續費";
       "國外交易手續費"; "ATT"])
  ; ("Cash/ATM",
      ["提款"; "ATM"; "現金"; "轉帳"; "匯款"; "現金回饋"; "自動扣繳"])
  ; ("Business/Marketing",
      ["全球商務科技"; "LINE Ads"; "連加"])
  ; ("Other",
      [])
  ].

Definition recategorize (r : Row) : Row :=
  {| row_date := row_date r; row_description := row_description r;
     row_amount := row_amount r;
     row_category := Some (assign_category categories (row_description r));
     row_amount_abs := row_amount_abs r |}.

Definition improve_categorization (df : list Row) : list Row :=
  map recategorize df.

(** *** [generate_clean_analysis] *)

Record Analysis := {
  total_spending : Qc;
  average_transaction : option Qc;
  median_transaction : option Qc;
  number_of_transactions : nat;
  category_breakdown : list (string * Qc);
  category_counts : list (string * nat);
  top_transactions : list (string * string * Qc * option string);
  top_merchants : list (string * Qc);
  spending_by_date : list (string * Qc)
}.

(** [df.groupby(column)['amount_abs'].sum()]: the keys in ascending order,
    rows without a key left out. *)
Definition groupby_sum (column : Row → option string) (df : list Row)
    : list (string * Qc) :=
  map (λ k, (k, Pandas.sum
                  (map row_amount_abs (filter (λ r, column r = Some k) df))))
      (Pandas.sort_by String.leb (remove_dups (omap column df))).

(** [sort_values(ascending=False)] *)
Definition sort_values_desc (s : list (string * Qc)) : list (string * Qc) :=
  Pandas.sort_by ExtractPdfData.ge_amount s.

Definition ge_count (p q : string * nat) : bool := bool_decide (q.2 ≤ p.2).

(** [df['category'].value_counts()]: the categories that occur with the
    number of their rows, the most frequent first.  pandas leaves the order
    of ties open; the model keeps them in the order of first occurrence. *)
Definition value_counts (df : list Row) : list (string * nat) :=
  Pandas.sort_by ge_count
    (map (λ k, (k, length (filter (λ r, row_category r = Some k) df)))
         (Pandas.drop_duplicates id [] (omap row_category df))).

Definition generate_clean_analysis (df : list Row) : Analysis :=
  let total_spending := Pandas.sum (map row_amount_abs df) in
  let avg_transaction := Pandas.mean (map row_amount_abs df) in
  let median_transaction := Pandas.median (map row_amount_abs df) in
  let num_transactions := length df in
  let category_spending := sort_values_desc (groupby_sum row_category df) in
  let category_counts := value_counts df in
  let spending_by_date :=
    sort_values_desc (groupby_sum (λ r, Some (row_date r)) df) in
  let merchant_spending :=
    take 10 (sort_values_desc (groupby_sum (λ r, Some (row_description r)) df)) in
  {| total_spending := total_spending;
     average_transaction := avg_transaction;
     median_transaction := median_transaction;
     number_of_transactions := num_transactions;
     category_breakdown := category_spending;
     category_counts := category_counts;
     top_transactions :=
       map (λ r, (row_date r, row_description r, row_amount r, row_category r))
           (take 10 (Pandas.sort_by ExtractPdfData.ge_amount_abs df));
     top_merchants := merchant_spending;
     spending_by_date := take 10 spending_by_date |}.

(** *** [create_clean_visualizations]: the counts of the chart of amount
    ranges *)

Definition range_counts (df : list Row) : list (string * nat) :=
  [("<100", length (filter (λ r, (row_amount_abs r < Q2Qc 100)%Qc) df));
   ("100-500",
    length (filter (λ r, (Q2Qc 100 ≤ row_amount_abs r)%Qc ∧
                         (row_amount_abs r < Q2Qc 500)%Qc) df));
   ("500-1000",
    length (filter (λ r, (Q2Qc 500 ≤ row_amount_abs r)%Qc ∧
                         (row_amount_abs r < Q2Qc 1000)%Qc) df));
   ("1000-5000",
    length (filter (λ r, (Q2Qc 1000 ≤ row_amount_abs r)%Qc ∧
                         (row_amount_abs r < Q2Qc 5000)%Qc) df));
   ("5000+", length (filter (λ r, (Q2Qc 5000 ≤ row_amount_abs r)%Qc) df))].

End CleanAnalysis.

(** ** saas_analysis.py *)

Module SaasAnalysis.
Import PyStr.

Section Detect.

(** [str.upper] *)
Variable upper : string → string.

Definition detect_subscription_type (description : string) : string :=
  let desc_upper := upper description in
  if str_in "USAGE" desc_upper then "按使用量計費"
  else if str_in "SUBSCR" desc_upper || str_in "SUBSCRIPTION" desc_upper
  then "月度訂閱"
  else if existsb (λ word, str_in word desc_upper) ["PRO"; "PREMIUM"; "PLUS"]
  then "月度訂閱"
  else "一次性/其他".

End Detect.

(** [str.upper] on ASCII text. *)
Definition ascii_upper_char (c : ascii) : ascii :=
  let b := byte_of c in
  if ((97 <=? b) && (b <=? 122))%N then ascii_of_N (b - 32) else c.

Fixpoint ascii_upper (s : string) : string :=
  match s with
  | EmptyString => EmptyString
  | String c s' => String (ascii_upper_char c) (ascii_upper s')
  end.

(** [str.lower] on ASCII text, as applied to the keywords. *)
Definition ascii_lower_char (c : ascii) : ascii :=
  let b := byte_of c in
  if ((65 <=? b) && (b <=? 90))%N then ascii_of_N (b + 32) else c.

Fixpoint ascii_lower (s : string) : string :=
  match s with
  | EmptyString => EmptyString
  | String c s' => String (ascii_lower_char c) (ascii_lower s')
  end.

(** *** [load_and_filter_saas_data] *)

Import ExtractPdfData (Row, row_date, row_description, row_amount,
                       row_category, row_amount_abs).

(** A row of [saas_df]: a row of the CSV file with two more columns. *)
Record SaasRow := {
  row : Row;
  saas_category : string;
  saas_service : string
}.

Definition saas_keywords : list (string * list string) :=
  [ ("AI/ML Tools", ["CURSOR"; "OPENAI"; "ANTHROPIC"; "LEONARDO"; "HEYGEN"])
  ; ("Design Tools", ["FIGMA"; "ADOBE"])
  ; ("Cloud Services", ["GOOGLE"; "Colab"])
  ; ("Development Tools", ["REPORTDASH"; "Gandi"])
  ; ("Marketing Tools", ["MANYCHAT"; "RSS.APP"; "SEASALT"])
  ; ("Media", ["SPOTIFY"; "PADDLE"])
  ].

(** The loop over one keyword list: the keyword it stopped at. *)
Fixpoint find_keyword (description : string) (keywords : list string)
    : option string :=
  match keywords with
  | [] => None
  | keyword :: rest =>
      if str_in keyword description then Some keyword
      else find_keyword description rest
  end.

(** The loop over the mapping: the category and keyword it stopped at. *)
Fixpoint find_service (description : string)
    (cats : list (string * list string)) : option (string * string) :=
  match cats with
  | [] => None
  | (cat, keywords) :: rest =>
      match find_keyword description keywords with
      | Some keyword => Some (cat, keyword)
      | None => find_service description rest
      end
  end.

(** [re.sub('^\d{2}/\d{2} ', '', s)] *)
Definition remove_date_prefix (s : string) : string :=
  match chars s with
  | a :: b :: "/" :: c :: d :: " " :: rest =>
      if is_digit a && is_digit b && is_digit c && is_digit d
      then join rest else s
  | _ => s
  end.

Inductive Console :=
| NoSaasFound
| BeforeDeduplication (n : nat)
| AfterDeduplication (n : nat).

Section Load.

Variable upper : string → string.
(** [astype(str)] on the amounts *)
Variable astype_str : Qc → string.

Definition saas_transaction (r : Row) : option SaasRow :=
  match find_service (upper (row_description r)) saas_keywords with
  | Some (cat, keyword) =>
      Some {| row := r; saas_category := cat;
              saas_service := ascii_lower keyword |}
  | None => None
  end.

Definition unique_id (r : SaasRow) : string :=
  remove_date_prefix (row_description (row r)) +:+ "_"
    +:+ astype_str (row_amount_abs (row r)).

(** [load_and_filter_saas_data], from the frame read from the CSV file
    on. *)
Definition load_and_filter_saas_data (df : list Row)
    : list SaasRow * list Console :=
  let saas_transactions := omap saas_transaction df in
  match saas_transactions with
  | [] => ([], [NoSaasFound])
  | _ :: _ =>
      let saas_df := saas_transactions in
      let saas_df_clean := Pandas.drop_duplicates unique_id [] saas_df in
      (saas_df_clean,
       [BeforeDeduplication (length saas_df);
        AfterDeduplication (length saas_df_clean)])
  end.

(** *** [extract_service_details] *)

Record Detailed := {
  saas : SaasRow;
  service_name : string;
  subscription_type : string
}.

Definition service_mapping : gmap string string :=
  list_to_map
    [ ("cursor", "Cursor AI IDE")
    ; ("openai", "OpenAI (ChatGPT/API)")
    ; ("anthropic", "Anthropic Claude")
    ; ("leonardo", "Leonardo AI")
    ; ("heygen", "HeyGen Video AI")
    ; ("figma", "Figma Design")
    ; ("adobe", "Adobe Creative Suite")
    ; ("google", "Google Cloud/Services")
    ; ("reportdash", "ReportDash Analytics")
    ; ("gandi", "Gandi Domain/Hosting")
    ; ("colab", "Google Colab Pro")
    ; ("manychat", "ManyChat Marketing")
    ; ("seasalt", "Seasalt.AI")
    ; ("spotify", "Spotify Premium")
    ; ("paddle", "Paddle Payment")
    ].

(** [map(service_mapping).fillna(saas_df['saas_service'])] and the
    subscription type of every row. *)
Definition extract_service_details (saas_df : list SaasRow) : list Detailed :=
  map (λ r,
        {| saas := r;
           service_name :=
             default (saas_service r) (service_mapping !! saas_service r);
           subscription_type :=
             detect_subscription_type upper (row_description (row r)) |})
      saas_df.

End Load.

End SaasAnalysis.

(** * Properties *)

(** ** Vocabulary of the statements *)

(** [k] occurs in [d]. *)
Definition substring_of (k d : string) : Prop :=
  ∃ pre post, d = pre +:+ k +:+ post.

(** Some keyword of the list occurs in the description. *)
Definition matches (description : string) (keywords : list string) : Prop :=
  ∃ k, k ∈ keywords ∧ substring_of k description.

(** [c] is the first category of the mapping, in its order, with a keyword
    occurring in the description, or ['Other'] when there is none. *)
Definition first_match (cats : list (string * list string))
    (description c : string) : Prop :=
  (∃ pre keywords post,
      cats = pre ++ (c, keywords) :: post ∧
      matches description keywords ∧
      Forall (λ e, ¬ matches description e.2) pre)
  ∨ (c = "Other" ∧ Forall (λ e, ¬ matches description e.2) cats).

(** In the mapping, ['Other'] carries no keyword. *)
Definition other_is_empty (cats : list (string * list string)) : Prop :=
  Forall (λ e, e.1 = "Other" → e.2 = []) cats.

(** [out] keeps, in order, the first record of [l] for every key of [l]. *)
Definition keeps_first {A K} (key : A → K) (l out : list A) : Prop :=
  NoDup (key <$> out) ∧
  (∀ k, k ∈ key <$> l ↔ k ∈ key <$> out) ∧
  sublist out l ∧
  (∀ pre r post, l = pre ++ r :: post → key r ∉ key <$> pre → r ∈ out) ∧
  (∀ r, r ∈ out → ∃ pre post, l = pre ++ r :: post ∧ key r ∉ key <$> pre).

(** Two parsed records, and two rows of a frame, with the same date, the
    same description and the same amount. *)
Definition same_triple (t1 t2 : ExtractPdfData.Transaction) : Prop :=
  ExtractPdfData.date t1 = ExtractPdfData.date t2 ∧
  ExtractPdfData.description t1 = ExtractPdfData.description t2 ∧
  ExtractPdfData.amount t1 = ExtractPdfData.amount t2.

Definition same_row_triple (r1 r2 : ExtractPdfData.Row) : Prop :=
  ExtractPdfData.row_date r1 = ExtractPdfData.row_date r2 ∧
  ExtractPdfData.row_description r1 = ExtractPdfData.row_description r2 ∧
  ExtractPdfData.row_amount r1 = ExtractPdfData.row_amount r2.

(** [out] is [l] with every record removed that has an earlier record of
    [l] like it, and no other record removed: it holds records of [l] in
    their order, no two of them alike, one like every record of [l], and a
    record is in it exactly through an occurrence that no like record
    precedes. *)
Definition one_of_each {A} (same : A → A → Prop) (l out : list A) : Prop :=
  sublist out l ∧
  (∀ i j a b, out !! i = Some a → out !! j = Some b → same a b → i = j) ∧
  (∀ a, a ∈ l → ∃ b, b ∈ out ∧ same b a) ∧
  (∀ pre a post,
     l = pre ++ a :: post → (∀ b, b ∈ pre → ¬ same b a) → a ∈ out) ∧
  (∀ a, a ∈ out →
     ∃ pre post, l = pre ++ a :: post ∧ ∀ b, b ∈ pre → ¬ same b a).

(** The cleaned amount group of a match, its value, and the transaction
    built from a match with amount [a]. *)
Definition amount_group (m : list string) : string :=
  PyStr.sub_non_amount (PyStr.strip (nth (length m - 1) m "")).

Definition amount_of (m : list string) : option Qc :=
  PyStr.float_of_string (PyStr.remove_commas (amount_group m)).

Definition transaction_of (m : list string) (a : Qc) : ExtractPdfData.Transaction :=
  {| ExtractPdfData.date := nth 0 m "";
     ExtractPdfData.description := PyStr.strip (nth (length m - 2) m "");
     ExtractPdfData.amount := a;
     ExtractPdfData.category := None |}.

(** What every pattern of the list guarantees of its matches: at least
    three groups, and a last group that starts with a digit or a comma. *)
Definition well_shaped (m : list string) : Prop :=
  3 ≤ length m ∧ amount_group m ≠ "".

(** Every character of [s] satisfies [p]. *)
Fixpoint all_chars (p : ascii → bool) (s : string) : bool :=
  match s with
  | EmptyString => true
  | String c s' => p c && all_chars p s'
  end.

(** Every code point of [s] satisfies [p]. *)
Definition all_code_points (p : string → bool) (s : string) : bool :=
  forallb p (PyStr.chars s).

(** The shape of the elements of [chars s]: a byte followed by
    continuation bytes only, and, but for the first element, a first byte
    that is no continuation byte. *)
Definition encoded (ch : string) : Prop :=
  match ch with
  | EmptyString => False
  | String _ rest => all_chars PyStr.is_continuation rest = true
  end.

Definition starts_code_point (ch : string) : Prop :=
  match ch with
  | EmptyString => False
  | String c _ => PyStr.is_continuation c = false
  end.

Definition proper (cs : list string) : Prop :=
  match cs with
  | [] => True
  | ch :: rest =>
      encoded ch ∧ Forall (λ ch, encoded ch ∧ starts_code_point ch) rest
  end.

(** Bytes other than the two signs. *)
Definition not_sign (c : ascii) : bool :=
  negb (Ascii.eqb c "-" || Ascii.eqb c "+").

(** A sample answer of [re.findall]: the first pattern finds a purchase, a
    refund and a row whose amount group is a lone comma; the last pattern
    finds the purchase again. *)
Definition sample_findall (pattern text : string) : list (list string) :=
  if bool_decide (Some pattern = ExtractPdfData.patterns !! 0) then
    [["05/14"; " STORE 7-11 "; "1,234.50"];
     ["05/15"; "REFUND"; "-80"];
     ["05/16"; "VOID"; ","]]
  else if bool_decide (Some pattern = ExtractPdfData.patterns !! 5) then
    [["05/14"; "STORE 7-11"; "1234.5"]]
  else [].

(** Events that reach for the PDF, events that write a file, and the
    console lines that report a failed extraction. *)
Definition attempts_extraction (e : ExtractPdfData.Event) : bool :=
  match e with
  | ExtractPdfData.OpenPdf _ | ExtractPdfData.PlumberOpen _ _
  | ExtractPdfData.PipInstall => true
  | _ => false
  end.

Definition writes_file (e : ExtractPdfData.Event) : bool :=
  match e with
  | ExtractPdfData.SaveFig _ | ExtractPdfData.WriteText _ _
  | ExtractPdfData.WriteReport _ _ | ExtractPdfData.ToCsv _ _ => true
  | _ => false
  end.

Definition failure_line (c : ExtractPdfData.Console) : bool :=
  match c with
  | ExtractPdfData.PdfNotFound _ | ExtractPdfData.UnexpectedError _
  | ExtractPdfData.DecryptionError _ | ExtractPdfData.AlternativeFailed _ => true
  | ExtractPdfData.Line s =>
      bool_decide (s = "Failed to decrypt PDF with provided password")
  | _ => false
  end.

(** A machine on which no PDF can be opened by either library. *)
Definition missing_pdf (env : gmap string string) : ExtractPdfData.World :=
  {| ExtractPdfData.environ := env;
     ExtractPdfData.open_rb := λ _, ExtractPdfData.FileNotFound;
     ExtractPdfData.PdfReader := λ _ _, ExtractPdfData.Raises "no file";
     ExtractPdfData.import_pdfplumber := true;
     ExtractPdfData.pip_install_pdfplumber := ExtractPdfData.Returns ();
     ExtractPdfData.import_pdfplumber_again := true;
     ExtractPdfData.pdfplumber_open :=
       λ _ _, ExtractPdfData.Raises "No such file or directory";
     ExtractPdfData.savefig := ExtractPdfData.Returns () |}.

(** That machine with the password set and no path. *)
Definition password_only : ExtractPdfData.World :=
  missing_pdf {[ "PDF_PASSWORD" := "secret" ]}.

(** A machine whose PDF is not encrypted and has one page. *)
Definition one_page_pdf (page : string) : ExtractPdfData.World :=
  {| ExtractPdfData.environ := {[ "PDF_PASSWORD" := "secret" ]};
     ExtractPdfData.open_rb := λ _, ExtractPdfData.Opened;
     ExtractPdfData.PdfReader :=
       λ _ _, ExtractPdfData.Returns
                {| ExtractPdfData.is_encrypted := false;
                   ExtractPdfData.decrypt := λ _, ExtractPdfData.Returns 1%Z;
                   ExtractPdfData.pages := [ExtractPdfData.Returns page] |};
     ExtractPdfData.import_pdfplumber := true;
     ExtractPdfData.pip_install_pdfplumber := ExtractPdfData.Returns ();
     ExtractPdfData.import_pdfplumber_again := true;
     ExtractPdfData.pdfplumber_open := λ _ _, ExtractPdfData.Returns [];
     ExtractPdfData.savefig := ExtractPdfData.Returns () |}.

(** C5 as the specification words it. *)
Definition exits_early_when_a_variable_is_missing : Prop :=
  ∀ (findall : string → string → list (list string)) (w : ExtractPdfData.World),
    ExtractPdfData.getenv w "PDF_PASSWORD" = None ∨
    ExtractPdfData.getenv w "PDF_PATH" = None →
    Forall (λ e, attempts_extraction e = false) (ExtractPdfData.main findall w).2.

(** C6 as the specification words it. *)
Definition saves_raw_text_when_both_libraries_fail : Prop :=
  ∀ (findall : string → string → list (list string)) (w : ExtractPdfData.World)
    (pdf_path password : string),
    (ExtractPdfData.extract_pdf_text w pdf_path password).1 = None →
    (ExtractPdfData.debug_pdf_content w pdf_path password).1 =
      ExtractPdfData.Returns None →
    ∃ file content,
      ExtractPdfData.WriteText file content ∈
        (ExtractPdfData.run findall w pdf_path password).2.

(** The frames a run saves as CSV, in order. *)
Definition csv_frames (trace : list ExtractPdfData.Event)
    : list (list ExtractPdfData.Row) :=
  omap (λ e, match e with
             | ExtractPdfData.ToCsv _ df => Some df
             | _ => None
             end) trace.

(** A row carries the fields of a transaction. *)
Definition same_fields (t : ExtractPdfData.Transaction) (r : ExtractPdfData.Row)
    : Prop :=
  ExtractPdfData.row_date r = ExtractPdfData.date t ∧
  ExtractPdfData.row_description r = ExtractPdfData.description t ∧
  ExtractPdfData.row_amount r = ExtractPdfData.amount t ∧
  ExtractPdfData.row_category r = ExtractPdfData.category t.

(** The console lines of one pattern. *)
Definition pattern_log (findall : string → string → list (list string))
    (text : string) (n : nat) (pattern : string) : list ExtractPdfData.Console :=
  ExtractPdfData.TryingPattern n pattern
    :: ExtractPdfData.FoundMatches (length (findall pattern text)) n
    :: (findall pattern text ≫= λ m, (ExtractPdfData.parse_match m).2).

(** A categorized sample: two groceries and a taxi ride. *)
Definition sample_transactions : list ExtractPdfData.Transaction :=
  [ {| ExtractPdfData.date := "05/14"; ExtractPdfData.description := "7-11";
       ExtractPdfData.amount := Q2Qc (-120);
       ExtractPdfData.category := Some "Food & Dining" |};
    {| ExtractPdfData.date := "05/15"; ExtractPdfData.description := "UBER";
       ExtractPdfData.amount := Q2Qc (601 # 2);
       ExtractPdfData.category := Some "Transportation" |};
    {| ExtractPdfData.date := "05/16"; ExtractPdfData.description := "7-11";
       ExtractPdfData.amount := Q2Qc 45;
       ExtractPdfData.category := Some "Food & Dining" |} ].

(** Events that reach for the second library. *)
Definition touches_pdfplumber (e : ExtractPdfData.Event) : bool :=
  match e with
  | ExtractPdfData.PlumberOpen _ _ | ExtractPdfData.PipInstall => true
  | _ => false
  end.

(** What page [i], counted from 0, adds to the text of the first attempt:
    its header and its text, or nothing when its extraction failed. *)
Definition page_block (i : nat) (page : ExtractPdfData.Outcome string) : string :=
  match page with
  | ExtractPdfData.Returns page_text =>
      ExtractPdfData.page_header (i + 1) +:+ page_text
        +:+ ExtractPdfData.nl +:+ ExtractPdfData.nl
  | ExtractPdfData.Raises _ => ""
  end.

Fixpoint page_blocks (i : nat) (pages : list (ExtractPdfData.Outcome string))
    : string :=
  match pages with
  | [] => ""
  | page :: pages' => page_block i page +:+ page_blocks (S i) pages'
  end.

(** What the pages add to the text of the second attempt. *)
Fixpoint page_lines (pages : list string) : string :=
  match pages with
  | [] => ""
  | page_text :: pages' => page_text +:+ ExtractPdfData.nl +:+ page_lines pages'
  end.

(** A machine without pdfplumber on which the installation fails too. *)
Definition no_pdfplumber : ExtractPdfData.World :=
  {| ExtractPdfData.environ := {[ "PDF_PASSWORD" := "secret" ]};
     ExtractPdfData.open_rb := λ _, ExtractPdfData.FileNotFound;
     ExtractPdfData.PdfReader := λ _ _, ExtractPdfData.Raises "no file";
     ExtractPdfData.import_pdfplumber := false;
     ExtractPdfData.pip_install_pdfplumber :=
       ExtractPdfData.Raises "returned non-zero exit status 1";
     ExtractPdfData.import_pdfplumber_again := false;
     ExtractPdfData.pdfplumber_open := λ _ _, ExtractPdfData.Raises "no file";
     ExtractPdfData.savefig := ExtractPdfData.Returns () |}.

(** An encrypted PDF of three pages, the second of which cannot be
    extracted.  The strict reader can be built or not; [decrypt] answers
    [code]. *)
Definition three_pages (strict : bool) (code : Z) : ExtractPdfData.World :=
  {| ExtractPdfData.environ := {[ "PDF_PASSWORD" := "secret" ]};
     ExtractPdfData.open_rb := λ _, ExtractPdfData.Opened;
     ExtractPdfData.PdfReader :=
       λ _ s,
         if s && negb strict then ExtractPdfData.Raises "invalid xref"
         else
           ExtractPdfData.Returns
             {| ExtractPdfData.is_encrypted := true;
                ExtractPdfData.decrypt := λ _, ExtractPdfData.Returns code;
                ExtractPdfData.pages :=
                  [ExtractPdfData.Returns "one";
                   (if s then ExtractPdfData.Raises "bad page"
                    else ExtractPdfData.Returns "two");
                   ExtractPdfData.Returns "three"] |};
     ExtractPdfData.import_pdfplumber := true;
     ExtractPdfData.pip_install_pdfplumber := ExtractPdfData.Returns ();
     ExtractPdfData.import_pdfplumber_again := true;
     ExtractPdfData.pdfplumber_open := λ _ _, ExtractPdfData.Returns [];
     ExtractPdfData.savefig := ExtractPdfData.Raises "no display" |}.

(** A PDF of three pages that is not encrypted; the second page cannot be
    extracted. *)
Definition plain_three_pages : ExtractPdfData.World :=
  {| ExtractPdfData.environ := {[ "PDF_PASSWORD" := "secret" ]};
     ExtractPdfData.open_rb := λ _, ExtractPdfData.Opened;
     ExtractPdfData.PdfReader :=
       λ _ _,
         ExtractPdfData.Returns
           {| ExtractPdfData.is_encrypted := false;
              ExtractPdfData.decrypt := λ _, ExtractPdfData.Returns 0%Z;
              ExtractPdfData.pages :=
                [ExtractPdfData.Returns "one";
                 ExtractPdfData.Raises "bad page";
                 ExtractPdfData.Returns "three"] |};
     ExtractPdfData.import_pdfplumber := true;
     ExtractPdfData.pip_install_pdfplumber := ExtractPdfData.Returns ();
     ExtractPdfData.import_pdfplumber_again := true;
     ExtractPdfData.pdfplumber_open := λ _ _, ExtractPdfData.Returns [];
     ExtractPdfData.savefig := ExtractPdfData.Returns () |}.

(** The event that saves the raw text, and the events that save the
    report or the CSV file. *)
Definition writes_text (e : ExtractPdfData.Event) : bool :=
  match e with
  | ExtractPdfData.WriteText _ _ => true
  | _ => false
  end.

Definition writes_results (e : ExtractPdfData.Event) : bool :=
  match e with
  | ExtractPdfData.WriteReport _ _ | ExtractPdfData.ToCsv _ _ => true
  | _ => false
  end.

(** Order between constants and variables of [Qc], through [Q]. *)
Ltac qc_order :=
  unfold Qclt, Qcle in *; cbn [this Q2Qc] in *;
  rewrite ?Qred_correct in *; lra.

(** ASCII lower-case letters. *)
Definition is_lower (c : ascii) : bool :=
  ((97 <=? PyStr.byte_of c) && (PyStr.byte_of c <=? 122))%N.

(** The result of [upper] never holds an ASCII lower-case letter. *)
Definition leaves_no_lowercase (upper : string → string) : Prop :=
  ∀ s, all_chars (λ c, negb (is_lower c)) (upper s) = true.

(** The categories and services of the keywords written in capitals. *)
Definition capital_services : list (string * string) :=
  [ ("AI/ML Tools", "cursor"); ("AI/ML Tools", "openai")
  ; ("AI/ML Tools", "anthropic"); ("AI/ML Tools", "leonardo")
  ; ("AI/ML Tools", "heygen")
  ; ("Design Tools", "figma"); ("Design Tools", "adobe")
  ; ("Cloud Services", "google")
  ; ("Development Tools", "reportdash")
  ; ("Marketing Tools", "manychat"); ("Marketing Tools", "rss.app")
  ; ("Marketing Tools", "seasalt")
  ; ("Media", "spotify"); ("Media", "paddle")
  ].

(** The services of [capital_services] with the names shown for them. *)
Definition displayed_services : list (string * string) :=
  [ ("cursor", "Cursor AI IDE"); ("openai", "OpenAI (ChatGPT/API)")
  ; ("anthropic", "Anthropic Claude"); ("leonardo", "Leonardo AI")
  ; ("heygen", "HeyGen Video AI")
  ; ("figma", "Figma Design"); ("adobe", "Adobe Creative Suite")
  ; ("google", "Google Cloud/Services")
  ; ("reportdash", "ReportDash Analytics")
  ; ("manychat", "ManyChat Marketing"); ("rss.app", "rss.app")
  ; ("seasalt", "Seasalt.AI")
  ; ("spotify", "Spotify Premium"); ("paddle", "Paddle Payment")
  ].

(** A cleaned frame with a Colab charge, a Gandi charge and the same
    monthly charge on two dates. *)
Definition sample_saas_frame : list ExtractPdfData.Row :=
  [ {| ExtractPdfData.row_date := "03/01";
       ExtractPdfData.row_description := "Google Colab Pro";
       ExtractPdfData.row_amount := Q2Qc 330;
       ExtractPdfData.row_category := Some "Technology/Software";
       ExtractPdfData.row_amount_abs := Q2Qc 330 |}
  ; {| ExtractPdfData.row_date := "03/02";
       ExtractPdfData.row_description := "Gandi";
       ExtractPdfData.row_amount := Q2Qc 500;
       ExtractPdfData.row_category := Some "Other";
       ExtractPdfData.row_amount_abs := Q2Qc 500 |}
  ; {| ExtractPdfData.row_date := "03/05";
       ExtractPdfData.row_description := "03/05 Cursor usage";
       ExtractPdfData.row_amount := Q2Qc 640;
       ExtractPdfData.row_category := Some "Technology/Software";
       ExtractPdfData.row_amount_abs := Q2Qc 640 |}
  ; {| ExtractPdfData.row_date := "04/05";
       ExtractPdfData.row_description := "04/05 Cursor usage";
       ExtractPdfData.row_amount := Q2Qc 640;
       ExtractPdfData.row_category := Some "Technology/Software";
       ExtractPdfData.row_amount_abs := Q2Qc 640 |}
  ].

(** A rendering of whole amounts as [astype(str)] gives them. *)
Definition sample_astype (x : Qc) : string := pretty (Qnum x) +:+ ".0".

(** Two rows with the same description, a leading date apart, and the same
    absolute amount. *)
Definition same_charge (r1 r2 : ExtractPdfData.Row) : Prop :=
  SaasAnalysis.remove_date_prefix (ExtractPdfData.row_description r1) =
  SaasAnalysis.remove_date_prefix (ExtractPdfData.row_description r2) ∧
  ExtractPdfData.row_amount_abs r1 = ExtractPdfData.row_amount_abs r2.

(** What [astype(str)] does on the amounts of a frame: two amounts with one
    rendering are equal, and no rendering holds an underscore. *)
Definition no_underscore (s : string) : bool :=
  all_chars (λ c, negb (Ascii.eqb c "_")) s.

Definition renders_apart (astype_str : Qc → string)
    (df : list ExtractPdfData.Row) : Prop :=
  (∀ r1 r2, r1 ∈ df → r2 ∈ df →
     astype_str (ExtractPdfData.row_amount_abs r1) =
     astype_str (ExtractPdfData.row_amount_abs r2) →
     ExtractPdfData.row_amount_abs r1 = ExtractPdfData.row_amount_abs r2) ∧
  (∀ r, r ∈ df →
     no_underscore (astype_str (ExtractPdfData.row_amount_abs r)) = true).

(** Equality of computed values that hold rationals: the components are
    compared one by one, two rationals by their canonical fractions. *)
Ltac compare_values :=
  repeat match goal with
         | |- @eq Qc _ _ => apply Qc_is_canon; reflexivity
         | |- _ => reflexivity
         | |- _ => progress f_equal
         end.

(** ** Strings *)

Section Strings.
Import PyStr.

Lemma app_cons c (s t : string) : String c s +:+ t = String c (s +:+ t).
Proof. reflexivity. Qed.

Lemma app_empty (s : string) : "" +:+ s = s.
Proof. reflexivity. Qed.

Lemma prefix_app (k d : string) :
  String.prefix k d = true ↔ ∃ post, d = k +:+ post.
Proof.
  revert d. induction k as [|c k IH]; intros d; simpl.
  - destruct d; split; eauto.
  - destruct d as [|c' d]; simpl.
    + split; [discriminate | intros [post H]; discriminate H].
    + destruct (Ascii.ascii_dec c c') as [->|Hne].
      * rewrite IH. split; intros [post H]; exists post;
          rewrite app_cons in *; congruence.
      * split; [discriminate |].
        intros [post H]. rewrite app_cons in H. congruence.
Qed.

Lemma prefix_substring (k d : string) :
  String.prefix k d = true → substring_of k d.
Proof. intros [post ->]%prefix_app. by exists "", post. Qed.

Lemma str_in_spec (k d : string) : str_in k d = true ↔ substring_of k d.
Proof.
  induction d as [|c d IH]; cbn [str_in];
    destruct (String.prefix k _) eqn:Hp;
    try (split; [intros _; by apply prefix_substring | done]).
  - split; [done |].
    intros ([|? pre] & post & H); [| by rewrite app_cons in H].
    rewrite app_empty in H.
    assert (String.prefix k "" = true) by (apply prefix_app; eauto).
    congruence.
  - rewrite IH. split.
    + intros (pre & post & ->). by exists (String c pre), post.
    + intros ([|c' pre] & post & H).
      * rewrite app_empty in H.
        assert (String.prefix k (String c d) = true)
          by (apply prefix_app; eauto).
        congruence.
      * rewrite app_cons in H. exists pre, post. congruence.
Qed.

Lemma str_in_false (k d : string) : str_in k d = false ↔ ¬ substring_of k d.
Proof. rewrite <- str_in_spec. by destruct (str_in k d). Qed.

End Strings.

(** ** Categorization *)

Section Categorization.
Import Keywords.

Lemma for_keywords_spec description keywords :
  for_keywords description keywords = true ↔ matches description keywords.
Proof.
  induction keywords as [|k keywords IH]; simpl.
  - split; [done | intros (k & Hk & _); by apply elem_of_nil in Hk].
  - destruct (PyStr.str_in k description) eqn:Hk.
    + split; [intros _ | done].
      exists k. split; [left | by apply str_in_spec].
    + rewrite IH. apply str_in_false in Hk. split.
      * intros (k' & Hin & Hsub). exists k'. split; [by right | done].
      * intros (k' & Hin & Hsub).
        apply elem_of_cons in Hin as [-> | Hin]; [done | by exists k'].
Qed.

Lemma first_match_skip e cats description c :
  ¬ matches description e.2 →
  first_match (e :: cats) description c ↔ first_match cats description c.
Proof.
  intros Hno. split.
  - intros [(pre & kws & post & Heq & Hm & Hpre) | [-> Hall]].
    + destruct pre as [|e' pre]; simplify_eq/=; [done |].
      left. exists pre, kws, post. by inversion Hpre.
    + right. by inversion Hall.
  - intros [(pre & kws & post & -> & Hm & Hpre) | [-> Hall]].
    + left. exists (e :: pre), kws, post. by repeat split; [| constructor].
    + right. split; [done | by constructor].
Qed.

Lemma first_match_here c keywords cats description c' :
  matches description keywords →
  first_match ((c, keywords) :: cats) description c' ↔ c' = c.
Proof.
  intros Hm. split.
  - intros [(pre & kws & post & Heq & _ & Hpre) | [_ Hall]].
    + destruct pre as [|e' pre]; simplify_eq/=; [done |].
      by inversion Hpre.
    + by inversion Hall.
  - intros ->. left. by exists [], keywords, cats.
Qed.

(** The two loops compute the first match, and the first match is
    unique. *)
Lemma first_match_iff cats description c :
  other_is_empty cats →
  first_match cats description c ↔ c = assign_category cats description.
Proof.
  unfold assign_category. induction 1 as [|[c0 kws] cats Hother _ IH]; simpl.
  - split.
    + intros [(pre & ? & ? & Heq & _) | [-> _]]; [by destruct pre | done].
    + intros ->. by right.
  - destruct (for_keywords description kws) eqn:Hk.
    + apply for_keywords_spec in Hk.
      rewrite (first_match_here _ _ _ _ _ Hk).
      case_bool_decide as Hc; [| done].
      simpl in Hother. rewrite (Hother Hc) in Hk.
      destruct Hk as (k & Hin & _). by apply elem_of_nil in Hin.
    + assert (¬ matches description kws) as Hno.
      { rewrite <- for_keywords_spec. by rewrite Hk. }
      rewrite (first_match_skip (c0, kws) _ _ _ Hno), IH.
      by case_bool_decide.
Qed.

End Categorization.

Section CategorizationTables.
Import Keywords.

Lemma other_is_empty_extract : other_is_empty ExtractPdfData.categories.
Proof. repeat constructor; simpl; by intros. Qed.

Lemma other_is_empty_clean : other_is_empty CleanAnalysis.categories.
Proof. repeat constructor; simpl; by intros. Qed.

Lemma assigned_is_first_match cats description :
  other_is_empty cats →
  first_match cats description (assign_category cats description) ∧
  ∀ c, first_match cats description c → c = assign_category cats description.
Proof.
  intros Hother. split.
  - by apply first_match_iff.
  - intros c. by apply first_match_iff.
Qed.

End CategorizationTables.

(** C1.  Categorization is a function of the description and the fixed
    mapping, and it is first-match-wins: [categorize_transactions] and
    [improve_categorization] give every record the first category, in the
    order of the mapping, one of whose keywords occurs in the description,
    and ['Other'] when no keyword of any category occurs in it; no other
    category satisfies that description, and the other fields are kept. *)
Theorem categorization_first_match_wins :
  (∀ transactions : list ExtractPdfData.Transaction,
    Forall2
      (λ t t',
        ExtractPdfData.key t' = ExtractPdfData.key t ∧
        ∃ c, ExtractPdfData.category t' = Some c ∧
          first_match ExtractPdfData.categories (ExtractPdfData.description t) c ∧
          ∀ c', first_match ExtractPdfData.categories
                  (ExtractPdfData.description t) c' → c' = c)
      transactions (ExtractPdfData.categorize_transactions transactions)) ∧
  (∀ df : list ExtractPdfData.Row,
    Forall2
      (λ r r',
        CleanAnalysis.subset r' = CleanAnalysis.subset r ∧
        ExtractPdfData.row_amount_abs r' = ExtractPdfData.row_amount_abs r ∧
        ∃ c, ExtractPdfData.row_category r' = Some c ∧
          first_match CleanAnalysis.categories
            (ExtractPdfData.row_description r) c ∧
          ∀ c', first_match CleanAnalysis.categories
                  (ExtractPdfData.row_description r) c' → c' = c)
      df (CleanAnalysis.improve_categorization df)).
Proof.
  split.
  - intros transactions. unfold ExtractPdfData.categorize_transactions.
    apply Forall2_fmap_r, Forall_Forall2_diag, Forall_forall.
    intros t _. split; [done |]. eexists. split; [done |].
    apply assigned_is_first_match, other_is_empty_extract.
  - intros df. unfold CleanAnalysis.improve_categorization.
    apply Forall2_fmap_r, Forall_Forall2_diag, Forall_forall.
    intros r _. split; [done |]. split; [done |]. eexists. split; [done |].
    apply assigned_is_first_match, other_is_empty_clean.
Qed.

Example categorize_examples :
  Keywords.assign_category ExtractPdfData.categories "UBER *TRIP 7-11" = "Food & Dining" ∧
  Keywords.assign_category ExtractPdfData.categories "UBER *TRIP" = "Transportation" ∧
  Keywords.assign_category ExtractPdfData.categories "CURSOR USAGE" = "Other" ∧
  Keywords.assign_category CleanAnalysis.categories "CURSOR USAGE" = "Technology/Software" ∧
  Keywords.assign_category CleanAnalysis.categories "星巴克 AMAZON" = "Food & Dining".
Proof. vm_compute. done. Qed.

(** ** Deduplication *)

Section Deduplication.
Context {A K : Type} `{EqDecision K} (subset : A → K).
Implicit Types (df : list A) (earlier : list K).

Lemma drop_duplicates_sublist earlier df :
  sublist (Pandas.drop_duplicates subset earlier df) df.
Proof.
  revert earlier. induction df as [|r df IH]; intros earlier; simpl.
  - constructor.
  - case_decide; [apply sublist_cons | apply sublist_skip]; apply IH.
Qed.

Lemma drop_duplicates_keys earlier df k :
  k ∈ subset <$> Pandas.drop_duplicates subset earlier df ↔
  k ∈ subset <$> df ∧ k ∉ earlier.
Proof.
  revert earlier. induction df as [|r df IH]; intros earlier; simpl.
  - rewrite elem_of_nil. tauto.
  - case_decide as Hr; rewrite ?fmap_cons, !elem_of_cons, IH.
    + split; [tauto |]. intros [[-> | ?] ?]; tauto.
    + rewrite elem_of_cons.
      destruct (decide (k = subset r)) as [-> | ?]; tauto.
Qed.

Lemma drop_duplicates_NoDup earlier df :
  NoDup (subset <$> Pandas.drop_duplicates subset earlier df).
Proof.
  revert earlier. induction df as [|r df IH]; intros earlier; simpl.
  - constructor.
  - case_decide; [apply IH |].
    rewrite fmap_cons. constructor; [| apply IH].
    rewrite drop_duplicates_keys, elem_of_cons. tauto.
Qed.

Lemma drop_duplicates_first earlier pre r post :
  subset r ∉ earlier → subset r ∉ subset <$> pre →
  r ∈ Pandas.drop_duplicates subset earlier (pre ++ r :: post).
Proof.
  revert earlier. induction pre as [|r' pre IH]; intros earlier He Hp; simpl.
  - rewrite decide_False by done. left.
  - rewrite fmap_cons, not_elem_of_cons in Hp. destruct Hp as [Hne Hp].
    case_decide; [by apply IH |].
    right. apply IH; [| done]. rewrite not_elem_of_cons. done.
Qed.

Lemma drop_duplicates_elem earlier df r :
  r ∈ Pandas.drop_duplicates subset earlier df →
  ∃ pre post, df = pre ++ r :: post ∧ subset r ∉ subset <$> pre.
Proof.
  revert earlier. induction df as [|r' df IH]; intros earlier; simpl.
  - by intros ?%elem_of_nil.
  - case_decide as Hr.
    + intros Hin. assert (subset r ≠ subset r') as Hne.
      { intros Heq. apply (list_elem_of_fmap_2 subset) in Hin.
        apply drop_duplicates_keys in Hin as [_ Hin]. congruence. }
      destruct (IH _ Hin) as (pre & post & -> & Hpre).
      exists (r' :: pre), post. split; [done |].
      rewrite fmap_cons, not_elem_of_cons. done.
    + intros [-> | Hin]%elem_of_cons.
      * exists [], df. split; [done | apply not_elem_of_nil].
      * assert (subset r ≠ subset r') as Hne.
        { intros Heq. apply (list_elem_of_fmap_2 subset) in Hin.
          apply drop_duplicates_keys in Hin as [_ Hin].
          apply Hin. rewrite Heq. left. }
        destruct (IH _ Hin) as (pre & post & -> & Hpre).
        exists (r' :: pre), post. split; [done |].
        rewrite fmap_cons, not_elem_of_cons. done.
Qed.

Lemma drop_duplicates_keeps_first df :
  keeps_first subset df (Pandas.drop_duplicates subset [] df).
Proof.
  repeat split.
  - apply drop_duplicates_NoDup.
  - rewrite drop_duplicates_keys. intros ?. split; [done | apply not_elem_of_nil].
  - rewrite drop_duplicates_keys. tauto.
  - apply drop_duplicates_sublist.
  - intros pre r post -> Hpre.
    apply drop_duplicates_first; [apply not_elem_of_nil | done].
  - apply drop_duplicates_elem.
Qed.

End Deduplication.

(** The loop of [parse_transactions] with its [seen] set computes what
    [drop_duplicates] computes. *)
Lemma remove_duplicates_drop transactions seen earlier unique_transactions :
  (∀ k, k ∈ seen ↔ k ∈ earlier) →
  ExtractPdfData.remove_duplicates transactions seen unique_transactions =
  unique_transactions ++
    Pandas.drop_duplicates ExtractPdfData.key earlier transactions.
Proof.
  revert seen earlier unique_transactions.
  induction transactions as [|t ts IH]; intros seen earlier acc Hseen; simpl.
  - by rewrite app_nil_r.
  - destruct (decide (ExtractPdfData.key t ∈ seen)) as [Hin | Hin].
    + rewrite decide_True by (by apply Hseen). by apply IH.
    + rewrite decide_False by (by rewrite <- Hseen).
      rewrite (IH _ (ExtractPdfData.key t :: earlier)), <- app_assoc; [done |].
      intros k. rewrite elem_of_union, elem_of_singleton, elem_of_cons, Hseen.
      done.
Qed.

Lemma keeps_first_one_of_each {A K} (key : A → K) (same : A → A → Prop)
    (l out : list A) :
  (∀ a b, key a = key b ↔ same a b) →
  keeps_first key l out → one_of_each same l out.
Proof.
  intros Hsame (Hnodup & Hkeys & Hsub & Hfirst & Hkept).
  assert (∀ (pre : list A) a,
            key a ∉ key <$> pre ↔ ∀ b, b ∈ pre → ¬ same b a) as Hpre.
  { intros pre a. rewrite list_elem_of_fmap. split.
    - intros Hno b Hb Hba. apply Hno. exists b. split; [| done].
      symmetry. by apply Hsame.
    - intros Hno (b & Hkey & Hb). apply (Hno b Hb). by apply Hsame. }
  split; [done | split; [| split; [| split]]].
  - intros i j a b Hi Hj Hab. apply Hsame in Hab.
    apply (NoDup_lookup (key <$> out) i j (key a)); [done | |].
    + by rewrite list_lookup_fmap, Hi.
    + by rewrite list_lookup_fmap, Hj, Hab.
  - intros a Ha.
    assert (key a ∈ key <$> out) as (b & Hkey & Hb)%list_elem_of_fmap
      by (apply Hkeys; by apply list_elem_of_fmap_2).
    exists b. split; [done |]. by apply Hsame.
  - intros pre a post Hl Hno. apply (Hfirst pre a post Hl). by apply Hpre.
  - intros a Ha. destruct (Hkept a Ha) as (pre & post & Hl & Hno).
    exists pre, post. split; [done |]. by apply Hpre.
Qed.

Lemma key_same_triple (t1 t2 : ExtractPdfData.Transaction) :
  ExtractPdfData.key t1 = ExtractPdfData.key t2 ↔ same_triple t1 t2.
Proof.
  unfold ExtractPdfData.key, same_triple. split.
  - by intros [= -> -> ->].
  - by intros (-> & -> & ->).
Qed.

Lemma subset_same_row_triple (r1 r2 : ExtractPdfData.Row) :
  CleanAnalysis.subset r1 = CleanAnalysis.subset r2 ↔ same_row_triple r1 r2.
Proof.
  unfold CleanAnalysis.subset, same_row_triple. split.
  - by intros [= -> -> ->].
  - by intros (-> & -> & ->).
Qed.

(** C2.  Deduplication never loses a record with a unique (date,
    description, amount) triple.  For every input list, the output of the
    deduplication loop of [parse_transactions], and of the
    [drop_duplicates] step of [clean_transactions], holds records of the
    input in their order; no two of them have the same date, description
    and amount; every record of the input has a record with its date,
    description and amount in the output; the first record with a triple
    is the one kept; and a record is left out only when an earlier record
    has the same date, the same description and the same amount. *)
Theorem deduplication_keeps_every_triple_once :
  (∀ transactions : list ExtractPdfData.Transaction,
    one_of_each same_triple transactions
      (ExtractPdfData.remove_duplicates transactions ∅ [])) ∧
  (∀ (findall : string → string → list (list string)) (text : string),
    (ExtractPdfData.parse_transactions findall text).1 =
    ExtractPdfData.remove_duplicates
      (ExtractPdfData.for_patterns findall 1 ExtractPdfData.patterns text []).1
      ∅ []) ∧
  (∀ df : list ExtractPdfData.Row,
    one_of_each same_row_triple df
      (Pandas.drop_duplicates CleanAnalysis.subset [] df)) ∧
  (∀ df : list ExtractPdfData.Row,
    (CleanAnalysis.clean_transactions df).1 =
    Pandas.drop_duplicates CleanAnalysis.subset []
      (filter (λ r, CleanAnalysis.garbled (ExtractPdfData.row_description r) = false)
        (filter (λ r, (ExtractPdfData.row_amount_abs r < Q2Qc 100000)%Qc)
          (filter (λ r, CleanAnalysis.invalid_date (ExtractPdfData.row_date r) = false)
            df)))).
Proof.
  split; [| split; [| split]].
  - intros transactions.
    apply (keeps_first_one_of_each ExtractPdfData.key); [apply key_same_triple |].
    rewrite (remove_duplicates_drop _ _ []) by set_solver.
    apply drop_duplicates_keeps_first.
  - intros findall text. unfold ExtractPdfData.parse_transactions.
    by destruct (ExtractPdfData.for_patterns _ _ _ _ _).
  - intros df.
    apply (keeps_first_one_of_each CleanAnalysis.subset);
      [apply subset_same_row_triple |].
    apply drop_duplicates_keeps_first.
  - done.
Qed.

Example deduplication_example :
  (ExtractPdfData.parse_transactions sample_findall "statement").1 =
  [transaction_of ["05/14"; " STORE 7-11 "; "1,234.50"] (Q2Qc (2469 # 2));
   transaction_of ["05/15"; "REFUND"; "-80"] (Q2Qc 80)].
Proof. vm_compute. compare_values. Qed.

(** ** The cleaning pass *)

Section Cleaning.
Import ExtractPdfData CleanAnalysis.

Lemma filter_middle {A} (P : A → Prop) `{∀ x, Decision (P x)} pre r post :
  P r → filter P (pre ++ r :: post) = filter P pre ++ r :: filter P post.
Proof. intros Hr. by rewrite filter_app, filter_cons_True. Qed.

Lemma not_in_filter {A K} (f : A → K) (P : A → Prop) `{∀ x, Decision (P x)}
    (k : K) (l : list A) :
  k ∉ f <$> l → k ∉ f <$> filter P l.
Proof.
  intros Hk (x & -> & Hx)%list_elem_of_fmap_1.
  apply Hk, list_elem_of_fmap_2. by apply list_elem_of_filter in Hx as [_ Hx].
Qed.

Lemma clean_transactions_in df r :
  r ∈ (clean_transactions df).1 →
  invalid_date (row_date r) = false ∧
  (row_amount_abs r < Q2Qc 100000)%Qc ∧
  garbled (row_description r) = false.
Proof.
  unfold clean_transactions. simpl. intros Hin.
  eapply elem_of_sublist in Hin; [| apply drop_duplicates_sublist].
  apply list_elem_of_filter in Hin as [Hg Hin].
  apply list_elem_of_filter in Hin as [Ha Hin].
  by apply list_elem_of_filter in Hin as [Hd Hin].
Qed.

End Cleaning.

(** C3.  The cleaning pass excludes every row whose absolute amount is at
    least 100,000, every row whose description contains the marker [cid:]
    and every row whose date contains one of the tokens [0/0] and [14/05];
    a row that passes the three filters and whose (date, description,
    amount) triple has not occurred in an earlier row is kept. *)
Theorem cleaning_filter_excludes_and_keeps (df : list ExtractPdfData.Row) :
  let out := (CleanAnalysis.clean_transactions df).1 in
  (∀ r, (Q2Qc 100000 ≤ ExtractPdfData.row_amount_abs r)%Qc → r ∉ out) ∧
  (∀ r, substring_of "cid:" (ExtractPdfData.row_description r) → r ∉ out) ∧
  (∀ r, substring_of "0/0" (ExtractPdfData.row_date r) ∨
        substring_of "14/05" (ExtractPdfData.row_date r) → r ∉ out) ∧
  (∀ pre r post,
      df = pre ++ r :: post →
      (ExtractPdfData.row_amount_abs r < Q2Qc 100000)%Qc →
      ¬ substring_of "cid:" (ExtractPdfData.row_description r) →
      ¬ substring_of "0/0" (ExtractPdfData.row_date r) →
      ¬ substring_of "14/05" (ExtractPdfData.row_date r) →
      CleanAnalysis.subset r ∉ CleanAnalysis.subset <$> pre →
      r ∈ out).
Proof.
  intros out. subst out. repeat split.
  - intros r Hge Hin. apply clean_transactions_in in Hin as (_ & Hlt & _).
    by apply Qcle_not_lt in Hge.
  - intros r Hsub Hin. apply clean_transactions_in in Hin as (_ & _ & Hg).
    apply str_in_false in Hg. done.
  - intros r Hsub Hin. apply clean_transactions_in in Hin as (Hd & _ & _).
    unfold CleanAnalysis.invalid_date in Hd.
    apply orb_false_elim in Hd as [H1 H2].
    apply str_in_false in H1, H2. tauto.
  - intros pre r post -> Ha Hg Hd1 Hd2 Hpre.
    unfold CleanAnalysis.clean_transactions. simpl.
    assert (CleanAnalysis.invalid_date (ExtractPdfData.row_date r) = false) as Hd.
    { unfold CleanAnalysis.invalid_date. apply orb_false_intro; by apply str_in_false. }
    assert (CleanAnalysis.garbled (ExtractPdfData.row_description r) = false)
      as Hg' by (by apply str_in_false).
    rewrite !filter_middle by done.
    apply drop_duplicates_first; [apply not_elem_of_nil |].
    by do 3 apply not_in_filter.
Qed.

Example cleaning_example :
  let row d s a :=
    {| ExtractPdfData.row_date := d; ExtractPdfData.row_description := s;
       ExtractPdfData.row_amount := a; ExtractPdfData.row_category := None;
       ExtractPdfData.row_amount_abs := Qcabs a |} in
  (CleanAnalysis.clean_transactions
     [row "05/14" "STORE" (Q2Qc 120);
      row "10/05" "STORE" (Q2Qc 30);
      row "05/15" "(cid:12)" (Q2Qc 5);
      row "05/16" "CAR" (Q2Qc (-100000));
      row "05/14" "STORE" (Q2Qc 120);
      row "05/17" "TAXI" (Q2Qc 99999)]).1 =
  [row "05/14" "STORE" (Q2Qc 120); row "05/17" "TAXI" (Q2Qc 99999)].
Proof. vm_compute. compare_values. Qed.

(** ** Parsing *)

Section Parsing.
Import PyStr ExtractPdfData.
Variable findall : string → string → list (list string).

Lemma for_matches_spec matches transactions :
  for_matches matches transactions =
  (transactions ++ omap (λ m, (parse_match m).1) matches,
   matches ≫= λ m, (parse_match m).2).
Proof.
  revert transactions.
  induction matches as [|m matches IH]; intros transactions; simpl.
  - by rewrite app_nil_r.
  - destruct (parse_match m) as [[t|] out]; rewrite IH; simpl.
    + by rewrite <- app_assoc.
    + done.
Qed.

Lemma for_patterns_spec n ps text transactions :
  for_patterns findall n ps text transactions =
  (transactions ++
     omap (λ m, (parse_match m).1) (ps ≫= λ p, findall p text),
   mjoin (imap (λ i p, pattern_log findall text (n + i) p) ps)).
Proof.
  revert n transactions.
  induction ps as [|p ps IH]; intros n transactions.
  - simpl. by rewrite app_nil_r.
  - cbn [for_patterns].
    rewrite for_matches_spec, IH, bind_cons, omap_app, <- app_assoc.
    f_equal. cbn [imap mjoin list_join]. rewrite Nat.add_0_r.
    unfold pattern_log at 2. simpl. do 4 f_equal.
    apply imap_ext. intros i p' _. simpl. f_equal. lia.
Qed.

Lemma parse_match_well_shaped m :
  well_shaped m →
  parse_match m =
  match amount_of m with
  | Some a =>
      (Some (transaction_of m a),
       [AddedTransaction (nth 0 m "")
          (slice_to 30 (strip (nth (length m - 2) m ""))) a])
  | None => (None, [ErrorParsingMatch m])
  end.
Proof.
  intros [Hlen Hgroup]. unfold parse_match, amount_of.
  rewrite bool_decide_true by done.
  fold (amount_group m). by rewrite bool_decide_true by done.
Qed.

(** *** Code points *)

Lemma all_chars_app p (s t : string) :
  all_chars p (s +:+ t) = all_chars p s && all_chars p t.
Proof.
  induction s as [|c s IH]; [by rewrite app_empty |].
  rewrite app_cons. cbn [all_chars]. by rewrite IH, andb_assoc.
Qed.

Lemma chars_head c s : ∃ x rest, chars (String c s) = String c x :: rest.
Proof.
  cbn [chars]. destruct (chars s) as [|[|c' ch] rest]; eauto.
  destruct (is_continuation c'); eauto.
Qed.

Lemma chars_proper s : proper (chars s).
Proof.
  induction s as [|c s IH]; [done |]. cbn [chars].
  destruct (chars s) as [|[|c' ch] rest]; [done | |].
  - destruct IH as [[] _].
  - destruct IH as [Hch Hrest].
    destruct (is_continuation c') eqn:Hc'.
    + split; [| done]. cbn [encoded all_chars] in *. by rewrite Hc', Hch.
    + split; [done |]. by constructor.
Qed.

Lemma Forall_filter {A} (Q P : A → Prop) `{∀ x, Decision (P x)} (l : list A) :
  Forall Q l → Forall Q (filter P l).
Proof.
  rewrite !Forall_forall. intros Hall x Hx.
  by apply Hall, (elem_of_sublist _ _ _ Hx), sublist_filter.
Qed.

Lemma proper_filter (P : string → Prop) `{∀ ch, Decision (P ch)} cs :
  proper cs → proper (filter P cs).
Proof.
  destruct cs as [|ch cs]; [done |]. intros [Hch Hrest].
  rewrite filter_cons.
  assert (proper (filter P cs)) as Htail.
  { clear Hch. induction Hrest as [|ch' cs [Hch' _] Hrest IH]; [done |].
    rewrite filter_cons. destruct (decide (P ch')); [| done].
    split; [done |]. by apply Forall_filter. }
  destruct (decide (P ch)); [| done]. split; [done |]. by apply Forall_filter.
Qed.

Lemma chars_encoded c rest (t : string) :
  all_chars is_continuation rest = true →
  match t with String c' _ => is_continuation c' = false | _ => True end →
  chars (String c (rest +:+ t)) = String c rest :: chars t.
Proof.
  revert c. induction rest as [|c1 rest IH]; intros c Hrest Ht.
  - rewrite app_empty. destruct t as [|c' t']; [done |].
    destruct (chars_head c' t') as (x & r & Hx).
    cbn [chars] in *. rewrite Hx. by rewrite Ht.
  - cbn [all_chars] in Hrest. apply andb_prop in Hrest as [Hc1 Hrest].
    rewrite app_cons.
    change (chars (String c (String c1 (rest +:+ t))))
      with (match chars (String c1 (rest +:+ t)) with
            | (String c' _ as ch) :: r =>
                if is_continuation c' then String c ch :: r
                else String c EmptyString :: ch :: r
            | r => String c EmptyString :: r
            end).
    rewrite (IH c1 Hrest Ht). by rewrite Hc1.
Qed.

Lemma chars_join cs : proper cs → chars (join cs) = cs.
Proof.
  assert (∀ cs, Forall (λ ch, encoded ch ∧ starts_code_point ch) cs →
                chars (join cs) = cs ∧
                match join cs with
                | String c' _ => is_continuation c' = false
                | _ => True
                end) as Htail.
  { clear cs. intros cs Hcs.
    induction Hcs as [|[|c rest] cs [Hch Hstart] _ [IH Hfirst]]; [done.. |].
    cbn [join foldr]. fold (join cs). split; [| by rewrite app_cons].
    rewrite app_cons, (chars_encoded c rest (join cs) Hch Hfirst). by rewrite IH. }
  destruct cs as [|[|c rest] cs]; [done | by intros [[] _] |].
  intros [Hch Hrest]. destruct (Htail cs Hrest) as [Hcs Hfirst].
  cbn [join foldr]. fold (join cs).
  rewrite app_cons, (chars_encoded c rest (join cs) Hch Hfirst). by rewrite Hcs.
Qed.

Lemma sub_non_amount_chars s :
  chars (sub_non_amount s) = filter (λ ch, is_amount_char ch = true) (chars s).
Proof. apply chars_join, proper_filter, chars_proper. Qed.

(** *** Amounts are never negative *)

Lemma all_chars_filter_other p q s :
  all_chars p s = true → all_chars p (filter_chars q s) = true.
Proof.
  induction s as [|c s IH]; simpl; [done |].
  intros [Hc Hs]%andb_prop. destruct (q c); simpl; rewrite ?Hc; auto.
Qed.

Lemma all_code_points_cleaned s :
  all_code_points is_amount_char (sub_non_amount s) = true.
Proof.
  unfold all_code_points. rewrite sub_non_amount_chars.
  apply forallb_forall. intros ch Hch%list_elem_of_In.
  by apply list_elem_of_filter in Hch as [Hch _].
Qed.

Lemma Q2Qc_nonneg (n : Z) (d : positive) :
  (0 ≤ n)%Z → (Q2Qc 0 ≤ Q2Qc (n # d))%Qc.
Proof.
  intros Hn. unfold Qcle. cbn [this Q2Qc]. rewrite !Qred_correct.
  unfold Qle. simpl. lia.
Qed.

Lemma unsigned_of_string_nonneg s a :
  unsigned_of_string s = Some a → (Q2Qc 0 ≤ a)%Qc.
Proof.
  unfold unsigned_of_string. destruct (split_point (chars s)) as [i f].
  case_bool_decide; [done |].
  destruct (digits_to_N 0 i) as [ni|]; [| done]. simpl.
  destruct (digits_to_N 0 _) as [nf|]; [| done]. simpl.
  intros [= <-]. apply Q2Qc_nonneg.
  assert (0 ≤ 10 ^ Z.of_nat (length (default [] f)))%Z
    by (apply Z.pow_nonneg; lia).
  nia.
Qed.

Lemma continuation_not_sign c : is_continuation c = true → not_sign c = true.
Proof. destruct c as [[] [] [] [] [] [] [] []]; by vm_compute. Qed.

Lemma amount_char_not_sign ch :
  encoded ch → is_amount_char ch = true → all_chars not_sign ch = true.
Proof.
  destruct ch as [|c rest]; [done |]. intros Hrest Hch.
  assert (all_chars not_sign rest = true) as Htail.
  { cbn [encoded] in Hrest. clear Hch.
    induction rest as [|c1 rest IH]; [done |].
    cbn [all_chars] in *. apply andb_prop in Hrest as [Hc1 Hrest].
    by rewrite (continuation_not_sign c1 Hc1), IH. }
  cbn [all_chars]. rewrite Htail, andb_true_r.
  unfold is_amount_char in Hch.
  destruct (Ascii.eqb c "-") eqn:Hminus.
  { apply Ascii.eqb_eq in Hminus as ->.
    apply orb_prop in Hch as [[Hch | Hch]%orb_prop | Hch];
      [by vm_compute in Hch | |]; by apply bool_decide_eq_true in Hch. }
  destruct (Ascii.eqb c "+") eqn:Hplus.
  { apply Ascii.eqb_eq in Hplus as ->.
    apply orb_prop in Hch as [[Hch | Hch]%orb_prop | Hch];
      [by vm_compute in Hch | |]; by apply bool_decide_eq_true in Hch. }
  unfold not_sign. by rewrite Hminus, Hplus.
Qed.

Lemma cleaned_not_sign s : all_chars not_sign (sub_non_amount s) = true.
Proof.
  unfold sub_non_amount.
  assert (Forall encoded (chars s)) as Henc.
  { pose proof (chars_proper s) as Hp.
    destruct (chars s) as [|ch cs]; [done |]. destruct Hp as [Hch Hcs].
    constructor; [done |]. eapply Forall_impl; [exact Hcs |]. by intros ? [? _]. }
  induction Henc as [|ch cs Hch _ IH]; [done |].
  rewrite filter_cons. destruct (decide (is_amount_char ch = true)) as [Ha|]; [| done].
  cbn [join foldr]. fold (join (filter (λ ch, is_amount_char ch = true) cs)).
  by rewrite all_chars_app, (amount_char_not_sign ch Hch Ha), IH.
Qed.

Lemma float_of_cleaned_nonneg s a :
  float_of_string (remove_commas (sub_non_amount s)) = Some a →
  (Q2Qc 0 ≤ a)%Qc.
Proof.
  assert (all_chars not_sign (remove_commas (sub_non_amount s)) = true)
    as Hall by apply all_chars_filter_other, cleaned_not_sign.
  destruct (remove_commas (sub_non_amount s)) as [|c s'] eqn:Hs.
  - apply unsigned_of_string_nonneg.
  - cbn [all_chars] in Hall. apply andb_prop in Hall as [Hc _].
    unfold float_of_string.
    destruct c as [[] [] [] [] [] [] [] []];
      try apply unsigned_of_string_nonneg; by vm_compute in Hc.
Qed.

Lemma parse_match_nonneg m t :
  (parse_match m).1 = Some t → (Q2Qc 0 ≤ amount t)%Qc.
Proof.
  unfold parse_match.
  case_bool_decide; [| done]. case_bool_decide; [| done].
  destruct (float_of_string _) as [a|] eqn:Ha; [| done].
  simpl. intros [= <-]. simpl. by apply float_of_cleaned_nonneg in Ha.
Qed.

Lemma parse_transactions_collected text :
  (parse_transactions findall text).1 =
  remove_duplicates
    (omap (λ m, (parse_match m).1) (patterns ≫= λ p, findall p text)) ∅ [].
Proof.
  unfold parse_transactions. by rewrite for_patterns_spec.
Qed.

End Parsing.

(** C4.  [parse_transactions] tries every pattern of its list, in order,
    and collects the matches of all of them: the transactions before
    deduplication are the matches of the first pattern, then those of the
    second, and so on, each with its last group turned into an amount, and
    a match whose amount does not parse is left out alone, with a console
    line naming it, while the matches after it are still collected.  The
    matches are as the patterns shape them: three groups or more, the last
    one holding a digit or a comma. *)
Theorem every_match_of_every_pattern_is_collected
    (findall : string → string → list (list string)) (text : string) :
  Forall (λ p, Forall well_shaped (findall p text)) ExtractPdfData.patterns →
  let all_matches := ExtractPdfData.patterns ≫= λ p, findall p text in
  let collected :=
    ExtractPdfData.for_patterns findall 1 ExtractPdfData.patterns text [] in
  collected.1 = omap (λ m, transaction_of m <$> amount_of m) all_matches ∧
  (∀ n p, ExtractPdfData.patterns !! n = Some p →
          ExtractPdfData.TryingPattern (S n) p ∈ collected.2) ∧
  (∀ m, m ∈ all_matches → amount_of m = None →
        ExtractPdfData.ErrorParsingMatch m ∈ collected.2) ∧
  (ExtractPdfData.parse_transactions findall text).1 =
    ExtractPdfData.remove_duplicates collected.1 ∅ [] ∧
  (∀ c, c ∈ collected.2 → c ∈ (ExtractPdfData.parse_transactions findall text).2).
Proof.
  intros Hshape all_matches collected.
  assert (Forall well_shaped all_matches) as Hall by (by apply Forall_bind).
  subst collected. rewrite for_patterns_spec. cbn [fst snd app].
  repeat split.
  - apply list_omap_ext, Forall_Forall2_diag.
    eapply Forall_impl; [exact Hall |]. intros m Hm. simpl.
    rewrite (parse_match_well_shaped m Hm). by destruct (amount_of m).
  - intros n p Hp. apply list_elem_of_join.
    exists (pattern_log findall text (S n) p). split; [left |].
    by apply (elem_of_lookup_imap_2 (λ i p, pattern_log findall text (S i) p)).
  - intros m Hm Hnone.
    pose proof Hm as (p & Hmp & Hp)%list_elem_of_bind.
    apply list_elem_of_lookup_1 in Hp as [n Hp].
    apply list_elem_of_join.
    exists (pattern_log findall text (S n) p). split.
    + do 2 right. apply list_elem_of_bind. exists m. split; [| done].
      rewrite Forall_forall in Hall.
      rewrite (parse_match_well_shaped m (Hall m Hm)), Hnone. left.
    + by apply (elem_of_lookup_imap_2 (λ i p, pattern_log findall text (S i) p)).
  - unfold ExtractPdfData.parse_transactions. by rewrite for_patterns_spec.
  - intros c Hc. unfold ExtractPdfData.parse_transactions.
    rewrite for_patterns_spec. cbn [fst snd]. rewrite !elem_of_app. tauto.
Qed.

Lemma sample_findall_well_shaped :
  Forall (λ p, Forall well_shaped (sample_findall p "statement"))
    ExtractPdfData.patterns.
Proof.
  repeat constructor; vm_compute; first [lia | discriminate].
Qed.

Lemma every_match_of_every_pattern_is_collected_witness :
  Forall (λ p, Forall well_shaped (sample_findall p "statement"))
    ExtractPdfData.patterns ∧
  (ExtractPdfData.for_patterns sample_findall 1 ExtractPdfData.patterns
     "statement" []).1 =
  [transaction_of ["05/14"; " STORE 7-11 "; "1,234.50"] (Q2Qc (2469 # 2));
   transaction_of ["05/15"; "REFUND"; "-80"] (Q2Qc 80);
   transaction_of ["05/14"; "STORE 7-11"; "1234.5"] (Q2Qc (2469 # 2))] ∧
  ExtractPdfData.ErrorParsingMatch ["05/16"; "VOID"; ","] ∈
    (ExtractPdfData.for_patterns sample_findall 1 ExtractPdfData.patterns
       "statement" []).2 ∧
  length (ExtractPdfData.parse_transactions sample_findall "statement").1 = 2.
Proof.
  pose proof (every_match_of_every_pattern_is_collected sample_findall
                "statement" sample_findall_well_shaped)
    as (Hcollected & _ & Herror & Hunique & _).
  split; [exact sample_findall_well_shaped |]. split; [| split].
  - rewrite Hcollected. vm_compute. compare_values.
  - apply Herror; [| reflexivity]. vm_compute. do 2 right. left.
  - rewrite Hunique, Hcollected. vm_compute. reflexivity.
Defined.

Example digits_of_any_script_are_parsed :
  well_shaped ["05/17"; "　CAFE　"; "１２３"] ∧
  (ExtractPdfData.parse_match ["05/17"; "　CAFE　"; "１２３"]).1 =
    Some {| ExtractPdfData.date := "05/17";
            ExtractPdfData.description := "CAFE";
            ExtractPdfData.amount := Q2Qc 123;
            ExtractPdfData.category := None |} ∧
  amount_of ["05/18"; "TEA"; "1２３"] = Some (Q2Qc 123) ∧
  amount_of ["05/19"; "TEA"; "１.２.３"] = None.
Proof.
  split; [split; [vm_compute; lia | by vm_compute] |].
  repeat split; vm_compute; compare_values.
Qed.

(** C9.  The cleanup of the amount string leaves digits, commas and dots
    only, so that no sign reaches the conversion, and every transaction
    returned by [parse_transactions] has an amount of zero or more,
    whatever the text and whatever the matches. *)
Theorem parsed_amounts_are_never_negative :
  (∀ s, all_code_points PyStr.is_amount_char (PyStr.sub_non_amount s) = true) ∧
  PyStr.is_amount_char "-" = false ∧
  (∀ (findall : string → string → list (list string)) (text : string) t,
      t ∈ (ExtractPdfData.parse_transactions findall text).1 →
      (Q2Qc 0 ≤ ExtractPdfData.amount t)%Qc).
Proof.
  split; [apply all_code_points_cleaned | split; [reflexivity |]].
  intros findall text t Hin.
  rewrite parse_transactions_collected in Hin.
  rewrite (remove_duplicates_drop _ _ []) in Hin by set_solver.
  eapply elem_of_sublist in Hin; [| apply drop_duplicates_sublist].
  apply list_elem_of_omap in Hin as (m & _ & Hm).
  by apply parse_match_nonneg in Hm.
Qed.

Example refund_is_parsed_positive :
  PyStr.float_of_string "-80" = Some (Q2Qc (-80)) ∧
  (ExtractPdfData.parse_match ["05/15"; "REFUND"; "-80"]).1 =
    Some (transaction_of ["05/15"; "REFUND"; "-80"] (Q2Qc 80)).
Proof. split; vm_compute; compare_values. Qed.

(** ** The driver *)

Section Driver.
Import ExtractPdfData.
Variable findall : string → string → list (list string).

Lemma extract_pdf_text_opens w pdf_path password :
  ∃ rest, (extract_pdf_text w pdf_path password).2 = OpenPdf pdf_path :: rest.
Proof.
  unfold extract_pdf_text. repeat case_match; simpl; eauto.
Qed.

Lemma extract_text_opens w pdf_path password :
  ∃ rest, (extract_text w pdf_path password).2 = OpenPdf pdf_path :: rest.
Proof.
  unfold extract_text.
  destruct (extract_pdf_text_opens w pdf_path password) as [rest Hrest].
  destruct (extract_pdf_text w pdf_path password) as [text extracted].
  simpl in Hrest. subst extracted.
  repeat case_match; simpl; eauto.
Qed.

Lemma run_opens w pdf_path password :
  ∃ rest,
    (run findall w pdf_path password).2 =
    Print (Line (nl +:+ "Attempting to extract text from PDF..."))
      :: OpenPdf pdf_path :: rest.
Proof.
  unfold run.
  destruct (extract_text_opens w pdf_path password) as [rest Hrest].
  destruct (extract_text w pdf_path password) as [text out].
  simpl in Hrest. subst out.
  repeat case_match; simpl; eauto.
Qed.

(** *** Neither library writes a file *)

Local Abbreviation no_writes := (Forall (λ e, writes_file e = false)).

Lemma extract_pages_no_writes n ps text :
  no_writes (extract_pages n ps text).2.
Proof.
  revert n text. induction ps as [|[page_text|e] ps IH]; intros n text; simpl.
  - constructor.
  - match goal with
    | |- context [extract_pages ?a ps ?c] =>
        specialize (IH a c); destruct (extract_pages a ps c)
    end.
    by constructor.
  - specialize (IH (S n) text). destruct (extract_pages _ _ _). by constructor.
Qed.

Lemma extract_pdf_text_no_writes w pdf_path password :
  no_writes (extract_pdf_text w pdf_path password).2.
Proof.
  unfold extract_pdf_text, alternative_approach.
  repeat case_match; simplify_eq/=; repeat constructor;
    match goal with
    | H : extract_pages ?n ?ps ?t = _ |- _ =>
        pose proof (extract_pages_no_writes n ps t) as Hp;
        rewrite H in Hp; exact Hp
    end.
Qed.

Lemma plumber_pages_no_writes n ps text :
  no_writes (plumber_pages n ps text).2.
Proof.
  revert n text. induction ps as [|[page_text|e] ps IH]; intros n text; simpl.
  - constructor.
  - destruct (truthy page_text); [| apply IH].
    match goal with
    | |- context [plumber_pages ?a ps ?c] =>
        specialize (IH a c); destruct (plumber_pages a ps c)
    end.
    by constructor.
  - constructor.
Qed.

Lemma debug_pdf_content_no_writes w pdf_path password :
  no_writes (debug_pdf_content w pdf_path password).2.
Proof.
  unfold debug_pdf_content.
  repeat case_match; simplify_eq/=; repeat constructor;
    match goal with
    | H : plumber_pages ?n ?ps ?t = _ |- _ =>
        pose proof (plumber_pages_no_writes n ps t) as Hp;
        rewrite H in Hp; simpl in Hp
    end;
    rewrite ?Forall_app; repeat split; try done; repeat constructor.
Qed.

Lemma extract_text_no_writes w pdf_path password :
  no_writes (extract_text w pdf_path password).2.
Proof.
  unfold extract_text.
  pose proof (extract_pdf_text_no_writes w pdf_path password) as He.
  pose proof (debug_pdf_content_no_writes w pdf_path password) as Hd.
  destruct (extract_pdf_text _ _ _) as [text extracted].
  destruct (debug_pdf_content _ _ _) as [text' debugged].
  destruct (truthy text); simpl in *; [done |].
  apply Forall_app. split; [done | by constructor].
Qed.

(** *** A failed extraction ends with a console line saying so *)

Lemma alternative_approach_failure w pdf_path password :
  (alternative_approach w pdf_path password).1 = None →
  ∃ c, last (alternative_approach w pdf_path password).2 = Some (Print c) ∧
       failure_line c = true.
Proof.
  unfold alternative_approach.
  repeat case_match; simplify_eq/=; intros Hnone; simplify_eq;
    eexists; split; reflexivity.
Qed.

Lemma extract_pdf_text_failure w pdf_path password :
  (extract_pdf_text w pdf_path password).1 = None →
  ∃ c, last (extract_pdf_text w pdf_path password).2 = Some (Print c) ∧
       failure_line c = true.
Proof.
  unfold extract_pdf_text.
  pose proof (alternative_approach_failure w pdf_path password) as Halt.
  destruct (alternative_approach _ _ _) as [alt_text alt_out].
  repeat case_match; simplify_eq/=; intros Hnone; simplify_eq;
    try (eexists; split; reflexivity).
  destruct (Halt eq_refl) as (c & Hlast & Hc).
  exists c. split; [| done].
  destruct alt_out as [|e' alt_out]; [done |]. exact Hlast.
Qed.

End Driver.

(** C5, amended.  When [PDF_PASSWORD] is unset or empty, [main] prints the
    banner and the explanation and returns, and nothing reaches for the
    PDF.  When the password is set and [PDF_PATH] is unset, [main] prints a
    warning and goes on to open [bank_statement.pdf]. *)
Theorem missing_password_exits_and_missing_path_continues
    (findall : string → string → list (list string)) (w : ExtractPdfData.World) :
  (ExtractPdfData.getenv w "PDF_PASSWORD" = None ∨
   ExtractPdfData.getenv w "PDF_PASSWORD" = Some "" →
     ExtractPdfData.main findall w =
       (ExtractPdfData.Returns (),
        ExtractPdfData.banner ++ ExtractPdfData.password_help) ∧
     Forall (λ e, attempts_extraction e = false)
       (ExtractPdfData.main findall w).2) ∧
  (∀ password,
     ExtractPdfData.getenv w "PDF_PASSWORD" = Some password → password ≠ "" →
     ExtractPdfData.getenv w "PDF_PATH" = None →
     ∃ rest,
       (ExtractPdfData.main findall w).2 =
       ExtractPdfData.banner ++ ExtractPdfData.path_warning ++
       ExtractPdfData.starting "bank_statement.pdf" ++
       ExtractPdfData.Print
         (ExtractPdfData.Line
            (ExtractPdfData.nl +:+ "Attempting to extract text from PDF..."))
       :: ExtractPdfData.OpenPdf "bank_statement.pdf" :: rest).
Proof.
  split.
  - intros Hpw.
    assert (ExtractPdfData.main findall w =
            (ExtractPdfData.Returns (),
             ExtractPdfData.banner ++ ExtractPdfData.password_help)) as ->.
    { unfold ExtractPdfData.main. by destruct Hpw as [-> | ->]. }
    split; [done |]. repeat constructor.
  - intros password Hpw Hne Hpath. unfold ExtractPdfData.main.
    rewrite Hpw, Hpath. destruct password as [|c password]; [done |].
    simpl.
    destruct (run_opens findall w "bank_statement.pdf" (String c password))
      as [rest Hrest].
    destruct (ExtractPdfData.run _ _ _ _) as [r out]. simpl in Hrest.
    subst out. exists rest. reflexivity.
Qed.

(** C5 as worded fails: with the password set and [PDF_PATH] unset the
    run opens [bank_statement.pdf]. *)
Lemma missing_path_does_not_exit :
  ExtractPdfData.getenv password_only "PDF_PATH" = None ∧
  ExtractPdfData.OpenPdf "bank_statement.pdf" ∈
    (ExtractPdfData.main sample_findall password_only).2 ∧
  ¬ exits_early_when_a_variable_is_missing.
Proof.
  assert (ExtractPdfData.OpenPdf "bank_statement.pdf" ∈
            (ExtractPdfData.main sample_findall password_only).2) as Hopen.
  { vm_compute. repeat first [left | right]. }
  split; [reflexivity | split; [exact Hopen |]].
  intros Hclaim.
  specialize (Hclaim sample_findall password_only (or_intror eq_refl)).
  rewrite Forall_forall in Hclaim. by apply Hclaim in Hopen.
Qed.

(** C6, amended.  When [extract_pdf_text] fails it returns [None], and the
    last thing it did was to print a line saying what failed.  [main] then
    calls [debug_pdf_content], the second library.  When that gives no text
    either, [main] prints its failure notice and returns, and no file has
    been written.  The raw text is saved, to [extracted_text.txt], in
    another case: text was extracted and no transaction was parsed from
    it. *)
Theorem failed_extraction_falls_back_then_stops
    (findall : string → string → list (list string))
    (w : ExtractPdfData.World) (pdf_path password : string) :
  let extracted := ExtractPdfData.extract_pdf_text w pdf_path password in
  let debugged := ExtractPdfData.debug_pdf_content w pdf_path password in
  let ran := ExtractPdfData.run findall w pdf_path password in
  (extracted.1 = None →
     ∃ c, last extracted.2 = Some (ExtractPdfData.Print c) ∧
          failure_line c = true) ∧
  (ExtractPdfData.truthy extracted.1 = false →
     ExtractPdfData.extract_text w pdf_path password =
     (debugged.1,
      extracted.2 ++
        ExtractPdfData.Print
          (ExtractPdfData.Line "PyPDF2 failed, trying alternative method...")
        :: debugged.2)) ∧
  (ExtractPdfData.truthy extracted.1 = false →
   ∀ text, debugged.1 = ExtractPdfData.Returns text →
     ExtractPdfData.truthy text = false →
     ran.1 = ExtractPdfData.Returns () ∧
     (∃ out, ran.2 = out ++ ExtractPdfData.extraction_failed) ∧
     Forall (λ e, writes_file e = false) ran.2) ∧
  (∀ text,
     (ExtractPdfData.extract_text w pdf_path password).1 =
       ExtractPdfData.Returns (Some text) →
     text ≠ "" →
     (ExtractPdfData.parse_transactions findall text).1 = [] →
     ∃ out,
       ran.2 =
       out ++
       [ExtractPdfData.Print
          (ExtractPdfData.Line
             "No transactions found. The PDF format might not match expected patterns.");
        ExtractPdfData.WriteText "extracted_text.txt" text;
        ExtractPdfData.Print
          (ExtractPdfData.Line
             "Extracted text saved to 'extracted_text.txt' for manual review")]).
Proof.
  intros extracted debugged ran.
  assert (ExtractPdfData.truthy extracted.1 = false →
          ExtractPdfData.extract_text w pdf_path password =
          (debugged.1,
           extracted.2 ++
             ExtractPdfData.Print
               (ExtractPdfData.Line "PyPDF2 failed, trying alternative method...")
             :: debugged.2)) as Hfallback.
  { subst extracted debugged. unfold ExtractPdfData.extract_text.
    destruct (ExtractPdfData.extract_pdf_text _ _ _) as [t e].
    destruct (ExtractPdfData.debug_pdf_content _ _ _) as [t' d].
    simpl. by intros ->. }
  split; [apply extract_pdf_text_failure |].
  split; [exact Hfallback |]. split.
  - intros Hfirst text Hsecond Hfalsy.
    pose proof (extract_text_no_writes w pdf_path password) as Hnw.
    subst ran. unfold ExtractPdfData.run.
    rewrite (Hfallback Hfirst) in *. rewrite Hsecond. simpl in Hnw.
    destruct text as [[|c text]|]; simplify_eq/=.
    + split; [done |]. split; [by eexists (_ :: _) |].
      constructor; [done |]. apply Forall_app. split; [done |].
      repeat constructor.
    + split; [done |]. split; [by eexists (_ :: _) |].
      constructor; [done |]. apply Forall_app. split; [done |].
      repeat constructor.
  - intros text Htext Hne Hparsed. subst ran. unfold ExtractPdfData.run.
    destruct (ExtractPdfData.extract_text _ _ _) as [t out].
    simpl in Htext. subst t. destruct text as [|c text]; [done |].
    unfold ExtractPdfData.analyze_text.
    destruct (ExtractPdfData.parse_transactions _ _) as [ts parsed].
    simpl in Hparsed. subst ts. simpl.
    eexists (_ :: _ ++ _ :: _ :: _). simpl. f_equal.
    rewrite <- app_assoc. f_equal.
Qed.

(** C6 as worded fails: on a machine where neither library can open the
    PDF the run ends with the failure notice and writes no file. *)
Lemma both_libraries_failing_saves_nothing :
  (ExtractPdfData.extract_pdf_text password_only "bank_statement.pdf" "secret").1
    = None ∧
  (ExtractPdfData.debug_pdf_content password_only "bank_statement.pdf" "secret").1
    = ExtractPdfData.Returns None ∧
  Forall (λ e, writes_file e = false)
    (ExtractPdfData.main sample_findall password_only).2 ∧
  ¬ saves_raw_text_when_both_libraries_fail.
Proof.
  split; [reflexivity | split; [reflexivity | split]].
  - vm_compute. repeat constructor.
  - intros Hclaim.
    destruct (Hclaim sample_findall password_only "bank_statement.pdf" "secret"
                eq_refl eq_refl) as (file & content & Hin).
    assert (Forall (λ e, writes_file e = false)
              (ExtractPdfData.run sample_findall password_only
                 "bank_statement.pdf" "secret").2) as Hnone
      by (vm_compute; repeat constructor).
    rewrite Forall_forall in Hnone. by apply Hnone in Hin.
Qed.

Example unparsed_text_is_saved :
  ExtractPdfData.WriteText "extracted_text.txt"
    ("--- Page 1 ---" +:+ ExtractPdfData.nl +:+ "no rows here"
       +:+ ExtractPdfData.nl +:+ ExtractPdfData.nl)
  ∈ (ExtractPdfData.main (λ _ _, []) (one_page_pdf "no rows here")).2.
Proof. vm_compute. repeat first [left | right]. Qed.

Example parsed_text_is_analyzed :
  csv_frames (ExtractPdfData.main sample_findall (one_page_pdf "statement")).2 =
  [ExtractPdfData.to_row <$>
     ExtractPdfData.categorize_transactions
       (ExtractPdfData.parse_transactions sample_findall
          ("--- Page 1 ---" +:+ ExtractPdfData.nl +:+ "statement"
             +:+ ExtractPdfData.nl +:+ ExtractPdfData.nl)).1].
Proof. vm_compute. compare_values. Qed.

(** ** Sorting and sums *)

Section Sorting.
Context {A : Type} (le : A → A → bool).
Hypothesis le_total : ∀ x y, le x y = true ∨ le y x = true.

Local Abbreviation R := (λ x y, le x y = true).

Lemma insert_by_Permutation x l : Pandas.insert_by le x l ≡ₚ x :: l.
Proof.
  induction l as [|y l IH]; simpl; [done |].
  destruct (le x y); [done |]. by rewrite IH, Permutation_swap.
Qed.

Lemma sort_by_Permutation l : Pandas.sort_by le l ≡ₚ l.
Proof.
  induction l as [|x l IH]; simpl; [done |].
  by rewrite insert_by_Permutation, IH.
Qed.

Lemma insert_by_HdRel a x l :
  R a x → HdRel R a l → HdRel R a (Pandas.insert_by le x l).
Proof.
  intros Hax Hal. destruct l as [|y l]; simpl; [by constructor |].
  destruct (le x y); constructor; [done |]. by inversion Hal.
Qed.

Lemma insert_by_Sorted x l : Sorted R l → Sorted R (Pandas.insert_by le x l).
Proof.
  induction 1 as [|y l Hl IH Hhd]; simpl; [by repeat constructor |].
  destruct (le x y) eqn:Hxy.
  - by repeat constructor.
  - constructor; [done |]. apply insert_by_HdRel; [| done].
    by destruct (le_total x y) as [Hle | Hle]; [congruence |].
Qed.

Lemma sort_by_Sorted l : Sorted R (Pandas.sort_by le l).
Proof.
  induction l as [|x l IH]; simpl; [constructor | by apply insert_by_Sorted].
Qed.

End Sorting.

(** ** Aggregation *)

Section Aggregation.
Import ExtractPdfData.

Lemma group_keys_NoDup df : NoDup (group_keys df).
Proof.
  unfold group_keys. rewrite sort_by_Permutation. apply NoDup_remove_dups.
Qed.

Lemma elem_of_group_keys df k :
  k ∈ group_keys df ↔ ∃ r, r ∈ df ∧ row_category r = Some k.
Proof.
  unfold group_keys.
  by rewrite sort_by_Permutation, elem_of_remove_dups, list_elem_of_omap.
Qed.

Lemma ge_amount_total p q : ge_amount p q = true ∨ ge_amount q p = true.
Proof.
  unfold ge_amount. destruct (Qc_le_total p.2 q.2); [right | left];
    by apply bool_decide_eq_true.
Qed.

Lemma descending_breakdown (l : list (string * Qc)) :
  StronglySorted (λ p q, (q.2 ≤ p.2)%Qc) (Pandas.sort_by ge_amount l).
Proof.
  apply Sorted_StronglySorted.
  - intros p q r Hpq Hqr. by eapply Qcle_trans.
  - pose proof (sort_by_Sorted ge_amount ge_amount_total l) as Hs.
    induction Hs as [|p l' _ IH Hhd]; constructor; [done |].
    destruct Hhd as [|q l' Hpq]; constructor.
    by apply bool_decide_eq_true in Hpq.
Qed.

End Aggregation.

(** X20.  For a non-empty list of categorized transactions
    [analyze_spending] returns an analysis whose [category_breakdown] is in
    descending order of its values and has exactly one entry for every
    category that occurs among the transactions. *)
Theorem category_breakdown_is_descending
    (transactions : list ExtractPdfData.Transaction) :
  transactions ≠ [] →
  Forall (λ t, is_Some (ExtractPdfData.category t)) transactions →
  ∃ analysis out,
    ExtractPdfData.analyze_spending transactions =
      (ExtractPdfData.Returns
         (Some (analysis, ExtractPdfData.to_row <$> transactions)), out) ∧
    StronglySorted (λ p q, (q.2 ≤ p.2)%Qc)
      (ExtractPdfData.category_breakdown analysis) ∧
    NoDup (map fst (ExtractPdfData.category_breakdown analysis)) ∧
    ∀ k,
      k ∈ map fst (ExtractPdfData.category_breakdown analysis) ↔
      ∃ t, t ∈ transactions ∧ ExtractPdfData.category t = Some k.
Proof.
  intros Hne Hcat. unfold ExtractPdfData.analyze_spending.
  destruct transactions as [|t0 ts]; [done |].
  cbv zeta.
  change (map ExtractPdfData.to_row (t0 :: ts))
    with (ExtractPdfData.to_row t0 :: map ExtractPdfData.to_row ts).
  cbv beta iota.
  change (ExtractPdfData.to_row t0 :: map ExtractPdfData.to_row ts)
    with (map ExtractPdfData.to_row (t0 :: ts)).
  set (transactions := t0 :: ts) in *.
  set (df := map ExtractPdfData.to_row transactions).
  assert (forallb (λ r, bool_decide (ExtractPdfData.row_category r = None)) df
          = false) as ->.
  { subst df transactions. simpl. inversion Hcat as [|? ? [c Hc] _]; subst.
    by rewrite Hc. }
  set (sums := map (λ k, (k, Pandas.sum (map ExtractPdfData.row_amount_abs
                                            (ExtractPdfData.group df k))))
                   (ExtractPdfData.group_keys df)).
  assert (Pandas.sort_by ExtractPdfData.ge_amount sums ≡ₚ sums) as Hperm
    by apply sort_by_Permutation.
  assert (map fst sums = ExtractPdfData.group_keys df) as Hkeys.
  { subst sums. rewrite map_map. simpl. by rewrite map_id. }
  eexists _, _. split; [reflexivity |].
  cbn [ExtractPdfData.category_breakdown]. fold sums.
  split; [| split].
  - apply descending_breakdown.
  - rewrite (Permutation_map fst Hperm), Hkeys. apply group_keys_NoDup.
  - intros k. rewrite (Permutation_map fst Hperm), Hkeys, elem_of_group_keys.
    subst df. split.
    + intros (r & Hr & Hrk).
      apply list_elem_of_fmap_1 in Hr as (t & -> & Ht). by exists t.
    + intros (t & Ht & Htk). exists (ExtractPdfData.to_row t).
      split; [by apply list_elem_of_fmap_2 | done].
Qed.

Lemma category_breakdown_is_descending_witness :
  sample_transactions ≠ [] ∧
  Forall (λ t, is_Some (ExtractPdfData.category t)) sample_transactions ∧
  ∃ analysis,
    (ExtractPdfData.analyze_spending sample_transactions).1 =
      ExtractPdfData.Returns
        (Some (analysis, ExtractPdfData.to_row <$> sample_transactions)) ∧
    ExtractPdfData.category_breakdown analysis =
      [("Transportation", Q2Qc (601 # 2)); ("Food & Dining", Q2Qc 165)] ∧
    StronglySorted (λ p q, (q.2 ≤ p.2)%Qc)
      (ExtractPdfData.category_breakdown analysis).
Proof.
  assert (sample_transactions ≠ []) as Hne by done.
  assert (Forall (λ t, is_Some (ExtractPdfData.category t)) sample_transactions)
    as Hcat by (repeat constructor; by eexists).
  split; [exact Hne | split; [exact Hcat |]].
  destruct (category_breakdown_is_descending sample_transactions Hne Hcat)
    as (analysis & out & Heq & Hsorted & _).
  exists analysis. rewrite Heq. split; [done |]. split; [| exact Hsorted].
  vm_compute in Heq. injection Heq as <- _. vm_compute. compare_values.
Defined.

(** ** Records after categorization *)

Section Lifecycle.
Import ExtractPdfData.
Variable findall : string → string → list (list string).

Lemma analyze_spending_frame transactions analysis df out :
  analyze_spending transactions = (Returns (Some (analysis, df)), out) →
  df = to_row <$> transactions.
Proof.
  unfold analyze_spending. destruct transactions as [|t ts]; [done |].
  cbv zeta.
  change (map to_row (t :: ts)) with (to_row t :: map to_row ts).
  cbv beta iota. destruct (forallb _ _); [done |]. by intros [= _ <- _].
Qed.

Lemma csv_frames_app l1 l2 : csv_frames (l1 ++ l2) = csv_frames l1 ++ csv_frames l2.
Proof. apply omap_app. Qed.

Lemma csv_frames_print out : csv_frames (map Print out) = [].
Proof. induction out as [|c out IH]; [done | exact IH]. Qed.

Lemma csv_frames_visualizations w : csv_frames (create_visualizations w) = [].
Proof. unfold create_visualizations. by destruct (savefig w). Qed.

Lemma analyze_text_csv w text :
  csv_frames (analyze_text findall w text).2 = [] ∨
  csv_frames (analyze_text findall w text).2 =
    [to_row <$> categorize_transactions (parse_transactions findall text).1].
Proof.
  unfold analyze_text.
  destruct (parse_transactions findall text) as [[|t ts] parsed]; cbn [fst snd].
  - left. by rewrite !csv_frames_app, csv_frames_print.
  - destruct (analyze_spending _) as [[[[analysis df]|]|e] out] eqn:Ha;
      cbn [fst snd];
      rewrite ?csv_frames_app, ?csv_frames_print, ?csv_frames_visualizations;
      try (by left).
    right. apply analyze_spending_frame in Ha as ->. done.
Qed.

End Lifecycle.

(** C7.  [categorize_transactions] assigns the category of every
    transaction and leaves its date, description and amount as they were;
    after it, the run only reads the records: the one frame it saves, to
    [transactions.csv], holds for every categorized record a row with the
    same date, description, amount and category. *)
Theorem records_are_not_changed_after_categorization
    (findall : string → string → list (list string))
    (w : ExtractPdfData.World) (text : string) :
  (∀ transactions : list ExtractPdfData.Transaction,
    Forall2
      (λ t t',
        ExtractPdfData.date t' = ExtractPdfData.date t ∧
        ExtractPdfData.description t' = ExtractPdfData.description t ∧
        ExtractPdfData.amount t' = ExtractPdfData.amount t ∧
        is_Some (ExtractPdfData.category t'))
      transactions (ExtractPdfData.categorize_transactions transactions)) ∧
  (∀ file df,
    ExtractPdfData.ToCsv file df ∈ (ExtractPdfData.analyze_text findall w text).2 →
    Forall2 same_fields
      (ExtractPdfData.categorize_transactions
         (ExtractPdfData.parse_transactions findall text).1)
      df).
Proof.
  split.
  - intros transactions. unfold ExtractPdfData.categorize_transactions.
    apply Forall2_fmap_r, Forall_Forall2_diag, Forall_forall.
    intros t _. by repeat split.
  - intros file df Hin.
    assert (df ∈ csv_frames (ExtractPdfData.analyze_text findall w text).2) as Hdf.
    { apply list_elem_of_omap. by exists (ExtractPdfData.ToCsv file df). }
    destruct (analyze_text_csv findall w text) as [Hcsv | Hcsv];
      rewrite Hcsv in Hdf; [by apply elem_of_nil in Hdf |].
    apply list_elem_of_singleton in Hdf as ->.
    apply Forall2_fmap_r, Forall_Forall2_diag, Forall_forall.
    intros t _. by repeat split.
Qed.

Example recategorization_in_the_next_script :
  Keywords.assign_category ExtractPdfData.categories "CURSOR USAGE" = "Other" ∧
  Keywords.assign_category CleanAnalysis.categories "CURSOR USAGE"
    = "Technology/Software".
Proof. by vm_compute. Qed.

(** C10.  [detect_subscription_type] returns, for every description, one
    of three distinct labels: the usage-based label when the uppercased
    description contains [USAGE], whatever else it contains; otherwise the
    monthly-subscription label when it contains [SUBSCR], [SUBSCRIPTION],
    [PRO], [PREMIUM] or [PLUS]; otherwise the one-time label. *)
Theorem detect_subscription_type_labels
    (upper : string → string) (description : string) :
  let label := SaasAnalysis.detect_subscription_type upper description in
  let u := upper description in
  (label = "按使用量計費" ∨ label = "月度訂閱" ∨ label = "一次性/其他") ∧
  ("按使用量計費" ≠ "月度訂閱" ∧ "月度訂閱" ≠ "一次性/其他" ∧
   "按使用量計費" ≠ "一次性/其他") ∧
  (substring_of "USAGE" u → label = "按使用量計費") ∧
  (¬ substring_of "USAGE" u →
   substring_of "SUBSCR" u ∨ substring_of "SUBSCRIPTION" u ∨
   substring_of "PRO" u ∨ substring_of "PREMIUM" u ∨ substring_of "PLUS" u →
   label = "月度訂閱") ∧
  (¬ substring_of "USAGE" u →
   ¬ (substring_of "SUBSCR" u ∨ substring_of "SUBSCRIPTION" u ∨
      substring_of "PRO" u ∨ substring_of "PREMIUM" u ∨ substring_of "PLUS" u) →
   label = "一次性/其他").
Proof.
  intros label u. subst label u.
  unfold SaasAnalysis.detect_subscription_type. simpl.
  rewrite <- !str_in_spec.
  destruct (PyStr.str_in "USAGE" _), (PyStr.str_in "SUBSCR" _),
    (PyStr.str_in "SUBSCRIPTION" _), (PyStr.str_in "PRO" _),
    (PyStr.str_in "PREMIUM" _), (PyStr.str_in "PLUS" _);
    simpl; repeat split; try done; try tauto; intros; exfalso; tauto.
Qed.

Example detect_subscription_type_examples :
  SaasAnalysis.detect_subscription_type SaasAnalysis.ascii_upper
    "Cursor usage, pro plan" = "按使用量計費" ∧
  SaasAnalysis.detect_subscription_type SaasAnalysis.ascii_upper
    "OPENAI *CHATGPT SUBSCR" = "月度訂閱" ∧
  SaasAnalysis.detect_subscription_type SaasAnalysis.ascii_upper
    "Google Colab Pro" = "月度訂閱" ∧
  SaasAnalysis.detect_subscription_type SaasAnalysis.ascii_upper
    "FIGMA" = "一次性/其他".
Proof. by vm_compute. Qed.

(** * Further properties of the scripts *)

(** ** A deduplicated list stays as it is *)

Section DeduplicatedLists.
Context {A K : Type} `{EqDecision K} (subset : A → K).

Lemma drop_duplicates_fixed earlier (l : list A) :
  NoDup (subset <$> l) →
  (∀ k, k ∈ subset <$> l → k ∉ earlier) →
  Pandas.drop_duplicates subset earlier l = l.
Proof.
  revert earlier. induction l as [|r l IH]; intros earlier Hnd Hfresh; [done |].
  simpl. rewrite fmap_cons in Hnd, Hfresh.
  apply NoDup_cons in Hnd as [Hr Hnd].
  rewrite decide_False by (apply Hfresh; left).
  f_equal. apply IH; [done |]. intros k Hk.
  rewrite not_elem_of_cons. split; [by intros -> | apply Hfresh; by right].
Qed.

End DeduplicatedLists.

(** X1.  No two of the transactions returned by [parse_transactions] have
    the same date, the same description and the same amount, and a second
    run of the deduplication loop on them changes nothing. *)
Theorem parsed_transactions_have_no_duplicates
    (findall : string → string → list (list string)) (text : string) :
  let transactions := (ExtractPdfData.parse_transactions findall text).1 in
  (∀ i j t1 t2,
     transactions !! i = Some t1 → transactions !! j = Some t2 →
     same_triple t1 t2 → i = j) ∧
  ExtractPdfData.remove_duplicates transactions ∅ [] = transactions.
Proof.
  intros transactions.
  assert (NoDup (ExtractPdfData.key <$> transactions)) as Hnd.
  { subst transactions. rewrite parse_transactions_collected.
    rewrite (remove_duplicates_drop _ _ []) by set_solver.
    apply drop_duplicates_NoDup. }
  split.
  - intros i j t1 t2 Hi Hj Hsame%key_same_triple.
    apply (NoDup_lookup _ i j (ExtractPdfData.key t1) Hnd).
    + by rewrite list_lookup_fmap, Hi.
    + by rewrite list_lookup_fmap, Hj, Hsame.
  - rewrite (remove_duplicates_drop _ _ []) by set_solver.
    apply drop_duplicates_fixed; [done |]. intros k _. apply not_elem_of_nil.
Qed.

(** X2.  Categorizing twice is categorizing once, in both scripts, and the
    categories that [improve_categorization] assigns do not depend on the
    ones [categorize_transactions] assigned before. *)
Theorem recategorization_starts_afresh
    (transactions : list ExtractPdfData.Transaction) (df : list ExtractPdfData.Row) :
  ExtractPdfData.categorize_transactions
    (ExtractPdfData.categorize_transactions transactions) =
    ExtractPdfData.categorize_transactions transactions ∧
  CleanAnalysis.improve_categorization (CleanAnalysis.improve_categorization df) =
    CleanAnalysis.improve_categorization df ∧
  CleanAnalysis.improve_categorization
    (ExtractPdfData.to_row <$> ExtractPdfData.categorize_transactions transactions) =
    CleanAnalysis.improve_categorization (ExtractPdfData.to_row <$> transactions).
Proof.
  unfold ExtractPdfData.categorize_transactions,
    CleanAnalysis.improve_categorization.
  repeat split; rewrite ?map_map, <- ?list_fmap_compose;
    by apply map_ext || apply list_fmap_ext.
Qed.

Section AnalysisOutcomes.
Import ExtractPdfData.

Lemma uncategorized_rows (transactions : list Transaction) :
  forallb (λ r, bool_decide (row_category r = None)) (map to_row transactions)
    = true ↔
  Forall (λ t, category t = None) transactions.
Proof.
  induction transactions as [|t ts IH]; simpl.
  - split; [constructor | done].
  - rewrite andb_true_iff, IH, bool_decide_eq_true, Forall_cons. done.
Qed.

Lemma analyze_spending_with_category (transactions : list Transaction) :
  transactions ≠ [] →
  Exists (λ t, is_Some (category t)) transactions →
  ∃ analysis,
    analyze_spending transactions =
    (Returns (Some (analysis, to_row <$> transactions)),
     [AnalyzingTransactions (length transactions)]) ∧
    number_of_transactions analysis = length transactions.
Proof.
  intros Hne Hsome. destruct transactions as [|t ts]; [done |].
  assert (forallb (λ r, bool_decide (row_category r = None))
            (map to_row (t :: ts)) = false) as Hfalse.
  { apply not_true_is_false. rewrite uncategorized_rows. intros Hnone.
    apply Exists_exists in Hsome as (t' & Hin & [c Hc]).
    rewrite Forall_forall in Hnone. by rewrite (Hnone t' Hin) in Hc. }
  unfold analyze_spending. cbv zeta. rewrite Hfalse.
  change (map to_row (t :: ts)) with (to_row t :: map to_row ts).
  cbv beta iota.
  change (to_row t :: map to_row ts) with (map to_row (t :: ts)).
  rewrite !length_map. eexists. split; reflexivity.
Qed.

Lemma analyze_spending_categorized (transactions : list Transaction) :
  transactions ≠ [] →
  ∃ analysis out,
    analyze_spending (categorize_transactions transactions) =
    (Returns (Some (analysis, to_row <$> categorize_transactions transactions)),
     out).
Proof.
  intros Hne.
  destruct (analyze_spending_with_category (categorize_transactions transactions))
    as (analysis & Hrun & _).
  - by destruct transactions.
  - destruct transactions as [|t ts]; [done |]. left. by eexists.
  - eauto.
Qed.

End AnalysisOutcomes.

(** ** Counts and rankings of the analysis *)

Section Counts.
Import ExtractPdfData.

Lemma count_one_key {K} `{EqDecision K} (g : K → nat) (k0 : K) keys :
  NoDup keys → k0 ∈ keys →
  sum_list (map (λ k, if decide (Some k0 = Some k) then S (g k) else g k) keys)
  = S (sum_list (map g keys)).
Proof.
  induction 1 as [|k keys Hk Hnd IH]; [by intros ?%elem_of_nil |].
  intros Hin. simpl. destruct (decide (Some k0 = Some k)) as [[= ->] | Hne].
  - assert (map (λ k', if decide (Some k = Some k') then S (g k') else g k') keys
            = map g keys) as ->; [| done].
    apply map_ext_in. intros k' Hk'%list_elem_of_In.
    destruct (decide (Some k = Some k')) as [[= ->] |]; done.
  - apply elem_of_cons in Hin as [-> | Hin]; [done |]. rewrite (IH Hin). lia.
Qed.

Lemma group_counts_total keys df :
  NoDup keys →
  (∀ r k, r ∈ df → row_category r = Some k → k ∈ keys) →
  sum_list (map (λ k, length (group df k)) keys)
  = length (filter (λ r, is_Some (row_category r)) df).
Proof.
  intros Hnd. induction df as [|r df IH]; intros Hcat.
  - clear Hcat. induction keys as [|k keys IHk]; [done |].
    simpl. apply IHk. by inversion Hnd.
  - rewrite filter_cons.
    specialize (IH (λ r' k Hr', Hcat r' k (list_elem_of_further _ _ _ Hr'))).
    destruct (row_category r) as [k0|] eqn:Hk0.
    + rewrite decide_True by eauto. simpl. rewrite <- IH.
      rewrite <- (count_one_key _ k0) by (eauto using list_elem_of_here).
      f_equal. apply map_ext. intros k. unfold group.
      rewrite filter_cons, Hk0. by destruct (decide (Some k0 = Some k)).
    + rewrite decide_False by (by intros [? ?]). rewrite <- IH.
      f_equal. apply map_ext. intros k. unfold group.
      by rewrite filter_cons, Hk0, decide_False.
Qed.

Lemma categorized_rows (transactions : list Transaction) :
  length (filter (λ r, is_Some (row_category r)) (map to_row transactions)) =
  length (filter (λ t, is_Some (category t)) transactions).
Proof.
  induction transactions as [|t ts IH]; [done |].
  rewrite map_cons, !filter_cons. cbn [to_row row_category].
  destruct (decide (is_Some (category t))); simpl; by rewrite IH.
Qed.

End Counts.

Section Rankings.
Context {A : Type} (le : A → A → bool).
Hypothesis le_total : ∀ x y, le x y = true ∨ le y x = true.
Hypothesis le_trans : ∀ x y z, le x y = true → le y z = true → le x z = true.

(** The first [n] of a sorted list come before all the others. *)
Lemma take_sort_by n l :
  take n (Pandas.sort_by le l) ++ drop n (Pandas.sort_by le l) ≡ₚ l ∧
  StronglySorted (λ x y, le x y = true) (take n (Pandas.sort_by le l)) ∧
  ∀ x y, x ∈ take n (Pandas.sort_by le l) → y ∈ drop n (Pandas.sort_by le l) →
         le x y = true.
Proof.
  assert (StronglySorted (λ x y, le x y = true)
            (take n (Pandas.sort_by le l) ++ drop n (Pandas.sort_by le l)))
    as Hs.
  { rewrite take_drop. apply Sorted_StronglySorted; [| by apply sort_by_Sorted].
    intros x y z. apply le_trans. }
  split; [rewrite take_drop; apply sort_by_Permutation |].
  split; [exact (StronglySorted_app_1_l _ _ _ Hs) |].
  intros x y. exact (StronglySorted_app_1_elem_of _ _ _ x y Hs).
Qed.

End Rankings.

(** X4.  In an analysis returned by [analyze_spending], the counts of
    [transactions_by_category] add up to the number of transactions with a
    category, and [transactions_by_category] and [category_breakdown] have
    the same categories. *)
Theorem analysis_counts_add_up
    (transactions : list ExtractPdfData.Transaction) analysis df out :
  ExtractPdfData.analyze_spending transactions =
    (ExtractPdfData.Returns (Some (analysis, df)), out) →
  sum_list (map snd (ExtractPdfData.transactions_by_category analysis)) =
    length (filter (λ t, is_Some (ExtractPdfData.category t)) transactions) ∧
  map fst (ExtractPdfData.transactions_by_category analysis) ≡ₚ
    map fst (ExtractPdfData.category_breakdown analysis).
Proof.
  intros Hrun. unfold ExtractPdfData.analyze_spending in Hrun.
  destruct transactions as [|t ts]; [done |].
  cbv zeta in Hrun.
  change (map ExtractPdfData.to_row (t :: ts))
    with (ExtractPdfData.to_row t :: map ExtractPdfData.to_row ts) in Hrun.
  cbv beta iota in Hrun.
  change (ExtractPdfData.to_row t :: map ExtractPdfData.to_row ts)
    with (map ExtractPdfData.to_row (t :: ts)) in Hrun.
  destruct (forallb _ _); [done |].
  injection Hrun as <- <- _.
  cbn [ExtractPdfData.transactions_by_category ExtractPdfData.category_breakdown
       ExtractPdfData.average_transaction ExtractPdfData.number_of_transactions
       ExtractPdfData.total_spending].
  set (transactions := t :: ts). set (rows := map ExtractPdfData.to_row transactions).
  split.
  - rewrite map_map. cbn [snd].
    rewrite group_counts_total.
    + exact (categorized_rows transactions).
    + apply group_keys_NoDup.
    + intros r k Hr Hk. apply elem_of_group_keys. by exists r.
  - rewrite (Permutation_map fst (sort_by_Permutation _ _)).
    by rewrite !map_map.
Qed.

Lemma analysis_counts_add_up_witness :
  ∃ analysis,
    (ExtractPdfData.analyze_spending sample_transactions).1 =
      ExtractPdfData.Returns
        (Some (analysis, ExtractPdfData.to_row <$> sample_transactions)) ∧
    ExtractPdfData.transactions_by_category analysis =
      [("Food & Dining", 2); ("Transportation", 1)] ∧
    sum_list (map snd (ExtractPdfData.transactions_by_category analysis)) = 3.
Proof.
  destruct (ExtractPdfData.analyze_spending sample_transactions)
    as [[[[analysis df]|]|e] out] eqn:Hrun; try (by vm_compute in Hrun).
  pose proof (analysis_counts_add_up _ _ _ _ Hrun) as (Hsum & _).
  exists analysis. vm_compute in Hrun. injection Hrun as <- <- _.
  split; [vm_compute; compare_values | split; [reflexivity | exact Hsum]].
Defined.

(** X5.  [top_transactions] lists the transactions of largest absolute
    amount: five of them, or all when there are fewer, in descending order
    of absolute amount, and no transaction left out has a larger absolute
    amount than a listed one. *)
Theorem top_transactions_are_the_largest
    (transactions : list ExtractPdfData.Transaction) analysis df out :
  ExtractPdfData.analyze_spending transactions =
    (ExtractPdfData.Returns (Some (analysis, df)), out) →
  ∃ top rest,
    ExtractPdfData.top_transactions analysis =
      map (λ r, (ExtractPdfData.row_description r, ExtractPdfData.row_amount r,
                 ExtractPdfData.row_category r)) top ∧
    top ++ rest ≡ₚ ExtractPdfData.to_row <$> transactions ∧
    length top = 5 `min` length transactions ∧
    StronglySorted
      (λ r r', (ExtractPdfData.row_amount_abs r' ≤ ExtractPdfData.row_amount_abs r)%Qc)
      top ∧
    ∀ r r', r ∈ top → r' ∈ rest →
      (ExtractPdfData.row_amount_abs r' ≤ ExtractPdfData.row_amount_abs r)%Qc.
Proof.
  intros Hrun. unfold ExtractPdfData.analyze_spending in Hrun.
  destruct transactions as [|t ts]; [done |].
  cbv zeta in Hrun.
  change (map ExtractPdfData.to_row (t :: ts))
    with (ExtractPdfData.to_row t :: map ExtractPdfData.to_row ts) in Hrun.
  cbv beta iota in Hrun.
  change (ExtractPdfData.to_row t :: map ExtractPdfData.to_row ts)
    with (map ExtractPdfData.to_row (t :: ts)) in Hrun.
  destruct (forallb _ _); [done |].
  injection Hrun as <- <- _. cbn [ExtractPdfData.top_transactions].
  set (rows := map ExtractPdfData.to_row (t :: ts)).
  destruct (take_sort_by ExtractPdfData.ge_amount_abs) with (n := 5) (l := rows)
    as (Hperm & Hsorted & Hle).
  { intros r r'. unfold ExtractPdfData.ge_amount_abs.
    destruct (Qc_le_total (ExtractPdfData.row_amount_abs r)
                (ExtractPdfData.row_amount_abs r')); [right | left];
      by apply bool_decide_eq_true. }
  { intros r1 r2 r3. unfold ExtractPdfData.ge_amount_abs.
    rewrite !bool_decide_eq_true. intros H12 H23. by eapply Qcle_trans. }
  exists (take 5 (Pandas.sort_by ExtractPdfData.ge_amount_abs rows)),
         (drop 5 (Pandas.sort_by ExtractPdfData.ge_amount_abs rows)).
  split; [done | split; [exact Hperm | split; [| split]]].
  - rewrite length_take, (Permutation_length (sort_by_Permutation _ _)).
    subst rows. by rewrite length_map.
  - clear Hperm Hle. induction Hsorted as [|r l' _ IH Hall]; constructor; [done |].
    eapply Forall_impl; [exact Hall |].
    intros r' Hrr. by apply bool_decide_eq_true in Hrr.
  - intros r r' Hr Hr'. specialize (Hle r r' Hr Hr').
    by apply bool_decide_eq_true in Hle.
Qed.

Lemma top_transactions_are_the_largest_witness :
  ∃ analysis (top rest : list ExtractPdfData.Row),
    (ExtractPdfData.analyze_spending sample_transactions).1 =
      ExtractPdfData.Returns
        (Some (analysis, ExtractPdfData.to_row <$> sample_transactions)) ∧
    ExtractPdfData.top_transactions analysis =
      map (λ r, (ExtractPdfData.row_description r, ExtractPdfData.row_amount r,
                 ExtractPdfData.row_category r)) top ∧
    length top = 3 ∧ rest = [] ∧
    map fst (ExtractPdfData.top_transactions analysis) =
      [("UBER", Q2Qc (601 # 2)); ("7-11", Q2Qc (-120)); ("7-11", Q2Qc 45)].
Proof.
  destruct (ExtractPdfData.analyze_spending sample_transactions)
    as [[[[analysis df]|]|e] out] eqn:Hrun; try (by vm_compute in Hrun).
  destruct (top_transactions_are_the_largest _ _ _ _ Hrun)
    as (top & rest & Htop & Hperm & Hlen & _).
  exists analysis, top, rest.
  assert (rest = []) as Hrest.
  { apply Permutation_length in Hperm. rewrite length_app, Hlen in Hperm.
    simpl in Hperm. destruct rest; [done | simpl in Hperm; lia]. }
  vm_compute in Hrun. injection Hrun as <- <- _.
  split; [vm_compute; compare_values |].
  split; [exact Htop | split; [exact Hlen | split; [exact Hrest |]]].
  vm_compute. compare_values.
Defined.

(** ** The run of the extraction script *)

Section Run.
Import ExtractPdfData.
Variable findall : string → string → list (list string).

Lemma string_app_assoc (s t u : string) : (s +:+ t) +:+ u = s +:+ t +:+ u.
Proof.
  induction s as [|c s IH]; [done |]. by rewrite !app_cons, IH.
Qed.

Lemma string_app_empty_r (s : string) : s +:+ "" = s.
Proof. induction s as [|c s IH]; [done |]. by rewrite app_cons, IH. Qed.

Lemma extract_pages_text n ps text :
  (extract_pages n ps text).1 = text +:+ page_blocks n ps.
Proof.
  revert n text. induction ps as [|[page_text|e] ps IH]; intros n text.
  - simpl. by rewrite string_app_empty_r.
  - cbn [extract_pages page_blocks page_block].
    match goal with
    | |- context [extract_pages ?a ps ?c] =>
        specialize (IH a c); destruct (extract_pages a ps c)
    end.
    cbn [fst] in *. rewrite IH. by rewrite !string_app_assoc.
  - cbn [extract_pages page_blocks page_block].
    specialize (IH (S n) text). destruct (extract_pages _ _ _).
    cbn [fst] in *. rewrite IH. by rewrite app_empty.
Qed.

Lemma extract_pages_alt_text texts text :
  extract_pages_alt (Returns <$> texts) text = Returns (text +:+ page_lines texts).
Proof.
  revert text. induction texts as [|t texts IH]; intros text; simpl.
  - by rewrite string_app_empty_r.
  - rewrite IH. by rewrite !string_app_assoc.
Qed.

Lemma extract_pages_alt_raises ps text i err :
  ps !! i = Some (Raises err) → ∃ e, extract_pages_alt ps text = Raises e.
Proof.
  revert text i. induction ps as [|[t|e] ps IH]; intros text i Hi.
  - done.
  - destruct i as [|i]; [done |]. simpl. by eapply IH.
  - simpl. eauto.
Qed.

Local Abbreviation no_pdfplumber_events :=
  (Forall (λ e, touches_pdfplumber e = false)).

Lemma extract_pages_no_pdfplumber n ps text :
  no_pdfplumber_events (extract_pages n ps text).2.
Proof.
  revert n text. induction ps as [|[page_text|e] ps IH]; intros n text; simpl.
  - constructor.
  - match goal with
    | |- context [extract_pages ?a ps ?c] =>
        specialize (IH a c); destruct (extract_pages a ps c)
    end.
    by constructor.
  - specialize (IH (S n) text). destruct (extract_pages _ _ _). by constructor.
Qed.

Lemma extract_pdf_text_no_pdfplumber w pdf_path password :
  no_pdfplumber_events (extract_pdf_text w pdf_path password).2.
Proof.
  unfold extract_pdf_text, alternative_approach.
  repeat case_match; simplify_eq/=; repeat constructor;
    match goal with
    | H : extract_pages ?n ?ps ?t = _ |- _ =>
        pose proof (extract_pages_no_pdfplumber n ps t) as Hp;
        rewrite H in Hp; exact Hp
    end.
Qed.

Lemma printed_no_pdfplumber (out : list Console) :
  no_pdfplumber_events (map Print out).
Proof. induction out; by constructor. Qed.

Lemma analyze_text_no_pdfplumber w text :
  no_pdfplumber_events (analyze_text findall w text).2.
Proof.
  unfold analyze_text, create_visualizations.
  destruct (parse_transactions findall text) as [[|t ts] parsed]; cbn [snd].
  - repeat (apply Forall_app; split); try apply printed_no_pdfplumber;
      repeat constructor.
  - destruct (analyze_spending _) as [[[[analysis df]|]|e] out];
      destruct (savefig w); cbn [snd];
      repeat (apply Forall_app; split); try apply printed_no_pdfplumber;
      repeat constructor.
Qed.

End Run.

(** X6.  A failed installation of pdfplumber is not caught.  When
    [extract_pdf_text] gives no text, pdfplumber cannot be imported and its
    installation raises, [debug_pdf_content] and the run end with the
    exception of the installation: the installation is the last thing the
    run does, pdfplumber never opens the PDF and no file is written. *)
Theorem failed_installation_is_not_caught
    (findall : string → string → list (list string))
    (w : ExtractPdfData.World) (pdf_path password e : string) :
  ExtractPdfData.truthy (ExtractPdfData.extract_pdf_text w pdf_path password).1
    = false →
  ExtractPdfData.import_pdfplumber w = false →
  ExtractPdfData.pip_install_pdfplumber w = ExtractPdfData.Raises e →
  (ExtractPdfData.debug_pdf_content w pdf_path password).1 =
    ExtractPdfData.Raises e ∧
  (ExtractPdfData.run findall w pdf_path password).1 = ExtractPdfData.Raises e ∧
  last (ExtractPdfData.run findall w pdf_path password).2 =
    Some ExtractPdfData.PipInstall ∧
  Forall (λ ev, writes_file ev = false ∧
                ∀ path pw, ev ≠ ExtractPdfData.PlumberOpen path pw)
    (ExtractPdfData.run findall w pdf_path password).2.
Proof.
  intros Htext Himport Hpip.
  pose proof (extract_pdf_text_no_writes w pdf_path password) as Hwrites.
  pose proof (extract_pdf_text_no_pdfplumber w pdf_path password) as Hplumber.
  unfold ExtractPdfData.run, ExtractPdfData.extract_text,
    ExtractPdfData.debug_pdf_content.
  rewrite Himport, Hpip.
  destruct (ExtractPdfData.extract_pdf_text w pdf_path password)
    as [text extracted].
  cbn [fst snd] in *. rewrite Htext. cbn [fst snd].
  split; [done | split; [done | split]].
  - rewrite app_comm_cons, last_app. done.
  - constructor; [by split |]. apply Forall_app. split.
    + rewrite Forall_forall in Hwrites, Hplumber. apply Forall_forall.
      intros ev Hev. split; [by apply Hwrites |].
      intros path pw ->. by specialize (Hplumber _ Hev).
    + repeat constructor; done.
Qed.

Lemma failed_installation_is_not_caught_witness :
  (ExtractPdfData.main sample_findall no_pdfplumber).1 =
    ExtractPdfData.Raises "returned non-zero exit status 1" ∧
  (ExtractPdfData.run sample_findall no_pdfplumber "bank_statement.pdf" "secret").1 =
    ExtractPdfData.Raises "returned non-zero exit status 1".
Proof.
  split; [reflexivity |].
  apply (failed_installation_is_not_caught sample_findall no_pdfplumber
           "bank_statement.pdf" "secret" "returned non-zero exit status 1");
    reflexivity.
Defined.

(** X7.  The second library is a fallback only: when [extract_pdf_text]
    gives a text that is not empty, the run neither opens the PDF with
    pdfplumber nor installs it; when it gives none, the run does one of the
    two. *)
Theorem pdfplumber_is_tried_only_after_a_failure
    (findall : string → string → list (list string))
    (w : ExtractPdfData.World) (pdf_path password : string) :
  let trace := (ExtractPdfData.run findall w pdf_path password).2 in
  if ExtractPdfData.truthy (ExtractPdfData.extract_pdf_text w pdf_path password).1
  then Forall (λ e, touches_pdfplumber e = false) trace
  else Exists (λ e, touches_pdfplumber e = true) trace.
Proof.
  intros trace. subst trace. unfold ExtractPdfData.run, ExtractPdfData.extract_text.
  pose proof (extract_pdf_text_no_pdfplumber w pdf_path password) as Hfirst.
  destruct (ExtractPdfData.extract_pdf_text w pdf_path password)
    as [text extracted]. cbn [fst snd] in *.
  destruct (ExtractPdfData.truthy text) eqn:Htext.
  - destruct text as [[|c text]|]; try done.
    pose proof (analyze_text_no_pdfplumber findall w (String c text)) as Hrest.
    destruct (ExtractPdfData.analyze_text findall w (String c text)) as [r out'].
    cbn [snd] in *. constructor; [done |]. by apply Forall_app.
  - assert (Exists (λ e, touches_pdfplumber e = true)
              (ExtractPdfData.debug_pdf_content w pdf_path password).2) as Hsecond.
    { unfold ExtractPdfData.debug_pdf_content.
      repeat case_match; simplify_eq/=;
        first [by apply Exists_cons_tl, Exists_cons_hd
              | by apply Exists_cons_hd]. }
    destruct (ExtractPdfData.debug_pdf_content w pdf_path password)
      as [text' debugged]. cbn [snd] in *.
    assert (Exists (λ e, touches_pdfplumber e = true)
              (ExtractPdfData.Print
                 (ExtractPdfData.Line
                    (ExtractPdfData.nl +:+ "Attempting to extract text from PDF..."))
               :: extracted ++
                  ExtractPdfData.Print
                    (ExtractPdfData.Line "PyPDF2 failed, trying alternative method...")
                  :: debugged)) as Hall.
    { apply Exists_cons_tl, Exists_app. right. by apply Exists_cons_tl. }
    destruct text' as [[[|c t]|]|e'];
      try destruct (ExtractPdfData.analyze_text findall w (String c t));
      cbn [snd]; first [exact Hall | apply Exists_app; by left].
Qed.

(** X8.  Once transactions are parsed, the run writes the report and the
    CSV file of the categorized transactions and no raw text, and it does
    so whether the chart could be saved or not; without a parsed
    transaction it writes the raw text and neither report nor CSV file. *)
Theorem report_and_csv_are_written_together
    (findall : string → string → list (list string))
    (w : ExtractPdfData.World) (text : string) :
  let parsed := (ExtractPdfData.parse_transactions findall text).1 in
  let trace := (ExtractPdfData.analyze_text findall w text).2 in
  (parsed ≠ [] →
     ∃ analysis out,
       ExtractPdfData.analyze_spending
         (ExtractPdfData.categorize_transactions parsed) =
       (ExtractPdfData.Returns
          (Some (analysis,
                 ExtractPdfData.to_row <$>
                   ExtractPdfData.categorize_transactions parsed)), out) ∧
       ExtractPdfData.WriteReport "credit_card_analysis_report.txt" analysis
         ∈ trace ∧
       ExtractPdfData.ToCsv "transactions.csv"
         (ExtractPdfData.to_row <$> ExtractPdfData.categorize_transactions parsed)
         ∈ trace ∧
       ∀ file content, ExtractPdfData.WriteText file content ∉ trace) ∧
  (parsed = [] →
     ExtractPdfData.WriteText "extracted_text.txt" text ∈ trace ∧
     (∀ file analysis, ExtractPdfData.WriteReport file analysis ∉ trace) ∧
     (∀ file df, ExtractPdfData.ToCsv file df ∉ trace)).
Proof.
  intros parsed trace. subst parsed trace. unfold ExtractPdfData.analyze_text.
  assert (∀ (P : ExtractPdfData.Event → bool) (out : list ExtractPdfData.Console),
            (∀ c, P (ExtractPdfData.Print c) = false) →
            Forall (λ e, P e = false) (map ExtractPdfData.Print out))
    as Hprinted.
  { intros P out HP. induction out; by constructor. }
  destruct (ExtractPdfData.parse_transactions findall text) as [ts log].
  cbn [fst]. split.
  - intros Hne. destruct ts as [|t ts]; [done |].
    destruct (analyze_spending_categorized (t :: ts) Hne)
      as (analysis & out & Hrun).
    exists analysis, out. split; [exact Hrun |]. rewrite Hrun. cbn [snd].
    split; [| split].
    + rewrite !elem_of_app, !elem_of_cons. intuition.
    + rewrite !elem_of_app, !elem_of_cons. intuition.
    + assert (Forall (λ e, writes_text e = false)
                (ExtractPdfData.create_visualizations w)) as Hcharts.
      { unfold ExtractPdfData.create_visualizations.
        destruct (ExtractPdfData.savefig w); repeat constructor. }
      intros file content Hin.
      eapply (proj1 (Forall_forall (λ e, writes_text e = false) _)) in Hin;
        [done |].
      repeat (apply Forall_app; split); try (by apply Hprinted);
        try exact Hcharts; repeat constructor.
  - intros ->. cbn [snd]. split; [| split].
    + rewrite !elem_of_app, !elem_of_cons. intuition.
    + intros file analysis Hin.
      eapply (proj1 (Forall_forall (λ e, writes_results e = false) _)) in Hin;
        [done |].
      repeat (apply Forall_app; split); try (by apply Hprinted);
        repeat constructor.
    + intros file df Hin.
      eapply (proj1 (Forall_forall (λ e, writes_results e = false) _)) in Hin;
        [done |].
      repeat (apply Forall_app; split); try (by apply Hprinted);
        repeat constructor.
Qed.

(** X9.  For a PDF that is not encrypted and whose strict reader is built,
    [extract_pdf_text] returns a text, whatever happens to the pages: the
    text holds, for every page that could be extracted, its header and its
    text, a page that could not is left out, and the numbers in the headers
    count the pages left out too.  When no page can be extracted that text
    is empty. *)
Theorem failing_pages_are_skipped
    (w : ExtractPdfData.World) (pdf_path password : string)
    (pdf_reader : ExtractPdfData.Reader) :
  ExtractPdfData.open_rb w pdf_path = ExtractPdfData.Opened →
  ExtractPdfData.PdfReader w pdf_path true = ExtractPdfData.Returns pdf_reader →
  ExtractPdfData.is_encrypted pdf_reader = false →
  (ExtractPdfData.extract_pdf_text w pdf_path password).1 =
    Some (page_blocks 0 (ExtractPdfData.pages pdf_reader)) ∧
  (Forall (λ page, ∃ e, page = ExtractPdfData.Raises e)
     (ExtractPdfData.pages pdf_reader) →
   (ExtractPdfData.extract_pdf_text w pdf_path password).1 = Some "").
Proof.
  intros Hopen Hreader Hplain.
  assert ((ExtractPdfData.extract_pdf_text w pdf_path password).1 =
          Some (page_blocks 0 (ExtractPdfData.pages pdf_reader))) as Htext.
  { unfold ExtractPdfData.extract_pdf_text. rewrite Hopen, Hreader, Hplain.
    pose proof (extract_pages_text 0 (ExtractPdfData.pages pdf_reader) "")
      as Hpages.
    destruct (ExtractPdfData.extract_pages 0 _ "") as [text out].
    cbn [fst] in Hpages. rewrite app_empty in Hpages. by subst text. }
  split; [exact Htext |]. intros Hfail. rewrite Htext. clear Htext Hreader.
  revert Hfail. generalize (ExtractPdfData.pages pdf_reader). intros ps Hfail.
  assert (∀ n, page_blocks n ps = "") as ->; [| done].
  induction Hfail as [|page ps [e ->] _ IH]; intros n; [done |].
  cbn [page_blocks page_block]. rewrite app_empty. apply IH.
Qed.

Lemma failing_pages_are_skipped_witness :
  (ExtractPdfData.extract_pdf_text plain_three_pages "statement.pdf" "secret").1 =
  Some ("--- Page 1 ---" +:+ ExtractPdfData.nl +:+ "one" +:+ ExtractPdfData.nl
          +:+ ExtractPdfData.nl +:+
        "--- Page 3 ---" +:+ ExtractPdfData.nl +:+ "three" +:+ ExtractPdfData.nl
          +:+ ExtractPdfData.nl).
Proof.
  exact (proj1 (failing_pages_are_skipped plain_three_pages
                  "statement.pdf" "secret" _ eq_refl eq_refl eq_refl)).
Defined.

(** X10.  In the alternative approach, taken when the first reader cannot
    be built, the result of [decrypt] is not looked at: when the lenient
    reader is built and every page is extracted, [extract_pdf_text] returns
    the texts of the pages, each followed by a newline and without headers,
    also when [decrypt] answered 0; one page that cannot be extracted makes
    the whole call return [None]. *)
Theorem alternative_approach_ignores_the_decryption_result
    (w : ExtractPdfData.World) (pdf_path password reader_error : string)
    (pdf_reader : ExtractPdfData.Reader) :
  ExtractPdfData.open_rb w pdf_path = ExtractPdfData.Opened →
  ExtractPdfData.PdfReader w pdf_path true = ExtractPdfData.Raises reader_error →
  ExtractPdfData.PdfReader w pdf_path false = ExtractPdfData.Returns pdf_reader →
  (∃ result, ExtractPdfData.decrypt pdf_reader password =
               ExtractPdfData.Returns result) →
  (∀ texts, ExtractPdfData.pages pdf_reader = ExtractPdfData.Returns <$> texts →
     (ExtractPdfData.extract_pdf_text w pdf_path password).1 =
       Some (page_lines texts)) ∧
  (∀ i e, ExtractPdfData.pages pdf_reader !! i = Some (ExtractPdfData.Raises e) →
     (ExtractPdfData.extract_pdf_text w pdf_path password).1 = None).
Proof.
  intros Hopen Hstrict Hlenient [result Hresult].
  unfold ExtractPdfData.extract_pdf_text, ExtractPdfData.alternative_approach.
  rewrite Hopen, Hstrict, Hlenient, Hresult. split.
  - intros texts ->. rewrite extract_pages_alt_text, app_empty.
    by destruct (ExtractPdfData.is_encrypted pdf_reader).
  - intros i e Hi.
    destruct (extract_pages_alt_raises _ "" i e Hi) as [e' ->].
    by destruct (ExtractPdfData.is_encrypted pdf_reader).
Qed.

Lemma alternative_approach_ignores_the_decryption_result_witness :
  (ExtractPdfData.extract_pdf_text (three_pages false 0) "statement.pdf" "secret").1 =
  Some ("one" +:+ ExtractPdfData.nl +:+ "two" +:+ ExtractPdfData.nl +:+
        "three" +:+ ExtractPdfData.nl).
Proof.
  refine (proj1 (alternative_approach_ignores_the_decryption_result
                   (three_pages false 0) "statement.pdf" "secret" _ _
                   eq_refl eq_refl eq_refl (ex_intro _ 0%Z eq_refl))
            ["one"; "two"; "three"] eq_refl).
Defined.

(** ** The cleaning script *)

Section CleanRun.
Import ExtractPdfData (Row, row_date, row_description, row_amount,
                       row_category, row_amount_abs).
Import CleanAnalysis.

Lemma filter_all {A} (P : A → Prop) `{∀ x, Decision (P x)} (l : list A) :
  Forall P l → filter P l = l.
Proof.
  induction 1 as [|x l Hx _ IH]; [done |]. by rewrite filter_cons_True, IH.
Qed.

Lemma groupby_sum_keys (column : Row → option string) df :
  NoDup (map fst (groupby_sum column df)) ∧
  ∀ k, k ∈ map fst (groupby_sum column df) ↔ ∃ r, r ∈ df ∧ column r = Some k.
Proof.
  unfold groupby_sum. rewrite map_map. cbn [fst]. rewrite map_id. split.
  - rewrite sort_by_Permutation. apply NoDup_remove_dups.
  - intros k.
    by rewrite sort_by_Permutation, elem_of_remove_dups, list_elem_of_omap.
Qed.

Lemma first_occurrences (l : list string) :
  NoDup (Pandas.drop_duplicates id [] l) ∧
  ∀ k, k ∈ Pandas.drop_duplicates id [] l ↔ k ∈ l.
Proof.
  split.
  - rewrite <- (list_fmap_id (Pandas.drop_duplicates id [] l)).
    apply drop_duplicates_NoDup.
  - intros k.
    rewrite <- (list_fmap_id (Pandas.drop_duplicates id [] l)),
      drop_duplicates_keys, list_fmap_id.
    split; [tauto |]. intros Hk. split; [done | apply not_elem_of_nil].
Qed.

Lemma value_counts_total df :
  sum_list (map snd (value_counts df)) =
  length (filter (λ r, is_Some (row_category r)) df).
Proof.
  unfold value_counts.
  assert (∀ l1 l2 : list (string * nat), l1 ≡ₚ l2 →
            sum_list (map snd l1) = sum_list (map snd l2)) as Hperm.
  { induction 1; simpl; lia. }
  rewrite (Hperm _ _ (sort_by_Permutation _ _)), map_map. cbn [snd].
  destruct (first_occurrences (omap row_category df)) as [Hnd Hin].
  apply (group_counts_total _ df Hnd).
  intros r k Hr Hk. apply Hin, list_elem_of_omap. by exists r.
Qed.

Lemma ge_count_total p q : ge_count p q = true ∨ ge_count q p = true.
Proof.
  unfold ge_count. destruct (Nat.le_ge_cases p.2 q.2); [right | left];
    by apply bool_decide_eq_true.
Qed.

Lemma descending_counts (l : list (string * nat)) :
  StronglySorted (λ p q, q.2 ≤ p.2) (Pandas.sort_by ge_count l).
Proof.
  apply Sorted_StronglySorted.
  - intros p q r Hpq Hqr. lia.
  - pose proof (sort_by_Sorted ge_count ge_count_total l) as Hs.
    induction Hs as [|p l' _ IH Hhd]; constructor; [done |].
    destruct Hhd as [|q l' Hpq]; constructor.
    by apply bool_decide_eq_true in Hpq.
Qed.

Lemma recategorized_rows df :
  Forall (λ r, is_Some (row_category r)) (improve_categorization df).
Proof.
  unfold improve_categorization. apply Forall_forall.
  intros r (r0 & <- & _)%list_elem_of_In%in_map_iff. by eexists.
Qed.

End CleanRun.

(** X11.  Cleaning a cleaned frame changes nothing; the cleaned frame
    holds rows of the input in their order, unchanged, and the two counts
    that [clean_transactions] prints are the numbers of rows before and
    after, the second never the larger. *)
Theorem cleaning_is_idempotent (df : list ExtractPdfData.Row) :
  let cleaned := (CleanAnalysis.clean_transactions df).1 in
  (CleanAnalysis.clean_transactions cleaned).1 = cleaned ∧
  sublist cleaned df ∧
  (CleanAnalysis.clean_transactions df).2 =
    [CleanAnalysis.OriginalTransactions (length df);
     CleanAnalysis.CleanedTransactions (length cleaned)] ∧
  length cleaned ≤ length df.
Proof.
  intros cleaned.
  assert (sublist cleaned df) as Hsub.
  { subst cleaned. unfold CleanAnalysis.clean_transactions. cbn [fst].
    etrans; [apply drop_duplicates_sublist |].
    etrans; [apply sublist_filter |].
    etrans; [apply sublist_filter |]. apply sublist_filter. }
  split; [| split; [exact Hsub | split; [done | by apply sublist_length]]].
  assert (∀ r, r ∈ cleaned →
            CleanAnalysis.invalid_date (ExtractPdfData.row_date r) = false ∧
            (ExtractPdfData.row_amount_abs r < Q2Qc 100000)%Qc ∧
            CleanAnalysis.garbled (ExtractPdfData.row_description r) = false)
    as Hpass by apply clean_transactions_in.
  assert (NoDup (CleanAnalysis.subset <$> cleaned)) as Hnd
    by apply drop_duplicates_NoDup.
  assert (Forall (λ r, CleanAnalysis.invalid_date (ExtractPdfData.row_date r)
                       = false) cleaned) as Hdate
    by (apply Forall_forall; intros r Hr; by apply Hpass).
  assert (Forall (λ r, (ExtractPdfData.row_amount_abs r < Q2Qc 100000)%Qc)
            cleaned) as Hamount
    by (apply Forall_forall; intros r Hr; by apply Hpass).
  assert (Forall (λ r, CleanAnalysis.garbled (ExtractPdfData.row_description r)
                       = false) cleaned) as Hmarker
    by (apply Forall_forall; intros r Hr; by apply Hpass).
  unfold CleanAnalysis.clean_transactions at 1. cbn [fst].
  rewrite (filter_all _ cleaned Hdate), (filter_all _ cleaned Hamount),
    (filter_all _ cleaned Hmarker).
  apply drop_duplicates_fixed; [done |]. intros k _. apply not_elem_of_nil.
Qed.

(** X12.  In the analysis of a frame recategorized by
    [improve_categorization], the counts of [category_counts] add up to
    [number_of_transactions], which is the number of rows,
    [category_breakdown] and [category_counts] list the same categories,
    and both are in descending order, of amount and of count. *)
Theorem clean_analysis_adds_up (df : list ExtractPdfData.Row) :
  let analysis :=
    CleanAnalysis.generate_clean_analysis (CleanAnalysis.improve_categorization df) in
  sum_list (map snd (CleanAnalysis.category_counts analysis)) =
    CleanAnalysis.number_of_transactions analysis ∧
  CleanAnalysis.number_of_transactions analysis = length df ∧
  map fst (CleanAnalysis.category_breakdown analysis) ≡ₚ
    map fst (CleanAnalysis.category_counts analysis) ∧
  StronglySorted (λ p q, (q.2 ≤ p.2)%Qc) (CleanAnalysis.category_breakdown analysis) ∧
  StronglySorted (λ p q, q.2 ≤ p.2) (CleanAnalysis.category_counts analysis).
Proof.
  intros analysis. subst analysis.
  pose proof (recategorized_rows df) as Hcat.
  set (rows := CleanAnalysis.improve_categorization df) in *.
  unfold CleanAnalysis.generate_clean_analysis.
  cbn [CleanAnalysis.category_breakdown
       CleanAnalysis.category_counts CleanAnalysis.number_of_transactions].
  split; [| split; [| split; [| split]]].
  - by rewrite value_counts_total, filter_all.
  - subst rows. unfold CleanAnalysis.improve_categorization. apply length_map.
  - unfold CleanAnalysis.sort_values_desc, CleanAnalysis.value_counts.
    rewrite !(Permutation_map fst (sort_by_Permutation _ _)).
    rewrite map_map. cbn [fst]. rewrite map_id.
    destruct (groupby_sum_keys ExtractPdfData.row_category rows) as [Hnd Hin].
    destruct (first_occurrences (omap ExtractPdfData.row_category rows))
      as [Hnd' Hin'].
    apply NoDup_Permutation; [done | done |]. intros k.
    by rewrite Hin, Hin', list_elem_of_omap.
  - apply descending_breakdown.
  - apply descending_counts.
Qed.

(** X15.  The five amount ranges of the last chart, below 100, from 100,
    from 500, from 1000 and from 5000 on, leave no transaction out and
    count none twice: their counts add up to the number of rows. *)
Theorem amount_ranges_partition_the_rows (df : list ExtractPdfData.Row) :
  map fst (CleanAnalysis.range_counts df) =
    ["<100"; "100-500"; "500-1000"; "1000-5000"; "5000+"] ∧
  sum_list (map snd (CleanAnalysis.range_counts df)) = length df.
Proof.
  split; [done |]. unfold CleanAnalysis.range_counts. cbn [map snd sum_list].
  induction df as [|r df IH]; [done |].
  rewrite !filter_cons. cbn [length]. rewrite <- IH. clear IH.
  repeat destruct (decide _) as [?|?]; cbn [length]; unfold id; try lia;
    exfalso;
    repeat match goal with
           | H : ¬ (_ ∧ _) |- _ => apply not_and_l in H as [H|H]
           | H : _ ∧ _ |- _ => destruct H
           | H : ¬ (_ < _)%Qc |- _ => apply Qcnot_lt_le in H
           | H : ¬ (_ ≤ _)%Qc |- _ => apply Qcnot_le_lt in H
           end;
    qc_order.
Qed.

(** ** Average and median *)

Section Median.

Lemma le_value_total x y : Pandas.le_value x y = true ∨ Pandas.le_value y x = true.
Proof.
  unfold Pandas.le_value. destruct (Qc_le_total x y); [left | right];
    by apply bool_decide_eq_true.
Qed.

Lemma sorted_values (l : list Qc) :
  Pandas.sort_by Pandas.le_value l ≡ₚ l ∧
  StronglySorted Qcle (Pandas.sort_by Pandas.le_value l).
Proof.
  split; [apply sort_by_Permutation |].
  apply Sorted_StronglySorted; [intros x y z; apply Qcle_trans |].
  pose proof (sort_by_Sorted Pandas.le_value le_value_total l) as Hs.
  induction Hs as [|p l' _ IH Hhd]; constructor; [done |].
  destruct Hhd as [|q l' Hpq]; constructor.
  by apply bool_decide_eq_true in Hpq.
Qed.

Lemma strongly_sorted_lookup (s : list Qc) i j x y :
  StronglySorted Qcle s → i ≤ j → s !! i = Some x → s !! j = Some y →
  (x ≤ y)%Qc.
Proof.
  intros Hs. revert i j. induction Hs as [|z s _ IH Hall]; intros i j Hij Hi Hj.
  - done.
  - destruct i as [|i], j as [|j]; simplify_eq/=; try lia.
    + apply Qcle_refl.
    + rewrite Forall_forall in Hall. by eapply Hall, list_elem_of_lookup_2.
    + eapply IH; [| done | done]. lia.
Qed.

Lemma count_prefix (P : Qc → Prop) `{∀ x, Decision (P x)} (s : list Qc) k :
  Forall P (take k s) → k `min` length s ≤ length (filter P s).
Proof.
  intros Hall. rewrite <- (take_drop k s) at 2.
  rewrite filter_app, length_app, (filter_all P _ Hall), length_take. lia.
Qed.

Lemma count_suffix (P : Qc → Prop) `{∀ x, Decision (P x)} (s : list Qc) k :
  Forall P (drop k s) → length s - k ≤ length (filter P s).
Proof.
  intros Hall. rewrite <- (take_drop k s) at 2.
  rewrite filter_app, length_app, (filter_all P _ Hall), length_drop. lia.
Qed.

Lemma midpoint (a b : Qc) :
  (a ≤ b)%Qc → (a ≤ (a + b) / Q2Qc 2)%Qc ∧ ((a + b) / Q2Qc 2 ≤ b)%Qc.
Proof.
  unfold Qcle, Qcdiv, Qcmult, Qcinv, Qcplus. cbn [this Q2Qc].
  rewrite !Qred_correct. intros Hab.
  assert (/ 2 == 1 # 2)%Q as -> by reflexivity. split; lra.
Qed.

Lemma median_halves (l : list Qc) :
  l ≠ [] →
  ∃ m, Pandas.median l = Some m ∧
       length l ≤ 2 * length (filter (λ x, (x ≤ m)%Qc) l) ∧
       length l ≤ 2 * length (filter (λ x, (m ≤ x)%Qc) l).
Proof.
  intros Hne. unfold Pandas.median.
  destruct (sorted_values l) as [Hperm Hsorted].
  set (s := Pandas.sort_by Pandas.le_value l) in *.
  assert (length s = length l) as Hlen by (by rewrite Hperm).
  assert (0 < length l) as Hpos by (destruct l; [done | simpl; lia]).
  assert (∀ (P : Qc → Prop) `{∀ x, Decision (P x)},
            length (filter P l) = length (filter P s)) as Hcount.
  { intros P ?. by rewrite Hperm. }
  rewrite bool_decide_false by lia.
  destruct (Nat.odd (length s)) eqn:Hodd.
  - apply Nat.odd_spec in Hodd as [h Hh].
    assert (length s `div` 2 = h) as ->
      by (symmetry; apply (Nat.div_unique _ 2 h 1); lia).
    destruct (lookup_lt_is_Some_2 s h) as [m Hm]; [lia |].
    exists m. split; [done |]. rewrite !Hcount. split.
    + assert (Forall (λ x, (x ≤ m)%Qc) (take (S h) s)) as Hall.
      {
        apply Forall_lookup_2. intros j x [Hx Hj]%lookup_take_Some.
        eapply (strongly_sorted_lookup s j h); [done | lia | done | done].
      }
      pose proof (count_prefix _ s (S h) Hall). lia.
    + assert (Forall (λ x, (m ≤ x)%Qc) (drop h s)) as Hall.
      {
        apply Forall_lookup_2. intros j x Hx. rewrite lookup_drop in Hx.
        eapply (strongly_sorted_lookup s h (h + j)); [done | lia | done | done].
      }
      pose proof (count_suffix _ s h Hall). lia.
  - assert (Nat.even (length s) = true) as Heven
      by (by rewrite <- Nat.negb_odd, Hodd).
    apply Nat.even_spec in Heven as [h Hh].
    assert (length s `div` 2 = h) as ->
      by (symmetry; apply (Nat.div_unique _ 2 h 0); lia).
    destruct (lookup_lt_is_Some_2 s (h - 1)) as [a Ha]; [lia |].
    destruct (lookup_lt_is_Some_2 s h) as [b Hb]; [lia |].
    rewrite Ha, Hb. cbn [mbind option_bind].
    assert (a ≤ b)%Qc as Hab
      by (eapply (strongly_sorted_lookup s (h - 1) h); [done | lia | done | done]).
    destruct (midpoint a b Hab) as [Hlo Hhi].
    eexists. split; [done |]. rewrite !Hcount. split.
    + assert (Forall (λ x, (x ≤ (a + b) / Q2Qc 2)%Qc) (take h s)) as Hall.
      {
        apply Forall_lookup_2. intros j x [Hx Hj]%lookup_take_Some.
        eapply Qcle_trans; [| exact Hlo].
        eapply (strongly_sorted_lookup s j (h - 1)); [done | lia | done | done].
      }
      pose proof (count_prefix _ s h Hall). lia.
    + assert (Forall (λ x, ((a + b) / Q2Qc 2 ≤ x)%Qc) (drop h s)) as Hall.
      {
        apply Forall_lookup_2. intros j x Hx. rewrite lookup_drop in Hx.
        eapply Qcle_trans; [exact Hhi |].
        eapply (strongly_sorted_lookup s h (h + j)); [done | lia | done | done].
      }
      pose proof (count_suffix _ s h Hall). lia.
Qed.

End Median.

(** X14.  In [generate_clean_analysis], the average and the median are
    undefined exactly for an empty frame.  For any other frame the median
    splits the absolute amounts in halves: at least half of them are at
    most the median and at least half are at least the median. *)
Theorem median_splits_the_amounts (df : list ExtractPdfData.Row) :
  let analysis := CleanAnalysis.generate_clean_analysis df in
  let amounts := map ExtractPdfData.row_amount_abs df in
  (df = [] →
     CleanAnalysis.average_transaction analysis = None ∧
     CleanAnalysis.median_transaction analysis = None) ∧
  (df ≠ [] →
     ∃ a m,
       CleanAnalysis.average_transaction analysis = Some a ∧
       CleanAnalysis.median_transaction analysis = Some m ∧
       length df ≤ 2 * length (filter (λ x, (x ≤ m)%Qc) amounts) ∧
       length df ≤ 2 * length (filter (λ x, (m ≤ x)%Qc) amounts)).
Proof.
  intros analysis amounts. subst analysis amounts.
  split.
  - by intros ->.
  - intros Hne.
    assert (map ExtractPdfData.row_amount_abs df ≠ []) as Hne' by (by destruct df).
    destruct (median_halves _ Hne') as (m & Hm & Hlo & Hhi).
    destruct (Pandas.mean (map ExtractPdfData.row_amount_abs df)) as [a|] eqn:Ha;
      [| by destruct df].
    exists a, m. unfold CleanAnalysis.generate_clean_analysis.
    cbn [CleanAnalysis.average_transaction CleanAnalysis.median_transaction].
    by rewrite length_map in Hlo, Hhi.
Qed.

(** ** The SaaS filter *)

Section SaasFilter.

Lemma all_chars_substring p (k d : string) :
  PyStr.str_in k d = true → all_chars p d = true → all_chars p k = true.
Proof.
  intros (pre & post & ->)%str_in_spec.
  rewrite !all_chars_app, !andb_true_iff. tauto.
Qed.

Lemma ascii_upper_char_not_lower c :
  is_lower (SaasAnalysis.ascii_upper_char c) = false.
Proof. destruct c as [[] [] [] [] [] [] [] []]; reflexivity. Qed.

Lemma ascii_upper_leaves_no_lowercase :
  leaves_no_lowercase SaasAnalysis.ascii_upper.
Proof.
  intros s. induction s as [|c s IH]; [done |].
  cbn [SaasAnalysis.ascii_upper all_chars].
  by rewrite ascii_upper_char_not_lower, IH.
Qed.

Lemma mixed_case_absent upper (k d : string) :
  leaves_no_lowercase upper →
  all_chars (λ c, negb (is_lower c)) k = false →
  PyStr.str_in k (upper d) = false.
Proof.
  intros Hupper Hk. destruct (PyStr.str_in k (upper d)) eqn:Hin; [| done].
  rewrite (all_chars_substring _ _ _ Hin (Hupper d)) in Hk. done.
Qed.

Lemma find_service_capitals (description : string) cat keyword :
  PyStr.str_in "Colab" description = false →
  PyStr.str_in "Gandi" description = false →
  SaasAnalysis.find_service description SaasAnalysis.saas_keywords =
    Some (cat, keyword) →
  (cat, SaasAnalysis.ascii_lower keyword) ∈ capital_services.
Proof.
  intros Hcolab Hgandi. unfold SaasAnalysis.saas_keywords.
  cbn [SaasAnalysis.find_service SaasAnalysis.find_keyword].
  rewrite Hcolab, Hgandi.
  repeat (destruct (PyStr.str_in _ description); cbv beta iota;
          [intros ?; simplify_eq;
           apply (bool_decide_unpack (_ ∈ capital_services)); by vm_compute |]).
  done.
Qed.

Lemma displayed_service cat service :
  (cat, service) ∈ capital_services →
  (service, default service (SaasAnalysis.service_mapping !! service))
    ∈ displayed_services.
Proof.
  unfold capital_services. rewrite !elem_of_cons, elem_of_nil. intros H.
  repeat (destruct H as [[= -> ->] | H];
          [apply (bool_decide_unpack (_ ∈ displayed_services)); by vm_compute |]).
  done.
Qed.

End SaasFilter.

Section SaasRows.
Variable upper : string → string.
Variable astype_str : Qc → string.

Lemma saas_transaction_row r sr :
  SaasAnalysis.saas_transaction upper r = Some sr → SaasAnalysis.row sr = r.
Proof.
  unfold SaasAnalysis.saas_transaction.
  destruct (SaasAnalysis.find_service _ _) as [[cat keyword]|]; [| done].
  by intros [= <-].
Qed.

Lemma matched_rows df :
  sublist (map SaasAnalysis.row (omap (SaasAnalysis.saas_transaction upper) df)) df.
Proof.
  induction df as [|r df IH]; [constructor |]. cbn [omap list_omap].
  destruct (SaasAnalysis.saas_transaction upper r) as [sr|] eqn:Hr.
  - cbn [map]. rewrite (saas_transaction_row _ _ Hr). by apply sublist_skip.
  - by apply sublist_cons.
Qed.

Lemma load_and_filter_rows df :
  (SaasAnalysis.load_and_filter_saas_data upper astype_str df).1 =
  Pandas.drop_duplicates (SaasAnalysis.unique_id astype_str) []
    (omap (SaasAnalysis.saas_transaction upper) df).
Proof.
  unfold SaasAnalysis.load_and_filter_saas_data.
  by destruct (omap _ df).
Qed.

Lemma NoDup_fmap_eq {A B} (f : A → B) (l : list A) x y :
  NoDup (f <$> l) → x ∈ l → y ∈ l → f x = f y → x = y.
Proof.
  induction l as [|z l IH]; [by intros _ ?%elem_of_nil |].
  rewrite fmap_cons, NoDup_cons, !elem_of_cons.
  intros [Hz Hl] [-> | Hx] [-> | Hy] Heq; [done | | | by apply IH].
  - destruct Hz. rewrite Heq. by apply list_elem_of_fmap_2.
  - destruct Hz. rewrite <- Heq. by apply list_elem_of_fmap_2.
Qed.

End SaasRows.

(** X18.  When [upper] leaves no ASCII lower-case letter in its result, as
    [str.upper] does, the keywords ['Colab'] and ['Gandi'] of
    [saas_keywords] never occur in an upper-cased description.  Every
    selected row then has one of the fourteen services of the keywords in
    capitals with its category, and [extract_service_details] never shows
    the names of the mapping for ['colab'] and ['gandi']; the service
    ['rss.app'], which the mapping does not have, is shown under its own
    key. *)
Theorem mixed_case_keywords_never_match
    (upper : string → string) (astype_str : Qc → string)
    (Hupper : leaves_no_lowercase upper) (df : list ExtractPdfData.Row) :
  (∀ description,
     PyStr.str_in "Colab" (upper description) = false ∧
     PyStr.str_in "Gandi" (upper description) = false) ∧
  (∀ r sr,
     SaasAnalysis.saas_transaction upper r = Some sr →
     (SaasAnalysis.saas_category sr, SaasAnalysis.saas_service sr)
       ∈ capital_services) ∧
  (∀ d,
     d ∈ SaasAnalysis.extract_service_details upper
           (SaasAnalysis.load_and_filter_saas_data upper astype_str df).1 →
     (SaasAnalysis.saas_service (SaasAnalysis.saas d), SaasAnalysis.service_name d)
       ∈ displayed_services ∧
     SaasAnalysis.service_name d ≠ "Google Colab Pro" ∧
     SaasAnalysis.service_name d ≠ "Gandi Domain/Hosting").
Proof.
  assert (∀ description,
            PyStr.str_in "Colab" (upper description) = false ∧
            PyStr.str_in "Gandi" (upper description) = false) as Habsent.
  { intros description. split; by apply mixed_case_absent. }
  assert (∀ r sr,
            SaasAnalysis.saas_transaction upper r = Some sr →
            (SaasAnalysis.saas_category sr, SaasAnalysis.saas_service sr)
              ∈ capital_services) as Hservice.
  { intros r sr. unfold SaasAnalysis.saas_transaction.
    destruct (SaasAnalysis.find_service _ _) as [[cat keyword]|] eqn:Hfind;
      [| done].
    intros [= <-]. cbn [SaasAnalysis.saas_category SaasAnalysis.saas_service].
    destruct (Habsent (ExtractPdfData.row_description r)) as [Hcolab Hgandi].
    by apply (find_service_capitals _ _ _ Hcolab Hgandi). }
  split; [done | split; [done |]].
  intros d. unfold SaasAnalysis.extract_service_details.
  rewrite load_and_filter_rows.
  intros (sr & -> & Hsr)%list_elem_of_fmap.
  cbn [SaasAnalysis.saas SaasAnalysis.service_name].
  pose proof (elem_of_sublist _ _ _ Hsr (drop_duplicates_sublist _ _ _))
    as Hmatched.
  apply list_elem_of_omap in Hmatched as (r & _ & Hr).
  pose proof (displayed_service _ _ (Hservice r sr Hr)) as Hshown.
  split; [done |].
  apply (list_elem_of_fmap_2 snd) in Hshown. cbn [snd] in Hshown.
  split; intros Heq; rewrite Heq in Hshown; revert Hshown;
    apply (bool_decide_unpack (_ ∉ snd <$> displayed_services)); by vm_compute.
Qed.

Lemma mixed_case_keywords_never_match_witness :
  leaves_no_lowercase SaasAnalysis.ascii_upper ∧
  map SaasAnalysis.service_name
    (SaasAnalysis.extract_service_details SaasAnalysis.ascii_upper
       (SaasAnalysis.load_and_filter_saas_data SaasAnalysis.ascii_upper
          sample_astype sample_saas_frame).1) =
    ["Google Cloud/Services"; "Cursor AI IDE"] ∧
  ∀ d,
    d ∈ SaasAnalysis.extract_service_details SaasAnalysis.ascii_upper
          (SaasAnalysis.load_and_filter_saas_data SaasAnalysis.ascii_upper
             sample_astype sample_saas_frame).1 →
    SaasAnalysis.service_name d ≠ "Google Colab Pro" ∧
    SaasAnalysis.service_name d ≠ "Gandi Domain/Hosting".
Proof.
  split; [apply ascii_upper_leaves_no_lowercase |].
  split; [by vm_compute |].
  intros d Hd.
  apply (mixed_case_keywords_never_match SaasAnalysis.ascii_upper sample_astype
           ascii_upper_leaves_no_lowercase sample_saas_frame).
  exact Hd.
Defined.

Section UniqueIds.

Lemma unique_id_parts (d1 d2 a1 a2 : string) :
  no_underscore a1 = true → no_underscore a2 = true →
  d1 +:+ "_" +:+ a1 = d2 +:+ "_" +:+ a2 → d1 = d2 ∧ a1 = a2.
Proof.
  intros Ha1 Ha2.
  assert (∀ a, "_" +:+ a = String "_" a) as Hu
    by (intros a; by rewrite app_cons, app_empty).
  assert (∀ d a, no_underscore (d +:+ String "_" a) = false) as Hno.
  { intros d a. unfold no_underscore. rewrite all_chars_app. cbn [all_chars].
    apply andb_false_r. }
  rewrite !Hu. revert d2.
  induction d1 as [|c d1 IH]; intros [|c' d2].
  - rewrite !app_empty. by intros [= ->].
  - rewrite app_empty, app_cons. intros [= <- ->]. by rewrite Hno in Ha1.
  - rewrite app_empty, app_cons. intros [= -> <-]. by rewrite Hno in Ha2.
  - rewrite !app_cons. intros [= -> Hrest]. by destruct (IH d2 Hrest) as [-> ->].
Qed.

Lemma sample_astype_renders_apart : renders_apart sample_astype sample_saas_frame.
Proof.
  split.
  - intros r1 r2. unfold sample_saas_frame.
    rewrite !elem_of_cons, !elem_of_nil. intros H1 H2.
    repeat (destruct H1 as [-> | H1]); try contradiction;
      repeat (destruct H2 as [-> | H2]); try contradiction;
      intros Heq; first [by apply Qc_is_canon | by vm_compute in Heq].
  - intros r. unfold sample_saas_frame.
    rewrite !elem_of_cons, !elem_of_nil. intros H.
    repeat (destruct H as [-> | H]); try contradiction; by vm_compute.
Qed.

End UniqueIds.

(** X19.  [load_and_filter_saas_data] returns rows of the frame it read, in
    their order and unchanged, each with the category and service found for
    it.  When the renderings of the amounts tell the amounts apart and hold
    no underscore, every matching row has a returned row with its
    description, a leading date apart, and its absolute amount.  Two
    returned rows never agree on both: a charge repeated on another date
    with the same amount is returned once.  Nothing is returned exactly
    when no row matches, and the two printed numbers are those of the
    matching and of the returned rows. *)
Theorem saas_rows_are_returned_once_per_charge
    (upper : string → string) (astype_str : Qc → string)
    (df : list ExtractPdfData.Row) :
  renders_apart astype_str df →
  let matched := omap (SaasAnalysis.saas_transaction upper) df in
  let result := SaasAnalysis.load_and_filter_saas_data upper astype_str df in
  sublist (map SaasAnalysis.row result.1) df ∧
  (∀ sr, sr ∈ result.1 →
     SaasAnalysis.saas_transaction upper (SaasAnalysis.row sr) = Some sr) ∧
  (∀ r sr,
     r ∈ df → SaasAnalysis.saas_transaction upper r = Some sr →
     ∃ kept, kept ∈ result.1 ∧ same_charge (SaasAnalysis.row kept) r) ∧
  (∀ sr1 sr2,
     sr1 ∈ result.1 → sr2 ∈ result.1 →
     same_charge (SaasAnalysis.row sr1) (SaasAnalysis.row sr2) → sr1 = sr2) ∧
  (result.1 = [] ↔ Forall (λ r, SaasAnalysis.saas_transaction upper r = None) df) ∧
  result.2 =
    (if decide (result.1 = []) then [SaasAnalysis.NoSaasFound]
     else [SaasAnalysis.BeforeDeduplication (length matched);
           SaasAnalysis.AfterDeduplication (length result.1)]) ∧
  length result.1 ≤ length matched ≤ length df.
Proof.
  intros [Hinj Hplain] matched result.
  assert (result.1 =
          Pandas.drop_duplicates (SaasAnalysis.unique_id astype_str) [] matched)
    as Hrows by apply load_and_filter_rows.
  assert (sublist result.1 matched) as Hsub
    by (rewrite Hrows; apply drop_duplicates_sublist).
  assert (sublist (map SaasAnalysis.row result.1) df) as Hsubrows.
  { transitivity (map SaasAnalysis.row matched);
      [by apply fmap_sublist | apply matched_rows]. }
  assert (∀ sr, sr ∈ result.1 →
            SaasAnalysis.saas_transaction upper (SaasAnalysis.row sr) = Some sr)
    as Hfound.
  { intros sr Hsr. pose proof (elem_of_sublist _ _ _ Hsr Hsub) as Hm.
    apply list_elem_of_omap in Hm as (r & _ & Hr).
    by rewrite (saas_transaction_row _ _ _ Hr). }
  assert (result.1 = [] ↔ matched = []) as Hempty.
  { rewrite Hrows. destruct matched as [|sr rest]; [done |].
    cbn [Pandas.drop_duplicates]. rewrite decide_False by apply not_elem_of_nil.
    done. }
  split; [done | split; [done | split; [| split; [| split; [| split]]]]].
  - intros r sr Hr Hsr.
    assert (sr ∈ matched) as Hm by (apply list_elem_of_omap; eauto).
    assert (SaasAnalysis.unique_id astype_str sr
              ∈ SaasAnalysis.unique_id astype_str <$> result.1) as Hid.
    { rewrite Hrows. apply drop_duplicates_keys.
      split; [by apply list_elem_of_fmap_2 | apply not_elem_of_nil]. }
    apply list_elem_of_fmap in Hid as (kept & Hid & Hkept).
    assert (SaasAnalysis.row kept ∈ df) as Hkeptrow
      by (apply (elem_of_sublist _ _ _ (list_elem_of_fmap_2 _ _ _ Hkept) Hsubrows)).
    exists kept. split; [done |].
    rewrite <- (saas_transaction_row _ _ _ Hsr).
    rewrite <- (saas_transaction_row _ _ _ Hsr) in Hr.
    unfold SaasAnalysis.unique_id in Hid.
    apply unique_id_parts in Hid as [Hdesc Hamount]; [| by apply Hplain..].
    split; [done |]. symmetry. by apply Hinj.
  - intros sr1 sr2 H1 H2 [Hdesc Hamount].
    apply (NoDup_fmap_eq (SaasAnalysis.unique_id astype_str) result.1);
      [rewrite Hrows; apply drop_duplicates_NoDup | done | done |].
    unfold SaasAnalysis.unique_id. by rewrite Hdesc, Hamount.
  - rewrite Hempty. subst matched. clear.
    induction df as [|r df IH]; [by split; [constructor |] |].
    cbn [omap list_omap]. rewrite Forall_cons.
    destruct (SaasAnalysis.saas_transaction upper r); [| tauto].
    split; [done | by intros [? _]].
  - subst result matched. unfold SaasAnalysis.load_and_filter_saas_data.
    destruct (omap (SaasAnalysis.saas_transaction upper) df) as [|sr rest];
      [done |].
    cbn [fst snd]. rewrite decide_False; [done |].
    cbn [Pandas.drop_duplicates].
    by rewrite decide_False by apply not_elem_of_nil.
  - split; [by apply sublist_length |].
    rewrite <- (length_map SaasAnalysis.row). apply sublist_length, matched_rows.
Qed.

Lemma saas_rows_are_returned_once_per_charge_witness :
  renders_apart sample_astype sample_saas_frame ∧
  map (λ sr, ExtractPdfData.row_date (SaasAnalysis.row sr))
    (SaasAnalysis.load_and_filter_saas_data SaasAnalysis.ascii_upper
       sample_astype sample_saas_frame).1 = ["03/01"; "03/05"] ∧
  length
    (SaasAnalysis.load_and_filter_saas_data SaasAnalysis.ascii_upper
       sample_astype sample_saas_frame).1 ≤ 4.
Proof.
  split; [exact sample_astype_renders_apart |].
  split; [by vm_compute |].
  pose proof (saas_rows_are_returned_once_per_charge SaasAnalysis.ascii_upper
                sample_astype sample_saas_frame sample_astype_renders_apart)
    as (_ & _ & _ & _ & _ & _ & Hlen & Hlen').
  exact (Nat.le_trans _ _ _ Hlen Hlen').
Defined.

Example repeated_charge_is_returned_once :
  map (λ sr, ExtractPdfData.row_date (SaasAnalysis.row sr))
    (SaasAnalysis.load_and_filter_saas_data SaasAnalysis.ascii_upper
       sample_astype sample_saas_frame).1 = ["03/01"; "03/05"] ∧
  (SaasAnalysis.load_and_filter_saas_data SaasAnalysis.ascii_upper
     sample_astype sample_saas_frame).2 =
    [SaasAnalysis.BeforeDeduplication 3; SaasAnalysis.AfterDeduplication 2].
Proof. split; by vm_compute. Qed.
